(** * BusNav server: bearer-token verification, request handlers and the
      key-value access layer

    A shallow embedding of the Hono server of the BusNav repository
    (the file that registers the [/make-server-8828d0dd/...] routes) and
    proofs about its handlers; with it, the browser's client module
    ([utils/supabase/client.ts], module [Client]) and the seed of the
    database script ([DATABASE_SCHEMA], module [Seed]).

    Conventions of the embedding.
    - A JavaScript string is a [string]; one character stands for one
      UTF-16 code unit (those below 256), so [String.length] is the
      [.length] of the source.
    - A JavaScript Number is a [number]: NaN, the two infinities, or a
      finite value given by the rational it denotes (every finite double is
      a rational; [-0] is identified with [0], which no handler can tell
      apart).
    - [await] is sequencing: a handler is a function from the world it
      starts in to its response and the world it leaves.
    - The identity provider ([supabase.auth...]) and the clock are inputs of
      a request, gathered in [Env]; every call to the provider and to the
      store is recorded in the world's trace. *)

From Stdlib Require Import Ascii QArith.
From stdpp Require Import gmap strings list fin_maps pretty.

Local Open Scope Z_scope.
Set Warnings "-register-all".

(** ** JavaScript values *)

Inductive number :=
| NaN
| PosInf
| NegInf
| Fin (q : Q).

Inductive jsval :=
| JUndefined
| JNull
| JBool (b : bool)
| JNum (n : number)
| JStr (s : string)
| JArr (elems : list jsval)
| JObj (fields : list (string * jsval)).

(** The result of a call that may throw; [Throws m] carries [err.message]. *)
Inductive outcome (A : Type) :=
| Returns (a : A)
| Throws (message : jsval).
Arguments Returns {A} a.
Arguments Throws {A} message.

(** What the language runtime supplies and this repository does not define:
    the Number-to-String and String-to-Number conversions of ECMAScript, and
    the message of the TypeError raised on reading a property of [null] or
    [undefined], or on converting to a primitive an object that has none. *)
Class Runtime := {
  Number_toString : number -> string;
  StringToNumber : string -> number;
  TypeError_message : jsval -> string;
}.

Definition Qltb (a b : Q) : bool := Qnum a * QDen b <? Qnum b * QDen a.

(** [x < y] on Numbers: false as soon as one side is NaN. *)
Definition num_ltb (x y : number) : bool :=
  match x, y with
  | NaN, _ | _, NaN => false
  | PosInf, _ | _, NegInf => false
  | NegInf, _ | _, PosInf => true
  | Fin a, Fin b => Qltb a b
  end.

Definition num_of_Z (z : Z) : number := Fin (inject_Z z).
Definition num_of_nat (n : nat) : number := num_of_Z (Z.of_nat n).

(** ToBoolean: what [!v], [v || w] and [if (v)] look at. *)
Definition truthy (v : jsval) : bool :=
  match v with
  | JUndefined | JNull => false
  | JBool b => b
  | JNum NaN => false
  | JNum (Fin q) => negb (Qeq_bool q 0)
  | JNum _ => true
  | JStr s => negb (String.eqb s "")
  | JArr _ | JObj _ => true
  end.

Definition js_not (v : jsval) : bool := negb (truthy v).

(** [a || b] *)
Definition js_or (a b : jsval) : jsval := if truthy a then a else b.

(** Property lookup in an object literal or a parsed JSON object. *)
Fixpoint assoc (k : string) (fs : list (string * jsval)) : jsval :=
  match fs with
  | [] => JUndefined
  | (k', v) :: rest => if String.eqb k k' then v else assoc k rest
  end.

(** [k in fs], for the own properties of a parsed JSON object. *)
Fixpoint has_key (k : string) (fs : list (string * jsval)) : bool :=
  match fs with
  | [] => false
  | (k', _) :: rest => String.eqb k k' || has_key k rest
  end.

Section Coercions.
Context `{Runtime}.

(** ToString, as a template literal applies it. An array is joined with
    commas, [null] and [undefined] elements giving the empty string. A
    parsed JSON object is ["[object Object]"], unless it has a property
    [toString] of its own: that one is not callable and hides the
    inherited method, and the conversion throws a TypeError. *)
Fixpoint ToString (v : jsval) : outcome string :=
  match v with
  | JUndefined => Returns "undefined"
  | JNull => Returns "null"
  | JBool true => Returns "true"
  | JBool false => Returns "false"
  | JNum n => Returns (Number_toString n)
  | JStr s => Returns s
  | JArr l =>
      (fix join (l : list jsval) : outcome string :=
         match l with
         | [] => Returns ""
         | x :: r =>
             match match x with
                   | JUndefined | JNull => Returns ""
                   | _ => ToString x
                   end with
             | Throws e => Throws e
             | Returns sx =>
                 match r with
                 | [] => Returns sx
                 | _ => match join r with
                        | Throws e => Throws e
                        | Returns sr => Returns (sx +:+ "," +:+ sr)
                        end
                 end
             end
         end) l
  | JObj fs =>
      if has_key "toString" fs then Throws (JStr (TypeError_message v))
      else Returns "[object Object]"
  end.

(** ToNumber; arrays and objects go through their string form. *)
Definition ToNumber (v : jsval) : outcome number :=
  match v with
  | JUndefined => Returns NaN
  | JNull => Returns (num_of_Z 0)
  | JBool true => Returns (num_of_Z 1)
  | JBool false => Returns (num_of_Z 0)
  | JNum n => Returns n
  | JStr s => Returns (StringToNumber s)
  | JArr _ | JObj _ =>
      match ToString v with
      | Returns s => Returns (StringToNumber s)
      | Throws e => Throws e
      end
  end.

(** [v < n] and [v > n] against a numeric literal [n]. *)
Definition js_lt (v : jsval) (n : number) : outcome bool :=
  match ToNumber v with
  | Returns x => Returns (num_ltb x n)
  | Throws e => Throws e
  end.

Definition js_gt (v : jsval) (n : number) : outcome bool :=
  match ToNumber v with
  | Returns x => Returns (num_ltb n x)
  | Throws e => Throws e
  end.

(** [const { a, b } = v]: the fields of [v] by name. *)
Definition destructure (v : jsval) : outcome (string -> jsval) :=
  match v with
  | JUndefined | JNull => Throws (JStr (TypeError_message v))
  | JObj fs => Returns (fun k => assoc k fs)
  | _ => Returns (fun _ => JUndefined)
  end.

(** [v.length] *)
Definition get_length (v : jsval) : outcome jsval :=
  match v with
  | JUndefined | JNull => Throws (JStr (TypeError_message v))
  | JStr s => Returns (JNum (num_of_nat (String.length s)))
  | JArr l => Returns (JNum (num_of_nat (length l)))
  | JObj fs => Returns (assoc "length" fs)
  | _ => Returns JUndefined
  end.
End Coercions.

(** [s.startsWith(p)] *)
Definition startsWith (s p : string) : bool := String.prefix p s.

(** [s.split(sep)] for a one-character separator. *)
Fixpoint split (sep : ascii) (s : string) : list string :=
  match s with
  | EmptyString => [EmptyString]
  | String c rest =>
      if Ascii.eqb c sep then EmptyString :: split sep rest
      else match split sep rest with
           | [] => [String c EmptyString]
           | seg :: segs => String c seg :: segs
           end
  end.

(** ** The identity provider, the clock and the store *)

(** A user object of the provider: [user.id], [user.email] (optional in the
    provider's type) and [user.user_metadata]. *)
Record User := {
  user_id : string;
  user_email : option string;
  user_metadata : jsval;
}.

Record AuthError := { error_message : string }.

(** [{ data: { user }, error }] *)
Record UserResponse := {
  data_user : option User;
  error : option AuthError;
}.

(** [{ data: existingUsers }], read as [existingUsers?.users]. *)
Record ListResponse := { data_users : option (list User) }.

(** The argument of [supabase.auth.admin.createUser]. *)
Record CreateAttrs := {
  attr_email : jsval;
  attr_password : jsval;
  attr_email_confirm : bool;
  attr_user_metadata : jsval;
}.

Record Provider := {
  auth_getUser : option string -> outcome UserResponse;
  admin_listUsers : outcome ListResponse;
  admin_createUser : CreateAttrs -> outcome UserResponse;
  admin_getUserById : string -> outcome UserResponse;
}.

(** What a request finds around it: the provider's answers, [Date.now()] and
    [new Date().toISOString()]. *)
Record Env := {
  supabase : Provider;
  Date_now : Z;
  Date_toISOString : string;
}.

(** The request as the handlers read it: [c.req.header('Authorization')],
    [await c.req.json()] (which throws on a malformed body) and
    [c.req.param('driverId')]. *)
Record Request := {
  header_Authorization : option string;
  req_json : outcome jsval;
  param_driverId : string;
}.

(** [c.json(body, status)] *)
Record Response := {
  status : Z;
  body : jsval;
}.

Definition c_json (v : jsval) (st : Z) : Response := {| status := st; body := v |}.

(** The interface of [./kv_store.tsx] as the server imports it. *)
Class KVStore (S : Type) := {
  kv_set : string -> jsval -> S -> outcome S;
  kv_get : string -> S -> outcome (option jsval);
  kv_getByPrefix : string -> S -> outcome (list jsval);
}.

(** The calls a handler makes to the provider and to the store. *)
Inductive event :=
| GetUser (token : option string)
| ListUsers
| CreateUser (attrs : CreateAttrs)
| GetUserById (uid : string)
| KvSet (key : string) (value : jsval)
| KvGet (key : string)
| KvGetByPrefix (prefix : string).

(** The event is a [kv.set]. *)
Definition is_set (e : event) : bool :=
  match e with KvSet _ _ => true | _ => false end.

(** The world a handler runs in: the store and the calls made so far, the
    latest first. *)
Record world (S : Type) := {
  store : S;
  trace : list event;
}.
Arguments store {S} w.
Arguments trace {S} w.

(** Record a call. *)
Definition log {S} (e : event) (w : world S) : world S :=
  {| store := store w; trace := e :: trace w |}.

(** ** Sequencing with exceptions *)

(** A computation that runs in a world, returns or throws, and leaves a
    world: an [async] function body up to its [catch]. *)
Definition M (S A : Type) : Type := world S -> outcome A * world S.

Definition ret {S A} (a : A) : M S A := fun w => (Returns a, w).

(** [const x = await m; k]: an exception of [m] skips [k]. *)
Definition bind {S A B} (m : M S A) (k : A -> M S B) : M S B :=
  fun w =>
    match m w with
    | (Returns a, w') => k a w'
    | (Throws e, w') => (Throws e, w')
    end.

Notation "'let*' x ':=' m 'in' k" := (bind m (fun x => k))
  (at level 10, x name, m at level 100, k at level 200, only parsing).

(** A call whose result is already known: returns it or throws. *)
Definition lift {S A} (o : outcome A) : M S A := fun w => (o, w).

(** A call to the provider: recorded, then answered. *)
Definition call {S A} (e : event) (o : outcome A) : M S A :=
  fun w => (o, log e w).

(** [try { ... } catch (err) { return handler(err.message) }] *)
Definition try_catch {S} (m : M S Response) (handler : jsval -> Response)
  : world S -> Response * world S :=
  fun w =>
    match m w with
    | (Returns r, w') => (r, w')
    | (Throws e, w') => (handler e, w')
    end.

Section Store.
Context {S : Type} `{KVStore S}.

(** [await kv.set(k, v)] *)
Definition set (k : string) (v : jsval) : M S unit :=
  fun w =>
    match kv_set k v (store w) with
    | Returns s' => (Returns tt, {| store := s'; trace := KvSet k v :: trace w |})
    | Throws e => (Throws e, log (KvSet k v) w)
    end.

(** [await kv.get(k)]; an absent record is [undefined]. *)
Definition get (k : string) : M S jsval :=
  fun w =>
    match kv_get k (store w) with
    | Returns (Some v) => (Returns v, log (KvGet k) w)
    | Returns None => (Returns JUndefined, log (KvGet k) w)
    | Throws e => (Throws e, log (KvGet k) w)
    end.

(** [await kv.getByPrefix(p)], an array. *)
Definition getByPrefix (p : string) : M S jsval :=
  fun w =>
    match kv_getByPrefix p (store w) with
    | Returns l => (Returns (JArr l), log (KvGetByPrefix p) w)
    | Throws e => (Throws e, log (KvGetByPrefix p) w)
    end.
End Store.

(** ** The server *)

(** What [verifyAuth] resolves to when it is not [null]. *)
Record AuthUser := {
  userId : string;
  email : string;
}.

(** [u.email === email], for the optional [u.email] of a provider user. *)
Definition strict_eq_email (a : option string) (b : jsval) : bool :=
  match a, b with
  | Some x, JStr y => String.eqb x y
  | None, JUndefined => true
  | _, _ => false
  end.

(** [v?.k] *)
Definition opt_get (v : jsval) (k : string) : jsval :=
  match v with
  | JObj fs => assoc k fs
  | _ => JUndefined
  end.

Definition opt_str (o : option string) : jsval :=
  match o with
  | Some s => JStr s
  | None => JUndefined
  end.

Definition json_error (msg : jsval) (st : Z) : Response :=
  c_json (JObj [("error", msg)]) st.

Definition json_success (msg : string) : Response :=
  c_json (JObj [("success", JBool true); ("message", JStr msg)]) 200.

(** The [catch] clause every handler ends with. *)
Definition internal_error (message : jsval) : Response :=
  json_error (js_or message (JStr "Internal server error")) 500.

Definition unauthorized : Response :=
  json_error (JStr "Unauthorized - Please login with your credentials") 401.

Definition unauthorized_feedback : Response :=
  json_error (JStr "Unauthorized - Please login to submit feedback") 401.

Section Server.
Context {S : Type} `{KVStore S} `{Runtime}.

Definition verifyAuth (env : Env) (authHeader : option string)
  : M S (option AuthUser) :=
  match authHeader with
  | None => ret None
  | Some h =>
      if js_not (JStr h) || negb (startsWith h "Bearer ") then ret None
      else
        let token := split " " h !! 1%nat in
        let* r := call (GetUser token) (auth_getUser (supabase env) token) in
        match error r, data_user r with
        | Some _, _ | None, None => ret None
        | None, Some u =>
            ret (Some {| userId := user_id u;
                         email := default "" (user_email u) |})
        end
  end.

(** POST /auth/signup *)
Definition post_auth_signup (env : Env) (req : Request)
  : world S -> Response * world S :=
  try_catch
    (let* json := lift (req_json req) in
     let* f := lift (destructure json) in
     let email := f "email" in
     let password := f "password" in
     let name := f "name" in
     let role := f "role" in
     let roll_number := f "roll_number" in
     let phone_number := f "phone_number" in
     let emergency_phone := f "emergency_phone" in
     if js_not email || js_not password || js_not name || js_not role then
       ret (json_error (JStr "Email, password, name, and role are required") 400)
     else
       let* len := lift (get_length password) in
       let* short := lift (js_lt len (num_of_Z 6)) in
       if short then
         ret (json_error (JStr "Password must be at least 6 characters long") 400)
       else
         let* existingUsers := call ListUsers (admin_listUsers (supabase env)) in
         let userExists :=
           match data_users existingUsers with
           | Some users => existsb (fun u => strict_eq_email (user_email u) email) users
           | None => false
           end in
         if userExists then
           ret (json_error (JStr "An account with this email already exists") 400)
         else
           let attrs :=
             {| attr_email := email;
                attr_password := password;
                attr_email_confirm := true;
                attr_user_metadata :=
                  JObj [("name", name);
                        ("role", role);
                        ("roll_number", js_or roll_number JNull);
                        ("phone_number", js_or phone_number JNull);
                        ("emergency_phone", js_or emergency_phone JNull)] |} in
           let* r := call (CreateUser attrs) (admin_createUser (supabase env) attrs) in
           match error r with
           | Some e =>
               ret (json_error (js_or (JStr (error_message e))
                                      (JStr "Failed to create account")) 400)
           | None =>
               match data_user r with
               | None => ret (json_error (JStr "Failed to create user") 500)
               | Some u =>
                   (* console.log(`User created successfully: ${email} (${role})`) *)
                   let* _ := lift (ToString email) in
                   let* _ := lift (ToString role) in
                   ret (c_json
                          (JObj [("success", JBool true);
                                 ("message", JStr "Account created successfully");
                                 ("user",
                                  JObj [("id", JStr (user_id u));
                                        ("email", opt_str (user_email u));
                                        ("name", name);
                                        ("role", role);
                                        ("roll_number", roll_number);
                                        ("phone_number", phone_number);
                                        ("emergency_phone", emergency_phone)])])
                          200)
               end
           end)
    internal_error.

(** POST /user/university *)
Definition post_user_university (env : Env) (req : Request)
  : world S -> Response * world S :=
  try_catch
    (let authHeader := header_Authorization req in
     let* user := verifyAuth env authHeader in
     match user with
     | None => ret unauthorized
     | Some user =>
         let* json := lift (req_json req) in
         let* f := lift (destructure json) in
         let university_id := f "university_id" in
         if js_not university_id then
           ret (json_error (JStr "University ID is required") 400)
         else
           let* _ := set ("user:" +:+ userId user +:+ ":university") university_id in
           ret (json_success "University saved successfully")
     end)
    internal_error.

(** POST /user/location *)
Definition post_user_location (env : Env) (req : Request)
  : world S -> Response * world S :=
  try_catch
    (let authHeader := header_Authorization req in
     let* user := verifyAuth env authHeader in
     match user with
     | None => ret unauthorized
     | Some user =>
         let* json := lift (req_json req) in
         let* f := lift (destructure json) in
         let latitude := f "latitude" in
         let longitude := f "longitude" in
         let address := f "address" in
         if js_not latitude || js_not longitude then
           ret (json_error (JStr "Latitude and longitude are required") 400)
         else
           let* _ := set ("user:" +:+ userId user +:+ ":location")
                         (JObj [("latitude", latitude);
                                ("longitude", longitude);
                                ("address", js_or address JNull);
                                ("updated_at", JStr (Date_toISOString env))]) in
           ret (json_success "Location saved successfully")
     end)
    internal_error.

(** GET /user/profile *)
Definition get_user_profile (env : Env) (req : Request)
  : world S -> Response * world S :=
  try_catch
    (let authHeader := header_Authorization req in
     let* user := verifyAuth env authHeader in
     match user with
     | None => ret unauthorized
     | Some user =>
         let* userData := call (GetUserById (userId user))
                               (admin_getUserById (supabase env) (userId user)) in
         let* university := get ("user:" +:+ userId user +:+ ":university") in
         let* location := get ("user:" +:+ userId user +:+ ":location") in
         let metadata :=
           match data_user userData with
           | Some u => user_metadata u
           | None => JUndefined
           end in
         ret (c_json
                (JObj [("user",
                        JObj [("id", JStr (userId user));
                              ("email", JStr (email user));
                              ("name", opt_get metadata "name");
                              ("role", opt_get metadata "role")]);
                       ("university", university);
                       ("location", location)])
                200)
     end)
    internal_error.
(** POST /user/pickup-route *)
Definition post_user_pickup_route (env : Env) (req : Request)
  : world S -> Response * world S :=
  try_catch
    (let authHeader := header_Authorization req in
     let* user := verifyAuth env authHeader in
     match user with
     | None => ret unauthorized
     | Some user =>
         let* json := lift (req_json req) in
         let* f := lift (destructure json) in
         let bus_id := f "bus_id" in
         let pickup_latitude := f "pickup_latitude" in
         let pickup_longitude := f "pickup_longitude" in
         if js_not bus_id || js_not pickup_latitude || js_not pickup_longitude then
           ret (json_error (JStr "Bus ID and pickup coordinates are required") 400)
         else
           let* _ := set ("user:" +:+ userId user +:+ ":pickup-route")
                         (JObj [("bus_id", bus_id);
                                ("pickup_latitude", pickup_latitude);
                                ("pickup_longitude", pickup_longitude);
                                ("created_at", JStr (Date_toISOString env))]) in
           ret (json_success "Pickup route saved successfully")
     end)
    internal_error.

(** GET /user/pickup-route *)
Definition get_user_pickup_route (env : Env) (req : Request)
  : world S -> Response * world S :=
  try_catch
    (let authHeader := header_Authorization req in
     let* user := verifyAuth env authHeader in
     match user with
     | None => ret unauthorized
     | Some user =>
         let* pickupRoute := get ("user:" +:+ userId user +:+ ":pickup-route") in
         ret (c_json (JObj [("pickup_route", pickupRoute)]) 200)
     end)
    internal_error.

(** The key and the value of a feedback record, as POST /feedback builds
    them: [`feedback:${driver_id}:${Date.now()}:${user.userId}`], given the
    string [driver_id] converts to. The time value is an integral Number,
    rendered by its decimal numeral. *)
Definition feedbackId (env : Env) (user : AuthUser) (driver_id : string) : string :=
  "feedback:" +:+ driver_id +:+ ":" +:+ pretty (Date_now env)
    +:+ ":" +:+ userId user.

Definition feedback_record (env : Env) (user : AuthUser)
    (driver_id rating comment : jsval) : jsval :=
  JObj [("driver_id", driver_id);
        ("user_id", JStr (userId user));
        ("user_email", JStr (email user));
        ("rating", rating);
        ("comment", js_or comment JNull);
        ("created_at", JStr (Date_toISOString env))].

(** POST /feedback *)
Definition post_feedback (env : Env) (req : Request)
  : world S -> Response * world S :=
  try_catch
    (let authHeader := header_Authorization req in
     let* user := verifyAuth env authHeader in
     match user with
     | None => ret unauthorized_feedback
     | Some user =>
         let* json := lift (req_json req) in
         let* f := lift (destructure json) in
         let driver_id := f "driver_id" in
         let rating := f "rating" in
         let comment := f "comment" in
         if js_not driver_id || js_not rating then
           ret (json_error (JStr "Driver ID and rating are required") 400)
         else
           let* below := lift (js_lt rating (num_of_Z 1)) in
           let* outside := if below then ret true
                           else lift (js_gt rating (num_of_Z 5)) in
           if outside then
             ret (json_error (JStr "Rating must be between 1 and 5") 400)
           else
             let* driver := lift (ToString driver_id) in
             let* _ := set (feedbackId env user driver)
                           (feedback_record env user driver_id rating comment) in
             ret (json_success "Feedback submitted successfully")
     end)
    internal_error.

(** GET /drivers/:driverId/feedback *)
Definition get_driver_feedback (env : Env) (req : Request)
  : world S -> Response * world S :=
  try_catch
    (let driverId := param_driverId req in
     let* allFeedback := getByPrefix ("feedback:" +:+ driverId +:+ ":") in
     ret (c_json (JObj [("feedback", js_or allFeedback (JArr []))]) 200))
    internal_error.

(** GET /universities *)
Definition get_universities (env : Env) (req : Request)
  : world S -> Response * world S :=
  try_catch
    (ret (c_json (JObj [("universities", JArr [])]) 200))
    internal_error.

(** GET /health *)
Definition get_health (env : Env) (req : Request)
  : world S -> Response * world S :=
  fun w => (c_json (JObj [("status", JStr "ok")]) 200, w).
End Server.

(** ** Routing *)

(** The routes the server registers, by method and path. *)
Inductive route :=
| POST_auth_signup
| POST_user_university
| POST_user_location
| GET_user_profile
| POST_user_pickup_route
| GET_user_pickup_route
| POST_feedback
| GET_driver_feedback
| GET_universities
| GET_health.

#[export] Instance route_eq_dec : EqDecision route.
Proof. solve_decision. Defined.

Section Routing.
Context {S : Type} `{KVStore S} `{Runtime}.

Definition serve (r : route) : Env -> Request -> world S -> Response * world S :=
  match r with
  | POST_auth_signup => post_auth_signup
  | POST_user_university => post_user_university
  | POST_user_location => post_user_location
  | GET_user_profile => get_user_profile
  | POST_user_pickup_route => post_user_pickup_route
  | GET_user_pickup_route => get_user_pickup_route
  | POST_feedback => post_feedback
  | GET_driver_feedback => get_driver_feedback
  | GET_universities => get_universities
  | GET_health => get_health
  end.

(** The world after a sequence of requests, served one after another. *)
Definition serve_all (reqs : list (route * Env * Request)) (w : world S) : world S :=
  foldl (fun w x => (serve x.1.1 x.1.2 x.2 w).2) w reqs.
End Routing.

(** ** The record store

    [./kv_store.tsx], which the server imports, is not among the sources.
    The spec gives its contract, and the store is modelled from it as a
    finite map from keys to values. *)

(** Modelled from the spec: [set(key, value)] of [./kv_store.tsx], an
    idempotent overwrite with no versioning: last writer wins. *)
Definition spec_set (k : string) (v : jsval) (m : gmap string jsval)
  : gmap string jsval := <[k := v]> m.

(** Modelled from the spec: [get(key)] of [./kv_store.tsx], the stored value
    or an explicit absent marker. *)
Definition spec_get (k : string) (m : gmap string jsval) : option jsval := m !! k.

(** Modelled from the spec: [scan(prefix)] of [./kv_store.tsx], called
    [getByPrefix] by the server: all records whose key starts with the
    prefix, in an unspecified order (here the map's), the empty sequence if
    none matches. *)
Definition spec_scan (p : string) (m : gmap string jsval) : list jsval :=
  (map_to_list (filter (fun kv => String.prefix p kv.1 = true) m)).*2.

(** Modelled from the spec: the store of [./kv_store.tsx] without backend
    failures, so that no operation throws. *)
#[export] Instance spec_store : KVStore (gmap string jsval) := {|
  kv_set k v m := Returns (spec_set k v m);
  kv_get k m := Returns (spec_get k m);
  kv_getByPrefix p m := Returns (spec_scan p m);
|}.

(** A runtime on which the handlers can be run on concrete requests. It
    renders an integral Number by its decimal numeral and reads no string as
    a number; ECMAScript's conversions of other arguments are not
    reproduced, and the runs below do not reach them. *)
Definition sample_runtime : Runtime := {|
  Number_toString n :=
    match n with
    | NaN => "NaN"
    | PosInf => "Infinity"
    | NegInf => "-Infinity"
    | Fin q => pretty (Qnum q / QDen q)
    end;
  StringToNumber _ := NaN;
  TypeError_message _ := "Cannot read properties of null";
|}.

Arguments js_not : simpl never.
Arguments js_or : simpl never.
Arguments js_lt : simpl never.
Arguments js_gt : simpl never.
Arguments feedbackId : simpl never.
Arguments feedback_record : simpl never.

(** ** Notions the statements use *)

(** A value that is neither an array nor an object; a JSON object all of
    whose fields are such is flat. *)
Definition primitive (v : jsval) : bool :=
  match v with
  | JArr _ | JObj _ => false
  | _ => true
  end.

Section Rejection.
Context {S : Type} `{KVStore S} `{Runtime}.

(** What it means for a handler to turn a request away at the door: it
    answers [resp], and leaves the world as [verifyAuth] left it, so the
    store is untouched and no [set] was executed. *)
Definition turned_away (handler : Env -> Request -> world S -> Response * world S)
    (resp : Response) (env : Env) (req : Request) (w : world S) : Prop :=
  let (r, w') := handler env req w in
  r = resp /\ status r = 401 /\
  w' = (verifyAuth env (header_Authorization req) w).2 /\
  store w' = store w /\
  (forall e, e ∈ trace w' -> is_set e = true -> e ∈ trace w).
End Rejection.

(** The characters of a string. *)
Definition chars (s : string) : list ascii := String.list_ascii_of_string s.

(** [s] holds no occurrence of [c]. *)
Fixpoint free_of (c : ascii) (s : string) : bool :=
  match s with
  | EmptyString => true
  | String a rest => negb (Ascii.eqb a c) && free_of c rest
  end.




Section Notions.
Context `{Runtime}.

(** The identity a request is made under, if its header verifies. The
    answer of [verifyAuth] does not depend on the world it is asked in. *)
Definition caller (env : Env) (req : Request) : option AuthUser :=
  match (verifyAuth (S := gmap string jsval) env (header_Authorization req)
                    {| store := ∅; trace := [] |}).1 with
  | Returns u => u
  | Throws _ => None
  end.

(** The key and the record a POST /feedback request writes, if it writes
    one: read off the handler's own run. *)
Definition submitted (env : Env) (req : Request) : option (string * jsval) :=
  match trace (post_feedback (S := gmap string jsval) env req
                             {| store := ∅; trace := [] |}).2 with
  | KvSet k v :: _ => Some (k, v)
  | _ => None
  end.

(** The feedback writes of a sequence of requests, in order. *)
Definition feedback_writes (reqs : list (route * Env * Request))
  : list (string * jsval) :=
  omap (fun x => match x.1.1 with
                 | POST_feedback => submitted x.1.2 x.2
                 | _ => None
                 end) reqs.

(** The keys a request to a route may write, given who is calling. *)
Inductive may_write (env : Env) (req : Request) : route -> string -> Prop :=
| write_university u :
    caller env req = Some u ->
    may_write env req POST_user_university ("user:" +:+ userId u +:+ ":university")
| write_location u :
    caller env req = Some u ->
    may_write env req POST_user_location ("user:" +:+ userId u +:+ ":location")
| write_pickup_route u :
    caller env req = Some u ->
    may_write env req POST_user_pickup_route ("user:" +:+ userId u +:+ ":pickup-route")
| write_feedback u driver :
    caller env req = Some u ->
    may_write env req POST_feedback (feedbackId env u driver).

(** The driver a stored record is about, as the key names it: the string
    its [driver_id] converts to. *)
Definition driver_of (record : jsval) : option string :=
  match ToString (opt_get record "driver_id") with
  | Returns d => Some d
  | Throws _ => None
  end.

(** GET /drivers/:driverId/feedback, asked after the requests [reqs] were
    served from world [w0], answers 200 with exactly the records submitted
    for that driver: all of them, each once, and no other, in some order. *)
Definition lists_exactly (reqs : list (route * Env * Request))
    (w0 : world (gmap string jsval)) (env : Env) (req : Request) : Prop :=
  exists records,
    (get_driver_feedback env req (serve_all reqs w0)).1
    = c_json (JObj [("feedback", JArr records)]) 200 /\
    records ≡ₚ (filter (fun kv => driver_of kv.2 = Some (param_driverId req))
                       (feedback_writes reqs)).*2.
End Notions.

(** ** Per-user records *)

(** The three records a user has, each written by one route. *)
Inductive record_kind := University | Location | PickupRoute.

Definition kind_suffix (kind : record_kind) : string :=
  match kind with
  | University => ":university"
  | Location => ":location"
  | PickupRoute => ":pickup-route"
  end.

Definition kind_route (kind : record_kind) : route :=
  match kind with
  | University => POST_user_university
  | Location => POST_user_location
  | PickupRoute => POST_user_pickup_route
  end.

(** [`user:${userId}:<kind>`] *)
Definition user_key (uid : string) (kind : record_kind) : string :=
  "user:" +:+ uid +:+ kind_suffix kind.

Section Saves.
Context `{Runtime}.

(** No request of the sequence replaces the record of that kind of the user
    [uid]: none is a save of that kind under the user's identity that is
    answered 200. *)
Definition no_later_save (reqs : list (route * Env * Request))
    (uid : string) (kind : record_kind) : Prop :=
  forall env req u (w : world (gmap string jsval)),
    (kind_route kind, env, req) ∈ reqs ->
    caller env req = Some u ->
    status (serve (kind_route kind) env req w).1 = 200 ->
    userId u <> uid.

(** The key and the record a request writes, if it writes one: read off
    the handler's own run, as [submitted] is for POST /feedback. *)
Definition written (x : route * Env * Request) : option (string * jsval) :=
  match trace (serve (S := gmap string jsval) x.1.1 x.1.2 x.2
                     {| store := ∅; trace := [] |}).2 with
  | KvSet k v :: _ => Some (k, v)
  | _ => None
  end.

(** Two requests write no common key. *)
Definition independent (x y : route * Env * Request) : Prop :=
  forall kx vx ky vy,
    written x = Some (kx, vx) -> written y = Some (ky, vy) -> kx <> ky.
End Saves.

(** ** The browser client

    [utils/supabase/client.ts]: the module keeps one client of the provider's
    library in [supabaseInstance] and wraps three of its [auth] calls. The
    module [./info], which holds [projectId] and [publicAnonKey], and the
    library are not among the sources: the two constants are variables, and
    the library's answers are a parameter that may depend on every call made
    before. *)

Module Client.

(** The [auth] options [createClient] passes. *)
Record AuthOptions := {
  autoRefreshToken : bool;
  persistSession : bool;
  detectSessionInUrl : bool;
}.

(** The arguments of the library's [createClient]. *)
Record ClientArgs := {
  supabaseUrl : string;
  supabaseKey : string;
  auth : AuthOptions;
}.

(** A client object: what it was created from, and which creation of the
    page it was, its identity. *)
Record SupabaseClient := {
  created_from : ClientArgs;
  serial : nat;
}.

(** The part of a session [getAccessToken] reads. *)
Record Session := { access_token : string }.

(** The calls the module makes to the library. *)
Inductive call :=
| Create (args : ClientArgs)
| GetSession (client : SupabaseClient)
| GetUser (client : SupabaseClient)
| SignOut (client : SupabaseClient).

Definition is_create (c : call) : bool :=
  match c with Create _ => true | _ => false end.

(** The client a call is made on. *)
Definition client_of (c : call) : option SupabaseClient :=
  match c with
  | Create _ => None
  | GetSession cl | GetUser cl | SignOut cl => Some cl
  end.

(** The library's [auth] methods: what each resolves to on a client, given
    the calls made so far (the latest first), or the exception it rejects
    with. [{ data: { session }, error }], [{ data: { user }, error }] and
    [{ error }]. *)
Record Library := {
  auth_getSession : list call -> SupabaseClient
                    -> outcome (option Session * option AuthError);
  auth_getUser : list call -> SupabaseClient
                 -> outcome (option User * option AuthError);
  auth_signOut : list call -> SupabaseClient -> outcome (option AuthError);
}.

(** The module's state: [supabaseInstance], and the calls made so far. *)
Record state := {
  supabaseInstance : option SupabaseClient;
  calls : list call;
}.

(** The state of a page that has just loaded the module. *)
Definition loaded : state := {| supabaseInstance := None; calls := [] |}.

Section Module.
Variables (projectId publicAnonKey : string) (lib : Library).

Definition client_args : ClientArgs :=
  {| supabaseUrl := "https://" +:+ projectId +:+ ".supabase.co";
     supabaseKey := publicAnonKey;
     auth := {| autoRefreshToken := true;
                persistSession := true;
                detectSessionInUrl := false |} |}.

(** [createSupabaseClient(...)]: a new object at each call. *)
Definition createSupabaseClient (args : ClientArgs) (st : state) : SupabaseClient :=
  {| created_from := args;
     serial := length (List.filter is_create (calls st)) |}.

Definition createClient (st : state) : SupabaseClient * state :=
  match supabaseInstance st with
  | None =>
      let c := createSupabaseClient client_args st in
      (c, {| supabaseInstance := Some c; calls := Create client_args :: calls st |})
  | Some c => (c, st)
  end.

Definition getSession (st : state)
  : outcome (option Session * option AuthError) * state :=
  let (supabase, st1) := createClient st in
  (auth_getSession lib (calls st1) supabase,
   {| supabaseInstance := supabaseInstance st1;
      calls := GetSession supabase :: calls st1 |}).

(** [session?.access_token || null]; [None] is [null]. *)
Definition getAccessToken (st : state) : outcome (option string) * state :=
  match getSession st with
  | (Returns (session, _), st1) =>
      (Returns match session with
               | Some s => if truthy (JStr (access_token s))
                           then Some (access_token s) else None
               | None => None
               end, st1)
  | (Throws e, st1) => (Throws e, st1)
  end.

Definition getCurrentUser (st : state)
  : outcome (option User * option AuthError) * state :=
  let (supabase, st1) := createClient st in
  (auth_getUser lib (calls st1) supabase,
   {| supabaseInstance := supabaseInstance st1;
      calls := GetUser supabase :: calls st1 |}).

Definition signOut (st : state) : outcome (option AuthError) * state :=
  let (supabase, st1) := createClient st in
  (auth_signOut lib (calls st1) supabase,
   {| supabaseInstance := supabaseInstance st1;
      calls := SignOut supabase :: calls st1 |}).

(** The functions the module exports, and a page calling them one after
    another. *)
Inductive export :=
| CreateClient | GetSessionHelper | GetAccessToken | GetCurrentUser | SignOutHelper.

Definition run (f : export) (st : state) : state :=
  match f with
  | CreateClient => (createClient st).2
  | GetSessionHelper => (getSession st).2
  | GetAccessToken => (getAccessToken st).2
  | GetCurrentUser => (getCurrentUser st).2
  | SignOutHelper => (signOut st).2
  end.

Definition run_all (fs : list export) (st : state) : state :=
  foldl (fun st f => run f st) st fs.

(** The one client of a page: the first the library creates, from
    [client_args]. *)
Definition the_client : SupabaseClient :=
  {| created_from := client_args; serial := 0 |}.

(** What holds of the module's state at any time: nothing was called yet,
    or the instance is the one client, created once, and every call was
    made on it. *)
Definition settled (st : state) : Prop :=
  st = loaded \/
  (supabaseInstance st = Some the_client /\
   List.filter is_create (calls st) = [Create client_args] /\
   forall c cl, c ∈ calls st -> client_of c = Some cl -> cl = the_client).
End Module.
End Client.

(** ** The database seed

    The seed part of [DATABASE_SCHEMA]: the INSERT of the universities and
    the DO block that gives each university six buses with a driver and a
    location. The tables are lists of rows, in insertion order, with the
    columns and the constraints the schema declares for them; the
    statements are run by the owner of the tables, to whom row level
    security does not apply. [uuid_generate_v4()], [RANDOM()] and [NOW()]
    come from outside: the n-th identifier and the n-th random number drawn
    are parameters, as are the type DOUBLE PRECISION and its arithmetic. *)

Module Seed.

Inductive sql_error :=
| not_null_violation (table column : string)
| unique_violation (table : string) (columns : list string)
| foreign_key_violation (table column : string)
| numeric_value_out_of_range.

(** A statement completes, or raises an error and leaves nothing behind. *)
Inductive result (A : Type) :=
| Ok (a : A)
| Raise (e : sql_error).
Arguments Ok {A} a.
Arguments Raise {A} e.

Definition and_then {A B} (m : result A) (k : A -> result B) : result B :=
  match m with
  | Ok a => k a
  | Raise e => Raise e
  end.

(** [a[i]] on a one-based array: NULL outside its bounds. *)
Definition subscript (a : list string) (i : Z) : option string :=
  if i <? 1 then None else a !! Z.to_nat (i - 1).

(** [LPAD(s, len, fill)]: [s] cut to [len] characters, or filled on the
    left with the characters of [fill], repeated, up to [len]. *)
Fixpoint filling (n : nat) (fill rest : string) : string :=
  match n with
  | O => ""
  | Datatypes.S n' =>
      match rest with
      | String c rest' => String c (filling n' fill rest')
      | EmptyString =>
          match fill with
          | String c fill' => String c (filling n' fill fill')
          | EmptyString => ""
          end
      end
  end.

Definition LPAD (s : string) (len : nat) (fill : string) : string :=
  if (len <=? String.length s)%nat then String.substring 0 len s
  else filling (len - String.length s) fill fill +:+ s.

(** The largest INTEGER. *)
Definition int4_max : Z := 2147483647.

Definition driver_names : list string :=
  [
   "Rajesh Kumar"; "Suresh Sharma"; "Amit Singh"; "Vijay Patel"; "Ravi Gupta"; "Manoj Yadav";
   "Sanjay Verma"; "Anil Kumar"; "Prakash Joshi"; "Ramesh Reddy"; "Dinesh Rao"; "Mukesh Malhotra";
   "Ashok Kumar"; "Deepak Singh"; "Rakesh Sharma"; "Santosh Yadav"; "Mohit Gupta"; "Vikas Patel";
   "Ajay Kumar"; "Nitin Verma"; "Sachin Jain"; "Rahul Singh"; "Kiran Kumar"; "Naveen Sharma";
   "Pankaj Yadav"; "Sumit Gupta"; "Arun Kumar"; "Vinod Singh"; "Lalit Sharma"; "Gopal Rao";
   "Manish Kumar"; "Praveen Patel"; "Yogesh Verma"; "Kamal Singh"; "Subhash Yadav"; "Hemant Gupta";
   "Bharat Kumar"; "Chetan Sharma"; "Jitendra Singh"; "Lokesh Patel"; "Narendra Yadav"; "Om Prakash";
   "Prem Kumar"; "Rajeev Singh"; "Shyam Sharma"; "Tarun Gupta"; "Uday Patel"; "Varun Verma";
   "Wasim Khan"; "Yashwant Kumar"; "Zaheer Ahmad"; "Akshay Singh"; "Brijesh Sharma"; "Chirag Patel";
   "Dilip Yadav"; "Eknath Gupta"; "Firoz Khan"; "Ganesh Kumar"; "Harish Singh"; "Imran Ahmad";
   "Jagdish Sharma"; "Kailash Patel"; "Laxman Yadav"; "Mahesh Gupta"; "Naresh Kumar"; "Omkar Singh";
   "Pradeep Sharma"; "Qadir Khan"; "Rajendra Patel"; "Sagar Yadav"; "Tushar Gupta"; "Umesh Kumar";
   "Vikram Singh"; "Wasim Akram"; "Xavier D'Souza"; "Yuvraj Sharma"; "Zafar Khan"; "Abdul Rahman";
   "Balaji Rao"; "Chandra Kumar"; "Dhananjay Singh"; "Eshwar Sharma"; "Farhan Khan"; "Gajendra Patel";
   "Hari Yadav"; "Irfan Ahmad"; "Jai Kumar"; "Keshav Singh"
  ].

(** The rows of the INSERT into [universities]: name, short_name, location,
    latitude, longitude. *)
Definition university_values : list (string * string * string * Q * Q) :=
  [
   ("Indian Institute of Technology Delhi", "IIT Delhi", "New Delhi", (285449 # 10000)%Q, (771926 # 10000)%Q);
   ("Indian Institute of Technology Bombay", "IIT Bombay", "Mumbai", (191334 # 10000)%Q, (729133 # 10000)%Q);
   ("Indian Institute of Technology Madras", "IIT Madras", "Chennai", (129916 # 10000)%Q, (802336 # 10000)%Q);
   ("Delhi University", "DU", "New Delhi", (286863 # 10000)%Q, (772063 # 10000)%Q);
   ("Jawaharlal Nehru University", "JNU", "New Delhi", (285430 # 10000)%Q, (771670 # 10000)%Q);
   ("University of Mumbai", "MU", "Mumbai", (190760 # 10000)%Q, (728777 # 10000)%Q);
   ("Anna University", "AU", "Chennai", (130115 # 10000)%Q, (802336 # 10000)%Q);
   ("Bangalore University", "BU", "Bangalore", (129716 # 10000)%Q, (775946 # 10000)%Q);
   ("Jadavpur University", "JU", "Kolkata", (224990 # 10000)%Q, (883712 # 10000)%Q);
   ("Pune University", "SPPU", "Pune", (185491 # 10000)%Q, (738257 # 10000)%Q);
   ("Hyderabad University", "UoH", "Hyderabad", (174590 # 10000)%Q, (783280 # 10000)%Q);
   ("Aligarh Muslim University", "AMU", "Aligarh", (278974 # 10000)%Q, (780880 # 10000)%Q);
   ("Banaras Hindu University", "BHU", "Varanasi", (252677 # 10000)%Q, (829913 # 10000)%Q);
   ("Calcutta University", "CU", "Kolkata", (225726 # 10000)%Q, (883639 # 10000)%Q);
   ("Jamia Millia Islamia", "JMI", "New Delhi", (285613 # 10000)%Q, (772809 # 10000)%Q)
  ].

(** What the session gets from the server: the n-th [uuid_generate_v4()]
    and the n-th [RANDOM()] drawn, [NOW()], the cast of a numeric literal
    to DOUBLE PRECISION, and the arithmetic of that type. *)
Class Engine (uuid double timestamp : Type) := {
  uuid_generate_v4 : nat -> uuid;
  RANDOM : nat -> double;
  NOW : timestamp;
  to_double : Q -> double;
  double_add : double -> double -> double;
  double_sub : double -> double -> double;
  double_mul : double -> double -> double;
}.

Section Session.
Context {uuid double timestamp : Type} `{EqDecision uuid}
        `{Engine uuid double timestamp}.

Record university := {
  u_id : uuid;
  u_name : string;
  u_short_name : string;
  u_location : string;
  u_latitude : double;
  u_longitude : double;
  u_created_at : timestamp;
}.

Record driver := {
  d_id : uuid;
  d_name : string;
  d_phone : string;
  d_photo_url : option string;
  d_created_at : timestamp;
}.

Record bus := {
  b_id : uuid;
  b_university_id : uuid;
  b_driver_id : uuid;
  b_bus_number : string;
  b_created_at : timestamp;
}.

Record bus_location := {
  l_id : uuid;
  l_bus_id : uuid;
  l_latitude : double;
  l_longitude : double;
  l_updated_at : timestamp;
}.

(** The four tables, and how many identifiers and random numbers were
    drawn so far. *)
Record database := {
  universities : list university;
  drivers : list driver;
  buses : list bus;
  bus_locations : list bus_location;
  uuids_drawn : nat;
  randoms_drawn : nat;
}.

(** One row of [INSERT INTO universities ... ON CONFLICT DO NOTHING]: the
    only unique index is the primary key, and a row that conflicts on it is
    skipped. *)
Definition insert_university (v : string * string * string * Q * Q)
    (db : database) : database :=
  let '(name, short_name, location, latitude, longitude) := v in
  let id := uuid_generate_v4 (uuids_drawn db) in
  {| universities :=
       if decide (id ∈ u_id <$> universities db) then universities db
       else universities db ++
            [{| u_id := id; u_name := name; u_short_name := short_name;
                u_location := location; u_latitude := to_double latitude;
                u_longitude := to_double longitude; u_created_at := NOW |}];
     drivers := drivers db;
     buses := buses db;
     bus_locations := bus_locations db;
     uuids_drawn := Datatypes.S (uuids_drawn db);
     randoms_drawn := randoms_drawn db |}.

Definition insert_universities (db : database) : database :=
  foldl (fun db v => insert_university v db) db university_values.

(** [INSERT INTO drivers (name, phone, photo_url) VALUES (...) RETURNING id] *)
Definition insert_driver (name : option string) (phone : string)
    (photo_url : option string) (db : database) : result (uuid * database) :=
  let id := uuid_generate_v4 (uuids_drawn db) in
  match name with
  | None => Raise (not_null_violation "drivers" "name")
  | Some name =>
      if decide (id ∈ d_id <$> drivers db) then Raise (unique_violation "drivers" ["id"])
      else
        Ok (id,
            {| universities := universities db;
               drivers := drivers db ++
                          [{| d_id := id; d_name := name; d_phone := phone;
                              d_photo_url := photo_url; d_created_at := NOW |}];
               buses := buses db;
               bus_locations := bus_locations db;
               uuids_drawn := Datatypes.S (uuids_drawn db);
               randoms_drawn := randoms_drawn db |})
  end.

(** [INSERT INTO buses (university_id, driver_id, bus_number) VALUES (...)
    RETURNING id] *)
Definition insert_bus (university_id driver_id : uuid) (bus_number : string)
    (db : database) : result (uuid * database) :=
  let id := uuid_generate_v4 (uuids_drawn db) in
  if decide (id ∈ b_id <$> buses db) then Raise (unique_violation "buses" ["id"])
  else if decide ((university_id, bus_number)
                  ∈ (fun b => (b_university_id b, b_bus_number b)) <$> buses db)
  then Raise (unique_violation "buses" ["university_id"; "bus_number"])
  else if decide (university_id ∈ u_id <$> universities db) then
    if decide (driver_id ∈ d_id <$> drivers db) then
      Ok (id,
          {| universities := universities db;
             drivers := drivers db;
             buses := buses db ++
                      [{| b_id := id; b_university_id := university_id;
                          b_driver_id := driver_id; b_bus_number := bus_number;
                          b_created_at := NOW |}];
             bus_locations := bus_locations db;
             uuids_drawn := Datatypes.S (uuids_drawn db);
             randoms_drawn := randoms_drawn db |})
    else Raise (foreign_key_violation "buses" "driver_id")
  else Raise (foreign_key_violation "buses" "university_id").

(** One row of [INSERT INTO bus_locations (bus_id, latitude, longitude)
    SELECT bus_id, u.latitude + (RANDOM() * 0.02 - 0.01),
    u.longitude + (RANDOM() * 0.02 - 0.01)]. *)
Definition insert_bus_location (bus_id : uuid) (u : university)
    (db : database) : result database :=
  let id := uuid_generate_v4 (uuids_drawn db) in
  let offset (n : nat) :=
    double_sub (double_mul (RANDOM n) (to_double (2 # 100)))
               (to_double (1 # 100)) in
  if decide (id ∈ l_id <$> bus_locations db)
  then Raise (unique_violation "bus_locations" ["id"])
  else if decide (bus_id ∈ l_bus_id <$> bus_locations db)
  then Raise (unique_violation "bus_locations" ["bus_id"])
  else if decide (bus_id ∈ b_id <$> buses db) then
    Ok {| universities := universities db;
          drivers := drivers db;
          buses := buses db;
          bus_locations :=
            bus_locations db ++
            [{| l_id := id; l_bus_id := bus_id;
                l_latitude := double_add (u_latitude u) (offset (randoms_drawn db));
                l_longitude :=
                  double_add (u_longitude u)
                             (offset (Datatypes.S (randoms_drawn db)));
                l_updated_at := NOW |}];
          uuids_drawn := Datatypes.S (uuids_drawn db);
          randoms_drawn := Datatypes.S (Datatypes.S (randoms_drawn db)) |}
  else Raise (foreign_key_violation "bus_locations" "bus_id").

(** [... FROM universities u WHERE u.id = uni_record.id]: a row for each
    university the condition selects. *)
Fixpoint insert_bus_locations (bus_id : uuid) (selected : list university)
    (db : database) : result database :=
  match selected with
  | [] => Ok db
  | u :: rest =>
      and_then (insert_bus_location bus_id u db) (insert_bus_locations bus_id rest)
  end.

(** The body of the inner loop, for one [uni_record] and one [bus_num]. *)
Definition loop_body (uni_record : university) (bus_num : Z)
    (driver_counter : Z) (db : database) : result (Z * database) :=
  if int4_max <? driver_counter + 1 then Raise numeric_value_out_of_range
  else
    let driver_counter := driver_counter + 1 in
    and_then
      (insert_driver (subscript driver_names driver_counter)
                     ("+91 " +:+ LPAD (pretty (9000000000 + driver_counter)) 10 "0")
                     None db)
      (fun '(driver_id, db) =>
         and_then
           (insert_bus (u_id uni_record) driver_id
                       (u_short_name uni_record +:+ "-" +:+ pretty bus_num) db)
           (fun '(bus_id, db) =>
              and_then
                (insert_bus_locations
                   bus_id
                   (List.filter (fun u => bool_decide (u_id u = u_id uni_record))
                                (universities db))
                   db)
                (fun db => Ok (driver_counter, db)))).

(** [FOR bus_num IN 1..6 LOOP ... END LOOP] *)
Fixpoint for_bus_num (uni_record : university) (bus_nums : list Z)
    (driver_counter : Z) (db : database) : result (Z * database) :=
  match bus_nums with
  | [] => Ok (driver_counter, db)
  | bus_num :: rest =>
      and_then (loop_body uni_record bus_num driver_counter db)
               (fun '(driver_counter, db) =>
                  for_bus_num uni_record rest driver_counter db)
  end.

(** [FOR uni_record IN SELECT id, short_name FROM universities LOOP ...] *)
Fixpoint for_uni_record (uni_records : list university)
    (driver_counter : Z) (db : database) : result (Z * database) :=
  match uni_records with
  | [] => Ok (driver_counter, db)
  | uni_record :: rest =>
      and_then (for_bus_num uni_record [1; 2; 3; 4; 5; 6] driver_counter db)
               (fun '(driver_counter, db) =>
                  for_uni_record rest driver_counter db)
  end.

(** The DO block, [driver_counter] starting at 0. *)
Definition DO_block (db : database) : result database :=
  and_then (for_uni_record (universities db) 0 db) (fun '(_, db) => Ok db).

(** The seed: the INSERT, then the DO block. *)
Definition seed (db : database) : result database :=
  DO_block (insert_universities db).
End Session.
End Seed.

(** ** A concrete scenario

    Two identities known to the provider, each with a valid token, and an
    empty store. The statements below are exercised on it. *)

Definition ann : User := {|
  user_id := "u1";
  user_email := Some "ann@example.com";
  user_metadata := JObj [("name", JStr "Ann"); ("role", JStr "student")];
|}.

Definition bob : User := {|
  user_id := "u2";
  user_email := Some "bob@example.com";
  user_metadata := JObj [("name", JStr "Bob"); ("role", JStr "parent")];
|}.

Definition sample_provider : Provider := {|
  auth_getUser token :=
    match token with
    | Some "t1" => Returns {| data_user := Some ann; error := None |}
    | Some "t2" => Returns {| data_user := Some bob; error := None |}
    | _ => Returns {| data_user := None;
                      error := Some {| error_message := "invalid JWT" |} |}
    end;
  admin_listUsers := Returns {| data_users := Some [ann; bob] |};
  admin_createUser attrs :=
    Returns {| data_user := Some {| user_id := "u3";
                                    user_email := match attr_email attrs with
                                                  | JStr e => Some e
                                                  | _ => None
                                                  end;
                                    user_metadata := attr_user_metadata attrs |};
               error := None |};
  admin_getUserById _ := Returns {| data_user := Some ann; error := None |};
|}.

Definition sample_env : Env := {|
  supabase := sample_provider;
  Date_now := 1700000000000;
  Date_toISOString := "2023-11-14T22:13:20.000Z";
|}.

Definition empty_world : world (gmap string jsval) :=
  {| store := ∅; trace := [] |}.

Definition request (h : option string) (json : jsval) : Request :=
  {| header_Authorization := h; req_json := Returns json; param_driverId := "" |}.

(** A feedback submission with the rating 2.5. *)
Definition fractional_rating_request : Request :=
  request (Some "Bearer t1")
          (JObj [("driver_id", JStr "d1"); ("rating", JNum (Fin (5 # 2)))]).


(** Requests of the scenario. *)
Definition as_ann (json : jsval) : Request := request (Some "Bearer t1") json.

Definition as_bob (json : jsval) : Request := request (Some "Bearer t2") json.

Definition feedback_for (driver_id : string) (rating : Z) : Request :=
  as_ann (JObj [("driver_id", JStr driver_id); ("rating", JNum (num_of_Z rating))]).

Definition list_feedback_of (driverId : string) : Request :=
  {| header_Authorization := None;
     req_json := Throws (JStr "Unexpected end of JSON input");
     param_driverId := driverId |}.

Definition zero_latitude_request : Request :=
  as_ann (JObj [("latitude", JNum (Fin 0)); ("longitude", JNum (Fin (77 # 1)));
                ("pickup_latitude", JNum (Fin 0));
                ("pickup_longitude", JNum (Fin (77 # 1)));
                ("bus_id", JStr "bus-7")]).

Definition location_request (lat lon : Z) : Request :=
  as_ann (JObj [("latitude", JNum (num_of_Z lat)); ("longitude", JNum (num_of_Z lon))]).

Definition short_password_signup : Request :=
  request None
          (JObj [("email", JStr "bob@example.com");
                 ("password", JStr "abc");
                 ("name", JStr "Bob");
                 ("role", JStr "parent")]).

Definition duplicate_signup : Request :=
  request None
          (JObj [("email", JStr "ann@example.com");
                 ("password", JStr "secret1");
                 ("name", JStr "Ann");
                 ("role", JStr "student")]).

(** More requests of the scenario: pickup routes of Ann and of Bob, Ann's
    university, a body that is not JSON, and two signups under a new email,
    one with a number for a password. *)
Definition pickup_route_fields : list (string * jsval) :=
  [("bus_id", JStr "bus-7");
   ("pickup_latitude", JNum (num_of_Z 12));
   ("pickup_longitude", JNum (num_of_Z 77))].

Definition pickup_route_request : Request := as_ann (JObj pickup_route_fields).

Definition bob_pickup_route_request : Request := as_bob (JObj pickup_route_fields).

Definition university_request (university_id : string) : Request :=
  as_ann (JObj [("university_id", JStr university_id)]).

Definition unreadable_request : Request :=
  {| header_Authorization := Some "Bearer t1";
     req_json := Throws (JStr "Unexpected end of JSON input");
     param_driverId := "" |}.

(** A store that is out of reach: each of its operations throws. *)
Definition unavailable_store : KVStore (gmap string jsval) := {|
  kv_set _ _ _ := Throws (JStr "store unavailable");
  kv_get _ _ := Throws (JStr "store unavailable");
  kv_getByPrefix _ _ := Throws (JStr "store unavailable");
|}.

Definition signup_fields (password : jsval) : list (string * jsval) :=
  [("email", JStr "carol@example.com");
   ("password", password);
   ("name", JStr "Carol");
   ("role", JStr "student")].

Definition new_signup : Request := request None (JObj (signup_fields (JStr "secret1"))).

Definition numeric_password_signup : Request :=
  request None (JObj (signup_fields (JNum (num_of_Z 12345)))).

(** An engine to run the seed on: identifiers are numbers, drawn in order,
    rationals stand in for DOUBLE PRECISION, and every random number is
    1/2. *)
Definition sample_engine : Seed.Engine nat Q Z := {|
  Seed.uuid_generate_v4 n := n;
  Seed.RANDOM _ := (1 # 2)%Q;
  Seed.NOW := 1700000000000;
  Seed.to_double q := q;
  Seed.double_add := Qplus;
  Seed.double_sub := Qminus;
  Seed.double_mul := Qmult;
|}.

(** A database whose tables are empty, and one that holds a single
    university. *)
Definition empty_database : @Seed.database nat Q Z := {|
  Seed.universities := [];
  Seed.drivers := [];
  Seed.buses := [];
  Seed.bus_locations := [];
  Seed.uuids_drawn := 0;
  Seed.randoms_drawn := 0;
|}.

Definition one_university : @Seed.database nat Q Z := {|
  Seed.universities :=
    [{| Seed.u_id := 0%nat;
        Seed.u_name := "Indian Institute of Technology Delhi";
        Seed.u_short_name := "IIT Delhi";
        Seed.u_location := "New Delhi";
        Seed.u_latitude := (285449 # 10000)%Q;
        Seed.u_longitude := (771926 # 10000)%Q;
        Seed.u_created_at := 1700000000000 |}];
  Seed.drivers := [];
  Seed.buses := [];
  Seed.bus_locations := [];
  Seed.uuids_drawn := 1;
  Seed.randoms_drawn := 0;
|}.

(** * Properties *)

(** ** Strings *)

Lemma string_app_cons (a : ascii) (s t : string) :
  String a s +:+ t = String a (s +:+ t).
Proof. reflexivity. Qed.

Lemma string_app_nil_l (t : string) : "" +:+ t = t.
Proof. reflexivity. Qed.

Lemma string_app_assoc (s t u : string) : (s +:+ t) +:+ u = s +:+ t +:+ u.
Proof. induction s as [|a s IH]; [done|]. rewrite !string_app_cons. by rewrite IH. Qed.

Ltac str_simpl_in H := rewrite ?string_app_cons, ?string_app_nil_l in H.

Lemma startsWith_spec (s p : string) :
  startsWith s p = true <-> exists rest, s = p +:+ rest.
Proof.
  unfold startsWith. revert s.
  induction p as [|a p IH]; intros s; simpl.
  - destruct s; split; eauto.
  - destruct s as [|b s]; simpl.
    + split; [discriminate | intros [rest Hr]; discriminate].
    + destruct (ascii_dec a b) as [->|Hne].
      * rewrite IH. split; intros [rest Hr]; exists rest.
        -- by rewrite string_app_cons, Hr.
        -- rewrite string_app_cons in Hr. by injection Hr.
      * split; [discriminate | intros [rest Hr]].
        rewrite string_app_cons in Hr. by injection Hr.
Qed.

Lemma prefix_app (p rest : string) : String.prefix p (p +:+ rest) = true.
Proof. apply (startsWith_spec (p +:+ rest) p). eauto. Qed.

(** ** Bearer-token verification *)

Section VerifyAuth.
Context {S : Type} `{KVStore S} `{Runtime}.

(** [verifyAuth] never touches the store, and records at most the one
    [getUser] call it makes. *)
Lemma verifyAuth_world (env : Env) (h : option string) (w : world S) :
  (verifyAuth env h w).2 = w \/
  exists token, (verifyAuth env h w).2 = log (GetUser token) w.
Proof.
  unfold verifyAuth, bind, call, ret.
  destruct h as [s|]; [|by left].
  destruct (js_not (JStr s) || negb (startsWith s "Bearer ")); [by left|].
  right. exists (split " " s !! 1%nat).
  destruct (auth_getUser _ _) as [r|e]; simpl; [|done].
  by destruct (error r), (data_user r).
Qed.

Lemma verifyAuth_store (env : Env) (h : option string) (w : world S) :
  store (verifyAuth env h w).2 = store w.
Proof.
  destruct (verifyAuth_world env h w) as [->|[token ->]]; done.
Qed.

(** Without the prefix, [verifyAuth] returns at its first test. *)
Lemma verifyAuth_without_prefix (env : Env) (h : option string) (w : world S) :
  (forall rest, h <> Some ("Bearer " +:+ rest)) ->
  verifyAuth env h w = (Returns None, w).
Proof.
  intros Hshape. unfold verifyAuth.
  destruct h as [s|]; [|done].
  destruct (startsWith s "Bearer ") eqn:Hp.
  - apply startsWith_spec in Hp as [rest ->]. by destruct (Hshape rest).
  - by rewrite orb_true_r.
Qed.

Lemma verifyAuth_no_set (env : Env) (h : option string) (w : world S) e :
  e ∈ trace (verifyAuth env h w).2 -> is_set e = true -> e ∈ trace w.
Proof.
  destruct (verifyAuth_world env h w) as [->|[token ->]]; [done|].
  simpl. intros [->|?]%elem_of_cons; [discriminate | done].
Qed.
End VerifyAuth.

(** ** Protected handlers *)

Section Protected.
Context {S : Type} `{KVStore S} `{Runtime}.

Lemma turned_away_intro
    (handler : Env -> Request -> world S -> Response * world S)
    (resp : Response) (env : Env) (req : Request) (w : world S) :
  handler env req w = (resp, (verifyAuth env (header_Authorization req) w).2) ->
  status resp = 401 ->
  turned_away handler resp env req w.
Proof.
  intros Hrun Hst. unfold turned_away. rewrite Hrun.
  repeat split; auto using verifyAuth_store.
  intros e. apply verifyAuth_no_set.
Qed.

Ltac unauth Hnone :=
  apply turned_away_intro; [|done];
  unfold try_catch, bind;
  match goal with
  | |- context [verifyAuth ?env ?h ?w] =>
      destruct (verifyAuth env h w) as [[[u|]|e] w'] eqn:Hv;
      simpl in Hnone; try discriminate Hnone; done
  end.

(** C1. For each of the six protected handlers (save university, save
    location, fetch profile, save pickup route, get pickup route, submit
    feedback): when the Authorization header is absent, or is not of the
    form ["Bearer " ++ rest], or does not verify to an identity
    ([verifyAuth] resolves to [null]), the handler answers 401 Unauthorized,
    the store is unchanged and no [set] is executed. *)
Theorem protected_handlers_unauthorized (env : Env) (req : Request) (w : world S) :
  header_Authorization req = None \/
  (forall rest, header_Authorization req <> Some ("Bearer " +:+ rest)) \/
  (verifyAuth env (header_Authorization req) w).1 = Returns None ->
  turned_away post_user_university unauthorized env req w /\
  turned_away post_user_location unauthorized env req w /\
  turned_away get_user_profile unauthorized env req w /\
  turned_away post_user_pickup_route unauthorized env req w /\
  turned_away get_user_pickup_route unauthorized env req w /\
  turned_away post_feedback unauthorized_feedback env req w.
Proof.
  intros Hcases.
  assert ((verifyAuth env (header_Authorization req) w).1 = Returns None) as Hnone.
  { destruct Hcases as [Habsent|[Hshape|Hnone]]; [| |done].
    - by rewrite Habsent.
    - by rewrite verifyAuth_without_prefix. }
  clear Hcases. repeat split.
  - unfold post_user_university. unauth Hnone.
  - unfold post_user_location. unauth Hnone.
  - unfold get_user_profile. unauth Hnone.
  - unfold post_user_pickup_route. unauth Hnone.
  - unfold get_user_pickup_route. unauth Hnone.
  - unfold post_feedback. unauth Hnone.
Qed.

(** C10. A header that is [null], or that does not start with the exact
    prefix ["Bearer "], makes [verifyAuth] resolve to [null] in the world it
    started in: nothing is recorded, so the provider was not called. Hence a
    provider call happens only for a header of that shape. *)
Theorem verifyAuth_prefix_gate (env : Env) (h : option string) (w : world S) :
  h = None \/ (forall rest, h <> Some ("Bearer " +:+ rest)) ->
  verifyAuth env h w = (Returns None, w) /\
  trace (verifyAuth env h w).2 = trace w /\
  (forall token, GetUser token ∈ trace (verifyAuth env h w).2 ->
                 GetUser token ∈ trace w).
Proof.
  intros Hshape.
  assert (verifyAuth env h w = (Returns None, w)) as Hrun.
  { destruct Hshape as [->|Hshape]; [done|].
    by apply verifyAuth_without_prefix. }
  by rewrite Hrun.
Qed.

(** X3. For a header ["Bearer " ++ rest], the provider is asked exactly once,
    about the token that is the first space-delimited segment of [rest], and
    its answer decides: an identity when it reports a user and no error,
    [null] otherwise. *)
Theorem verifyAuth_bearer (env : Env) (rest : string) (w : world S) :
  let token := head (split " " rest) in
  verifyAuth env (Some ("Bearer " +:+ rest)) w
  = match auth_getUser (supabase env) token with
    | Returns r =>
        (Returns match error r, data_user r with
                 | None, Some u => Some {| userId := user_id u;
                                           email := default "" (user_email u) |}
                 | _, _ => None
                 end,
         log (GetUser token) w)
    | Throws e => (Throws e, log (GetUser token) w)
    end.
Proof.
  unfold verifyAuth, bind, call, ret.
  assert (startsWith ("Bearer " +:+ rest) "Bearer " = true) as ->.
  { apply startsWith_spec. by exists rest. }
  assert (split " " ("Bearer " +:+ rest) !! 1%nat = head (split " " rest)) as ->.
  { rewrite !string_app_cons, string_app_nil_l. simpl.
    by destruct (split " " rest). }
  simpl. destruct (auth_getUser _ _) as [r|e]; [|done].
  by destruct (error r), (data_user r).
Qed.

(** GET /health answers 200 [{status: "ok"}] in the world it found: it reads
    neither the store nor the provider. *)
Theorem health_is_constant (env : Env) (req : Request) (w : world S) :
  get_health env req w = (c_json (JObj [("status", JStr "ok")]) 200, w).
Proof. reflexivity. Qed.
End Protected.

(** ** Numbers and truthiness *)

Lemma Qltb_lt (a b : Q) : Qltb a b = true <-> (a < b)%Q.
Proof. unfold Qltb, Qlt. apply Z.ltb_lt. Qed.

Lemma Qltb_inject_Z (a b : Z) : Qltb (inject_Z a) (inject_Z b) = (a <? b).
Proof. unfold Qltb. simpl. by rewrite !Z.mul_1_r. Qed.

Lemma truthy_zero (q : Q) : (q == 0)%Q -> truthy (JNum (Fin q)) = false.
Proof. intros Hq. simpl. apply Qeq_bool_iff in Hq. by rewrite Hq. Qed.

Lemma truthy_str (s : string) : truthy (JStr s) = negb (String.eqb s "").
Proof. reflexivity. Qed.

Lemma truthy_nonempty (s : string) : s <> "" -> truthy (JStr s) = true.
Proof.
  intros Hs. simpl. destruct (String.eqb s "") eqn:E; [|done].
  by apply String.eqb_eq in E.
Qed.

(** ** Validation *)

Section Validation.
Context {S : Type} `{KVStore S} `{Runtime}.

(** C5. For an authenticated caller, a save-location request whose
    [latitude] is the number 0, and a save-pickup-route request whose
    [pickup_latitude] is the number 0, are answered 400 as missing
    coordinates, whatever the other fields are, with the very answer an
    absent coordinate gets. Nothing is recorded after [verifyAuth], and the
    store is the one the request found, so the coordinate is not stored. *)
Theorem zero_latitude_rejected (env : Env) (req : Request) (w w' : world S)
    (user : AuthUser) (fs : list (string * jsval)) (q : Q) :
  verifyAuth env (header_Authorization req) w = (Returns (Some user), w') ->
  req_json req = Returns (JObj fs) ->
  (q == 0)%Q ->
  store w' = store w /\
  (assoc "latitude" fs = JNum (Fin q) \/ assoc "latitude" fs = JUndefined ->
   post_user_location env req w
   = (json_error (JStr "Latitude and longitude are required") 400, w')) /\
  (assoc "pickup_latitude" fs = JNum (Fin q)
   \/ assoc "pickup_latitude" fs = JUndefined ->
   post_user_pickup_route env req w
   = (json_error (JStr "Bus ID and pickup coordinates are required") 400, w')).
Proof.
  intros Hv Hjson Hq. split; [|split].
  - rewrite <- (verifyAuth_store env (header_Authorization req) w). by rewrite Hv.
  - intros Hlat.
    assert (js_not (assoc "latitude" fs) = true) as Hfalsy.
    { unfold js_not. destruct Hlat as [->| ->]; [|done].
      by rewrite (truthy_zero q Hq). }
    unfold post_user_location, try_catch, bind, lift, ret.
    rewrite Hv, Hjson. simpl. by rewrite Hfalsy.
  - intros Hlat.
    assert (js_not (assoc "pickup_latitude" fs) = true) as Hfalsy.
    { unfold js_not. destruct Hlat as [->| ->]; [|done].
      by rewrite (truthy_zero q Hq). }
    unfold post_user_pickup_route, try_catch, bind, lift, ret.
    rewrite Hv, Hjson. simpl. rewrite Hfalsy.
    by destruct (js_not (assoc "bus_id" fs)).
Qed.

(** C7. A signup whose password is a string of fewer than 6 characters is
    answered 400 in the world it arrived in: the trace is unchanged, so
    neither [listUsers] nor [createUser] was called. With email, name and
    role present the message is the one about the password's length. *)
Theorem short_password_rejected (env : Env) (req : Request) (w : world S)
    (fs : list (string * jsval)) (s : string) :
  req_json req = Returns (JObj fs) ->
  assoc "password" fs = JStr s ->
  (String.length s < 6)%nat ->
  post_auth_signup env req w
  = (json_error
       (JStr (if truthy (assoc "email" fs) && truthy (JStr s)
                 && truthy (assoc "name" fs) && truthy (assoc "role" fs)
              then "Password must be at least 6 characters long"
              else "Email, password, name, and role are required")) 400,
     w).
Proof.
  intros Hjson Hpw Hlen.
  unfold post_auth_signup, try_catch, bind, lift, ret.
  rewrite Hjson. simpl. rewrite Hpw. unfold js_not.
  rewrite ?truthy_str.
  destruct (truthy (assoc "email" fs)); [|reflexivity].
  destruct (String.eqb s ""); [reflexivity|].
  destruct (truthy (assoc "name" fs)); [|reflexivity].
  destruct (truthy (assoc "role" fs)); [|reflexivity].
  simpl. rewrite Qltb_inject_Z.
  by rewrite (proj2 (Z.ltb_lt _ _)) by lia.
Qed.

(** The pickup route of a caller whose key the store reports absent. *)
Lemma get_pickup_route_absent (env : Env) (req : Request) (w w' : world S)
    (user : AuthUser) :
  verifyAuth env (header_Authorization req) w = (Returns (Some user), w') ->
  kv_get ("user:" +:+ userId user +:+ ":pickup-route") (store w) = Returns None ->
  get_user_pickup_route env req w
  = (c_json (JObj [("pickup_route", JUndefined)]) 200,
     log (KvGet ("user:" +:+ userId user +:+ ":pickup-route")) w').
Proof.
  intros Hv Hget.
  assert (store w' = store w) as Hst.
  { rewrite <- (verifyAuth_store env (header_Authorization req) w). by rewrite Hv. }
  unfold get_user_pickup_route, try_catch, bind, ret, get.
  rewrite Hv. simpl. by rewrite Hst, Hget.
Qed.
End Validation.

(** ** Handlers over the record store *)

Lemma elem_of_spec_scan (p : string) (m : gmap string jsval) (v : jsval) :
  v ∈ spec_scan p m <-> exists k, m !! k = Some v /\ String.prefix p k = true.
Proof.
  unfold spec_scan. rewrite list_elem_of_fmap. split.
  - intros [[k v'] [-> Hin]]. exists k.
    apply elem_of_map_to_list in Hin.
    by apply map_lookup_filter_Some in Hin.
  - intros (k & Hk & Hp). exists (k, v). split; [done|].
    apply elem_of_map_to_list. by apply map_lookup_filter_Some.
Qed.

Section OverStore.
Context `{Runtime}.

Lemma feedbackId_prefix (env : Env) (user : AuthUser) (driver : string) :
  String.prefix ("feedback:" +:+ driver +:+ ":")
                (feedbackId env user driver) = true.
Proof.
  apply (startsWith_spec (feedbackId env user driver)).
  exists (pretty (Date_now env) +:+ ":" +:+ userId user).
  unfold feedbackId. by rewrite !string_app_assoc.
Qed.

Lemma authenticated_store (env : Env) (h : option string)
    (w w1 : world (gmap string jsval)) (o : outcome (option AuthUser)) :
  verifyAuth env h w = (o, w1) -> store w1 = store w.
Proof. intros Hv. rewrite <- (verifyAuth_store env h w). by rewrite Hv. Qed.

(** POST /feedback, when it answers 200 to an authenticated caller: the
    driver id converted to a string, and the record was written under its
    key. *)
Lemma post_feedback_accepted (env : Env) (req : Request)
    (w w1 : world (gmap string jsval)) (user : AuthUser)
    (fs : list (string * jsval)) :
  verifyAuth env (header_Authorization req) w = (Returns (Some user), w1) ->
  req_json req = Returns (JObj fs) ->
  status (post_feedback env req w).1 = 200 ->
  exists driver,
    ToString (assoc "driver_id" fs) = Returns driver /\
    post_feedback env req w
    = (json_success "Feedback submitted successfully",
       {| store := <[feedbackId env user driver
                     := feedback_record env user (assoc "driver_id" fs)
                          (assoc "rating" fs) (assoc "comment" fs)]> (store w);
          trace := KvSet (feedbackId env user driver)
                         (feedback_record env user (assoc "driver_id" fs)
                            (assoc "rating" fs) (assoc "comment" fs))
                   :: trace w1 |}).
Proof.
  intros Hv Hjson. pose proof (authenticated_store _ _ _ _ _ Hv) as Hst.
  unfold post_feedback, try_catch, bind, lift, ret.
  rewrite Hv, Hjson. simpl.
  destruct (js_not (assoc "driver_id" fs) || js_not (assoc "rating" fs));
    [discriminate|].
  destruct (js_lt (assoc "rating" fs) (num_of_Z 1)) as [[]|]; simpl;
    [discriminate| |discriminate].
  destruct (js_gt (assoc "rating" fs) (num_of_Z 5)) as [[]|]; simpl;
    [discriminate| |discriminate].
  destruct (ToString (assoc "driver_id" fs)) as [driver|]; simpl; [|discriminate].
  intros _. exists driver. split; [done|].
  unfold spec_set. by rewrite Hst.
Qed.

(** GET /drivers/:driverId/feedback: no header is read and no provider is
    called; the scan's result is returned as it is. *)
Lemma get_driver_feedback_scan (env : Env) (req : Request)
    (w : world (gmap string jsval)) :
  get_driver_feedback env req w
  = (c_json (JObj [("feedback",
                    JArr (spec_scan ("feedback:" +:+ param_driverId req +:+ ":")
                                    (store w)))]) 200,
     log (KvGetByPrefix ("feedback:" +:+ param_driverId req +:+ ":")) w).
Proof. reflexivity. Qed.

(** C9. A feedback record written by POST /feedback carries the submitting
    user's id and email address, and GET /drivers/:driverId/feedback, for
    any request whatever its Authorization header and with no call to the
    provider, returns the scan's records as they are stored; among them is
    that record, with the author's email. *)
Theorem feedback_exposes_author_email (env : Env) (req : Request)
    (w w1 : world (gmap string jsval)) (user : AuthUser)
    (fs : list (string * jsval)) (env' : Env) (req' : Request) :
  verifyAuth env (header_Authorization req) w = (Returns (Some user), w1) ->
  req_json req = Returns (JObj fs) ->
  status (post_feedback env req w).1 = 200 ->
  ToString (assoc "driver_id" fs) = Returns (param_driverId req') ->
  let record := feedback_record env user (assoc "driver_id" fs)
                  (assoc "rating" fs) (assoc "comment" fs) in
  let w2 := (post_feedback env req w).2 in
  let prefix := "feedback:" +:+ param_driverId req' +:+ ":" in
  trace w2 = KvSet (feedbackId env user (param_driverId req')) record :: trace w1 /\
  opt_get record "user_id" = JStr (userId user) /\
  opt_get record "user_email" = JStr (email user) /\
  get_driver_feedback env' req' w2
  = (c_json (JObj [("feedback", JArr (spec_scan prefix (store w2)))]) 200,
     log (KvGetByPrefix prefix) w2) /\
  record ∈ spec_scan prefix (store w2).
Proof.
  intros Hv Hjson Hok Hparam. cbv zeta.
  destruct (post_feedback_accepted env req w w1 user fs Hv Hjson Hok)
    as (driver & Hdriver & ->).
  rewrite Hparam in Hdriver. injection Hdriver as <-.
  simpl. repeat split.
  apply elem_of_spec_scan.
  exists (feedbackId env user (param_driverId req')). split.
  - apply lookup_insert_eq.
  - apply feedbackId_prefix.
Qed.
(** C3. Run on a rating of 2.5 from an authenticated caller, POST /feedback
    answers 200 and stores the record: a rating that is not an integer
    passes the range check [rating < 1 || rating > 5]. *)
Theorem fractional_rating_accepted :
  post_feedback sample_env fractional_rating_request empty_world
  = (json_success "Feedback submitted successfully",
     {| store :=
          {[ "feedback:d1:1700000000000:u1" :=
               JObj [("driver_id", JStr "d1");
                     ("user_id", JStr "u1");
                     ("user_email", JStr "ann@example.com");
                     ("rating", JNum (Fin (5 # 2)));
                     ("comment", JNull);
                     ("created_at", JStr "2023-11-14T22:13:20.000Z")] ]};
        trace :=
          [KvSet "feedback:d1:1700000000000:u1"
                 (JObj [("driver_id", JStr "d1");
                        ("user_id", JStr "u1");
                        ("user_email", JStr "ann@example.com");
                        ("rating", JNum (Fin (5 # 2)));
                        ("comment", JNull);
                        ("created_at", JStr "2023-11-14T22:13:20.000Z")]);
           GetUser (Some "t1")] |}).
Proof. vm_compute. reflexivity. Qed.

(** X1. The range check on a numeric rating: for an authenticated caller and a
    driver id that is a non-empty string, a rating below 1 or above 5 is
    answered 400 and nothing is written; a rating from 1 to 5, the bounds
    included, is accepted and its record written. *)
Theorem numeric_rating_range (env : Env) (req : Request)
    (w w1 : world (gmap string jsval)) (user : AuthUser)
    (fs : list (string * jsval)) (d : string) (q : Q) :
  verifyAuth env (header_Authorization req) w = (Returns (Some user), w1) ->
  req_json req = Returns (JObj fs) ->
  assoc "driver_id" fs = JStr d -> d <> "" ->
  assoc "rating" fs = JNum (Fin q) ->
  ((q < 1 \/ 5 < q)%Q ->
   status (post_feedback env req w).1 = 400 /\ (post_feedback env req w).2 = w1) /\
  ((1 <= q <= 5)%Q ->
   post_feedback env req w
   = (json_success "Feedback submitted successfully",
      {| store := <[feedbackId env user d
                    := feedback_record env user (JStr d) (JNum (Fin q))
                         (assoc "comment" fs)]> (store w);
         trace := KvSet (feedbackId env user d)
                        (feedback_record env user (JStr d) (JNum (Fin q))
                           (assoc "comment" fs))
                  :: trace w1 |})).
Proof.
  intros Hv Hjson Hd Hne Hr. pose proof (authenticated_store _ _ _ _ _ Hv) as Hst.
  assert (js_not (JStr d) = false) as Hdt.
  { unfold js_not. by rewrite (truthy_nonempty d Hne). }
  assert (js_not (JNum (Fin q)) = Qeq_bool q 0) as Hrt.
  { unfold js_not. simpl. apply negb_involutive. }
  assert (js_lt (JNum (Fin q)) (num_of_Z 1) = Returns (Qltb q 1)) as Hlt by done.
  assert (js_gt (JNum (Fin q)) (num_of_Z 5) = Returns (Qltb 5 q)) as Hgt by done.
  unfold post_feedback, try_catch, bind, lift, ret.
  rewrite Hv, Hjson. simpl. rewrite Hd, Hr, Hdt, Hrt, Hlt, Hgt. simpl.
  destruct (Qeq_bool q 0) eqn:E0; simpl.
  { split; [done|]. intros [Hlo Hhi]. apply Qeq_bool_iff in E0.
    rewrite E0 in Hlo. by apply Qle_not_lt in Hlo. }
  destruct (Qltb q 1) eqn:E1; simpl.
  { split; [done|]. intros [Hlo Hhi]. apply Qltb_lt in E1.
    by apply Qle_not_lt in Hlo. }
  destruct (Qltb 5 q) eqn:E5; simpl.
  { split; [done|]. intros [Hlo Hhi]. apply Qltb_lt in E5.
    by apply Qle_not_lt in Hhi. }
  split.
  - intros [Hlo|Hhi]; [apply Qltb_lt in Hlo | apply Qltb_lt in Hhi]; congruence.
  - intros _. unfold spec_set. by rewrite Hst.
Qed.

(** POST /user/location, once the caller is authenticated and the body is a
    JSON object. *)
Lemma post_user_location_authenticated (env : Env) (req : Request)
    (w w1 : world (gmap string jsval)) (user : AuthUser)
    (fs : list (string * jsval)) :
  verifyAuth env (header_Authorization req) w = (Returns (Some user), w1) ->
  req_json req = Returns (JObj fs) ->
  post_user_location env req w =
    let value := JObj [("latitude", assoc "latitude" fs);
                       ("longitude", assoc "longitude" fs);
                       ("address", js_or (assoc "address" fs) JNull);
                       ("updated_at", JStr (Date_toISOString env))] in
    if js_not (assoc "latitude" fs) || js_not (assoc "longitude" fs) then
      (json_error (JStr "Latitude and longitude are required") 400, w1)
    else
      (json_success "Location saved successfully",
       {| store := <["user:" +:+ userId user +:+ ":location" := value]> (store w);
          trace := KvSet ("user:" +:+ userId user +:+ ":location") value
                   :: trace w1 |}).
Proof.
  intros Hv Hjson. pose proof (authenticated_store _ _ _ _ _ Hv) as Hst.
  unfold post_user_location, try_catch, bind, lift, ret.
  rewrite Hv, Hjson. simpl.
  destruct (js_not (assoc "latitude" fs) || js_not (assoc "longitude" fs)); [done|].
  unfold set. simpl. unfold spec_set. by rewrite Hst.
Qed.

(** GET /user/profile, once the caller is authenticated and the provider
    has answered [getUserById]. *)
Lemma get_user_profile_authenticated (env : Env) (req : Request)
    (w w1 : world (gmap string jsval)) (user : AuthUser) (userData : UserResponse) :
  verifyAuth env (header_Authorization req) w = (Returns (Some user), w1) ->
  admin_getUserById (supabase env) (userId user) = Returns userData ->
  exists (r : Response) (w2 : world (gmap string jsval)),
    get_user_profile env req w = (r, w2) /\
    status r = 200 /\
    store w2 = store w /\
    opt_get (body r) "university"
    = default JUndefined (store w !! ("user:" +:+ userId user +:+ ":university")) /\
    opt_get (body r) "location"
    = default JUndefined (store w !! ("user:" +:+ userId user +:+ ":location")).
Proof.
  intros Hv Hdata. pose proof (authenticated_store _ _ _ _ _ Hv) as Hst.
  unfold get_user_profile, try_catch, bind, call, ret, get.
  rewrite Hv, Hdata. simpl. unfold spec_get. simpl. rewrite Hst.
  destruct (store w !! ("user:" +:+ userId user +:+ ":university")) as [u|];
    simpl; rewrite Hst;
    destruct (store w !! ("user:" +:+ userId user +:+ ":location")) as [l|];
    simpl; eexists _, _; (split; [reflexivity|]); by rewrite ?Hst.
Qed.

(** C6. [set(k, v)] followed by [get(k)] returns [v]; and after two saves of
    a location by one user, whatever the first one was, the profile of that
    user shows the value of the second save and nothing of the first. *)
Theorem last_location_wins :
  (forall (k : string) (v : jsval) (m : gmap string jsval),
      spec_get k (spec_set k v m) = Some v) /\
  (forall (k : string) (v : jsval) (w : world (gmap string jsval)),
      (bind (set k v) (fun _ => get k) w).1 = Returns v) /\
  (forall (env1 env2 env3 : Env) (req1 req2 req3 : Request)
          (w : world (gmap string jsval)) (user2 user3 : AuthUser)
          (fs2 : list (string * jsval)) (userData : UserResponse),
      let w1 := (post_user_location env1 req1 w).2 in
      let w2 := (post_user_location env2 req2 w1).2 in
      (verifyAuth env2 (header_Authorization req2) w1).1 = Returns (Some user2) ->
      req_json req2 = Returns (JObj fs2) ->
      status (post_user_location env2 req2 w1).1 = 200 ->
      (verifyAuth env3 (header_Authorization req3) w2).1 = Returns (Some user3) ->
      userId user3 = userId user2 ->
      admin_getUserById (supabase env3) (userId user3) = Returns userData ->
      status (get_user_profile env3 req3 w2).1 = 200 /\
      opt_get (body (get_user_profile env3 req3 w2).1) "location"
      = JObj [("latitude", assoc "latitude" fs2);
              ("longitude", assoc "longitude" fs2);
              ("address", js_or (assoc "address" fs2) JNull);
              ("updated_at", JStr (Date_toISOString env2))]).
Proof.
  split; [|split].
  - intros k v m. apply lookup_insert_eq.
  - intros k v w. unfold bind, set, get. simpl. unfold spec_get, spec_set.
    by rewrite lookup_insert_eq.
  - intros env1 env2 env3 req1 req2 req3 w user2 user3 fs2 userData w1 w2
      Hv2 Hjson Hok Hv3 Hid Hdata.
    destruct (verifyAuth env2 (header_Authorization req2) w1) as [o2 w1'] eqn:E2.
    simpl in Hv2. subst o2.
    destruct (verifyAuth env3 (header_Authorization req3) w2) as [o3 w2'] eqn:E3.
    simpl in Hv3. subst o3.
    destruct (get_user_profile_authenticated env3 req3 w2 w2' user3 userData E3 Hdata)
      as (r & w3 & Hrun & Hst & _ & _ & Hloc).
    rewrite Hrun. simpl. split; [done|]. rewrite Hloc.
    unfold w2.
    rewrite (post_user_location_authenticated env2 req2 w1 w1' user2 fs2 E2 Hjson) in *.
    cbv zeta in *.
    destruct (js_not (assoc "latitude" fs2) || js_not (assoc "longitude" fs2));
      [discriminate Hok|].
    simpl. by rewrite Hid, lookup_insert_eq.
Qed.
End OverStore.

(** ** Keys *)

Lemma chars_app (s t : string) : chars (s +:+ t) = chars s ++ chars t.
Proof.
  induction s as [|a s IH]; [done|].
  rewrite string_app_cons. unfold chars in *. simpl. by rewrite IH.
Qed.

Lemma chars_inj (s t : string) : chars s = chars t -> s = t.
Proof.
  intros Heq.
  rewrite <- (String.string_of_list_ascii_of_string s),
          <- (String.string_of_list_ascii_of_string t).
  unfold chars in Heq. by rewrite Heq.
Qed.

Lemma string_app_inv_tail (s1 s2 t : string) : s1 +:+ t = s2 +:+ t -> s1 = s2.
Proof.
  intros Heq. apply chars_inj.
  apply (f_equal chars) in Heq. rewrite !chars_app in Heq.
  by apply app_inv_tail in Heq.
Qed.

(** Two strings that end in different characters differ. *)
Lemma string_app_last_ne (s1 s2 t1 t2 : string) (c1 c2 : ascii) :
  c1 <> c2 ->
  s1 +:+ t1 +:+ String c1 "" <> s2 +:+ t2 +:+ String c2 "".
Proof.
  intros Hne Heq. apply (f_equal chars) in Heq.
  rewrite !chars_app in Heq.
  change (chars (String c1 "")) with [c1] in Heq.
  change (chars (String c2 "")) with [c2] in Heq.
  apply (f_equal last) in Heq.
  rewrite !app_assoc, !last_snoc in Heq. congruence.
Qed.

Lemma user_key_inj (a b kind : string) :
  "user:" +:+ a +:+ kind = "user:" +:+ b +:+ kind -> a = b.
Proof.
  intros Heq. apply (inj (String.app "user:")) in Heq.
  by apply string_app_inv_tail in Heq.
Qed.

Lemma university_key_ne (a b : string) :
  "user:" +:+ a +:+ ":university" <> "user:" +:+ b +:+ ":pickup-route".
Proof.
  intros Heq. apply (inj (String.app "user:")) in Heq.
  by apply (string_app_last_ne a b ":universit" ":pickup-rout" "y" "e") in Heq.
Qed.

Lemma location_key_ne (a b : string) :
  "user:" +:+ a +:+ ":location" <> "user:" +:+ b +:+ ":pickup-route".
Proof.
  intros Heq. apply (inj (String.app "user:")) in Heq.
  by apply (string_app_last_ne a b ":locatio" ":pickup-rout" "n" "e") in Heq.
Qed.


(** ** Sequences of requests *)

Section History.
Context `{Runtime}.
Implicit Types w : world (gmap string jsval).

Lemma verifyAuth_result (env : Env) (h : option string) w w' :
  (verifyAuth env h w).1 = (verifyAuth env h w').1.
Proof.
  unfold verifyAuth, bind, call, ret.
  destruct h as [s|]; [|done].
  destruct (js_not (JStr s) || negb (startsWith s "Bearer ")); [done|].
  destruct (auth_getUser _ _) as [r|e]; simpl; [|done].
  by destruct (error r), (data_user r).
Qed.

Lemma caller_spec (env : Env) (req : Request) w w1 (u : AuthUser) :
  verifyAuth env (header_Authorization req) w = (Returns (Some u), w1) ->
  caller env req = Some u.
Proof.
  intros Hv. unfold caller.
  rewrite (verifyAuth_result env _ _ w). by rewrite Hv.
Qed.

Ltac auth_cases env req w :=
  let Hv := fresh "Hv" in
  let Hst := fresh "Hst" in
  destruct (verifyAuth env (header_Authorization req) w) as [[[?u|]|?e] ?w1] eqn:Hv;
  pose proof (authenticated_store _ _ _ _ _ Hv) as Hst; simpl.

Ltac store_step :=
  first
    [ by left
    | right; eexists _, _; split;
      [ econstructor; eauto using caller_spec
      | simpl; unfold spec_set;
        match goal with Hst : store _ = store _ |- _ => rewrite Hst end;
        reflexivity ] ].

(** A request leaves the store as it was, or writes one key it may write. *)
Lemma serve_store (r : route) (env : Env) (req : Request) w :
  store (serve r env req w).2 = store w \/
  exists k v, may_write env req r k /\
              store (serve r env req w).2 = <[k := v]> (store w).
Proof.
  destruct r; simpl.
  - left. unfold post_auth_signup, try_catch, bind, lift, call, ret.
    repeat (case_match; simplify_eq/=; try done).
  - unfold post_user_university, try_catch, bind, lift, ret.
    auth_cases env req w; repeat case_match; simplify_eq/=; store_step.
  - unfold post_user_location, try_catch, bind, lift, ret.
    auth_cases env req w; repeat case_match; simplify_eq/=; store_step.
  - left. unfold get_user_profile, try_catch, bind, lift, call, ret, get.
    auth_cases env req w; try done;
      repeat (case_match; simplify_eq/=; try done).
  - unfold post_user_pickup_route, try_catch, bind, lift, ret.
    auth_cases env req w; repeat case_match; simplify_eq/=; store_step.
  - left. unfold get_user_pickup_route, try_catch, bind, lift, call, ret, get.
    auth_cases env req w; try done;
      repeat (case_match; simplify_eq/=; try done).
  - unfold post_feedback, try_catch, bind, lift, ret.
    auth_cases env req w; repeat case_match; simplify_eq/=; store_step.
  - by left.
  - by left.
  - by left.
Qed.
Lemma serve_all_cons (x : route * Env * Request) reqs w :
  serve_all (x :: reqs) w = serve_all reqs (serve x.1.1 x.1.2 x.2 w).2.
Proof. reflexivity. Qed.

Lemma serve_all_snoc (x : route * Env * Request) reqs w :
  serve_all (reqs ++ [x]) w = (serve x.1.1 x.1.2 x.2 (serve_all reqs w)).2.
Proof. unfold serve_all. by rewrite foldl_snoc. Qed.

(** A key that no request of the sequence fills stays absent. *)
Lemma serve_all_absent (reqs : list (route * Env * Request)) w (k : string) :
  store w !! k = None ->
  (forall x w', x ∈ reqs -> store w' !! k = None ->
                store (serve x.1.1 x.1.2 x.2 w').2 !! k = None) ->
  store (serve_all reqs w) !! k = None.
Proof.
  revert w. induction reqs as [|x reqs IH]; intros w Hk Hkeep; [done|].
  rewrite serve_all_cons. apply IH.
  - apply Hkeep; [left | done].
  - intros y w' Hy. apply Hkeep. by right.
Qed.

(** A save of the pickup route that is not answered 200 writes nothing. *)
Lemma pickup_route_rejected (env : Env) (req : Request) w :
  status (post_user_pickup_route env req w).1 <> 200 ->
  store (post_user_pickup_route env req w).2 = store w.
Proof.
  unfold post_user_pickup_route, try_catch, bind, lift, ret.
  auth_cases env req w; try done.
  repeat (case_match; simplify_eq/=; try done).
Qed.

(** Only a save of the pickup route by that user writes the user's
    pickup-route key. *)
Lemma pickup_route_key_writer (env : Env) (req : Request) (r : route) (uid : string) :
  may_write env req r ("user:" +:+ uid +:+ ":pickup-route") ->
  r = POST_user_pickup_route /\
  exists u, caller env req = Some u /\ userId u = uid.
Proof.
  intros Hw. remember ("user:" +:+ uid +:+ ":pickup-route") as k eqn:Hk.
  destruct Hw as [u Hc|u Hc|u Hc|u d Hc].
  - by apply university_key_ne in Hk.
  - by apply location_key_ne in Hk.
  - apply user_key_inj in Hk. eauto.
  - unfold feedbackId in Hk. str_simpl_in Hk. discriminate Hk.
Qed.

(** C8. For an authenticated user who has not saved a pickup route (the
    key is absent at the start, and no request served since was a save of
    the pickup route by that user that was answered 200), GET
    /user/pickup-route answers 200 with an absent [pickup_route] field,
    after one [get] of the user's key. *)
Theorem unsaved_pickup_route_is_success (reqs : list (route * Env * Request))
    w0 (env : Env) (req : Request) (user : AuthUser) w1 :
  store w0 !! ("user:" +:+ userId user +:+ ":pickup-route") = None ->
  (forall env' req' user' w',
      (POST_user_pickup_route, env', req') ∈ reqs ->
      caller env' req' = Some user' ->
      status (post_user_pickup_route env' req' w').1 = 200 ->
      userId user' <> userId user) ->
  verifyAuth env (header_Authorization req) (serve_all reqs w0)
  = (Returns (Some user), w1) ->
  get_user_pickup_route env req (serve_all reqs w0)
  = (c_json (JObj [("pickup_route", JUndefined)]) 200,
     log (KvGet ("user:" +:+ userId user +:+ ":pickup-route")) w1).
Proof.
  intros Hk Hnever Hv.
  apply get_pickup_route_absent; [done|]. simpl. unfold spec_get. f_equal.
  apply serve_all_absent; [done|].
  intros [[r env'] req'] w' Hin Hnone. simpl.
  destruct (serve_store r env' req' w') as [->|(k & v & Hw & Hst)]; [done|].
  destruct (decide (k = "user:" +:+ userId user +:+ ":pickup-route"))
    as [->|Hne]; [|by rewrite Hst, lookup_insert_ne].
  apply pickup_route_key_writer in Hw as [-> (u & Hc & Hid)]. simpl.
  destruct (decide (status (post_user_pickup_route env' req' w').1 = 200))
    as [Hok|Hrej].
  - by destruct (Hnever env' req' u w').
  - by rewrite pickup_route_rejected.
Qed.
End History.

(** ** Signup *)

Lemma email_listed (e : string) (users : list User) :
  existsb (fun u => strict_eq_email (user_email u) (JStr e)) users = true
  <-> Some e ∈ user_email <$> users.
Proof.
  rewrite existsb_exists, list_elem_of_fmap. split.
  - intros (u & Hin & Heq). exists u. split; [|by apply list_elem_of_In].
    destruct (user_email u) as [x|]; [|done].
    simpl in Heq. apply String.eqb_eq in Heq. by subst.
  - intros (u & Heq & Hin). exists u. split; [by apply list_elem_of_In|].
    rewrite <- Heq. simpl. apply String.eqb_refl.
Qed.

Section Signup.
Context {S : Type} `{KVStore S} `{Runtime}.

(** A signup with valid inputs, up to the provider's list: the handler
    answers from its duplicate check, or goes on to [createUser]. *)
Lemma signup_validated (env : Env) (req : Request) (w : world S)
    (fs : list (string * jsval)) (e p : string) (users : list User) :
  req_json req = Returns (JObj fs) ->
  assoc "email" fs = JStr e -> e <> "" ->
  assoc "password" fs = JStr p -> (6 <= String.length p)%nat ->
  truthy (assoc "name" fs) = true ->
  truthy (assoc "role" fs) = true ->
  admin_listUsers (supabase env) = Returns {| data_users := Some users |} ->
  let attrs :=
    {| attr_email := JStr e;
       attr_password := JStr p;
       attr_email_confirm := true;
       attr_user_metadata :=
         JObj [("name", assoc "name" fs);
               ("role", assoc "role" fs);
               ("roll_number", js_or (assoc "roll_number" fs) JNull);
               ("phone_number", js_or (assoc "phone_number" fs) JNull);
               ("emergency_phone", js_or (assoc "emergency_phone" fs) JNull)] |} in
  post_auth_signup env req w
  = if existsb (fun u => strict_eq_email (user_email u) (JStr e)) users
    then (json_error (JStr "An account with this email already exists") 400,
          log ListUsers w)
    else try_catch
           (let* r := call (CreateUser attrs)
                           (admin_createUser (supabase env) attrs) in
            match error r with
            | Some err =>
                ret (json_error (js_or (JStr (error_message err))
                                       (JStr "Failed to create account")) 400)
            | None =>
                match data_user r with
                | None => ret (json_error (JStr "Failed to create user") 500)
                | Some u =>
                    let* _ := lift (ToString (assoc "role" fs)) in
                    ret (c_json
                           (JObj [("success", JBool true);
                                  ("message", JStr "Account created successfully");
                                  ("user",
                                   JObj [("id", JStr (user_id u));
                                         ("email", opt_str (user_email u));
                                         ("name", assoc "name" fs);
                                         ("role", assoc "role" fs);
                                         ("roll_number", assoc "roll_number" fs);
                                         ("phone_number", assoc "phone_number" fs);
                                         ("emergency_phone",
                                          assoc "emergency_phone" fs)])])
                           200)
                end
            end)
           internal_error (log ListUsers w).
Proof.
  intros Hjson He Hne Hp Hlen Hname Hrole Hlist attrs.
  unfold post_auth_signup, try_catch, bind, lift, call, ret.
  rewrite Hjson. simpl. rewrite He, Hp. unfold js_not.
  rewrite (truthy_nonempty e Hne), Hname, Hrole.
  assert (truthy (JStr p) = true) as ->.
  { apply truthy_nonempty. intros ->. simpl in Hlen. lia. }
  simpl. rewrite Qltb_inject_Z, (proj2 (Z.ltb_ge _ _)) by lia.
  rewrite Hlist. simpl.
  destruct (existsb _ users); [done|].
  destruct (admin_createUser _ _) as [r|err]; simpl; [|done].
  by destruct (error r), (data_user r).
Qed.

(** A signup under exactly the email of a listed identity is answered 400
    by the handler's own check, and [createUser] is not called. *)
Lemma exact_duplicate_rejected (env : Env) (req : Request) (w : world S)
    (fs : list (string * jsval)) (e p : string) (users : list User) :
  req_json req = Returns (JObj fs) ->
  assoc "email" fs = JStr e -> e <> "" ->
  assoc "password" fs = JStr p -> (6 <= String.length p)%nat ->
  truthy (assoc "name" fs) = true ->
  truthy (assoc "role" fs) = true ->
  admin_listUsers (supabase env) = Returns {| data_users := Some users |} ->
  Some e ∈ user_email <$> users ->
  post_auth_signup env req w
  = (json_error (JStr "An account with this email already exists") 400,
     log ListUsers w).
Proof.
  intros Hjson He Hne Hp Hlen Hname Hrole Hlist Hin.
  rewrite (signup_validated env req w fs e p users) by done.
  apply email_listed in Hin. by rewrite Hin.
Qed.

End Signup.

(** ** Feedback keys and prefix scans *)

Lemma free_of_cons (c a : ascii) (s : string) :
  free_of c (String a s) = true <-> a <> c /\ free_of c s = true.
Proof.
  simpl. rewrite andb_true_iff, negb_true_iff.
  destruct (Ascii.eqb_spec a c); split; intros []; try done; auto.
Qed.

Lemma prefix_cons (a b : ascii) (s t : string) :
  String.prefix (String a s) (String b t)
  = if ascii_dec a b then String.prefix s t else false.
Proof. reflexivity. Qed.

(** With no delimiter inside the segments, the prefix of one driver selects
    the keys of that driver only. *)
Lemma prefix_delimited (d1 d2 rest : string) :
  free_of ":" d1 = true -> free_of ":" d2 = true ->
  String.prefix (d1 +:+ ":") (d2 +:+ ":" +:+ rest) = true -> d1 = d2.
Proof.
  revert d2. induction d1 as [|a d1 IH]; intros [|b d2] H1 H2 Hp.
  - done.
  - apply free_of_cons in H2 as [Hb _].
    rewrite string_app_nil_l, string_app_cons, prefix_cons in Hp.
    destruct (ascii_dec ":" b); [by subst | done].
  - apply free_of_cons in H1 as [Ha _].
    rewrite string_app_nil_l, !string_app_cons, prefix_cons in Hp.
    destruct (ascii_dec a ":"); [by subst | done].
  - apply free_of_cons in H1 as [_ H1]. apply free_of_cons in H2 as [_ H2].
    rewrite !string_app_cons, prefix_cons in Hp.
    destruct (ascii_dec a b) as [->|]; [|done].
    f_equal. by apply IH.
Qed.

Lemma feedback_prefix_delimited (d1 d2 rest : string) :
  free_of ":" d1 = true -> free_of ":" d2 = true ->
  String.prefix ("feedback:" +:+ d1 +:+ ":") ("feedback:" +:+ d2 +:+ ":" +:+ rest) = true
  <-> d1 = d2.
Proof.
  intros H1 H2. split.
  - intros Hp. apply startsWith_spec in Hp as [tail Hp].
    rewrite !string_app_assoc in Hp. apply (inj (String.app "feedback:")) in Hp.
    apply (prefix_delimited d1 d2 rest H1 H2).
    apply (startsWith_spec (d2 +:+ ":" +:+ rest)). exists tail.
    by rewrite !string_app_assoc.
  - intros ->. apply (startsWith_spec _ ("feedback:" +:+ d2 +:+ ":")).
    exists rest. by rewrite !string_app_assoc.
Qed.

Lemma feedback_prefix_weaken (d k : string) :
  String.prefix ("feedback:" +:+ d +:+ ":") k = true ->
  String.prefix "feedback:" k = true.
Proof.
  intros [rest ->]%startsWith_spec.
  apply (startsWith_spec _ "feedback:"). exists (d +:+ ":" +:+ rest).
  by rewrite !string_app_assoc.
Qed.

(** The decimal numeral of a time value holds no delimiter. *)
Lemma pretty_N_go_free (x : N) (s : string) :
  free_of ":" s = true -> free_of ":" (pretty_N_go x s) = true.
Proof.
  revert s. induction (N.lt_wf_0 x) as [x _ IH]; intros s Hs.
  assert (x = 0 \/ 0 < x)%N as [->|Hpos] by lia.
  - by rewrite pretty_N_go_0.
  - rewrite pretty_N_go_step by done. apply IH.
    { by apply N.div_lt. }
    apply free_of_cons. split; [|done].
    unfold pretty_N_char. by repeat case_match.
Qed.

Lemma pretty_Z_free (z : Z) : free_of ":" (pretty z) = true.
Proof.
  assert (forall p : positive, free_of ":" (pretty p) = true) as Hpos.
  { intros p. unfold pretty, pretty_positive, pretty, pretty_N.
    case_decide; [done|]. by apply pretty_N_go_free. }
  destruct z as [|p|p]; [done|apply Hpos|].
  unfold pretty, pretty_Z. rewrite string_app_cons, string_app_nil_l.
  apply free_of_cons. split; [done|apply Hpos].
Qed.

(** Two strings cut at their first delimiter agree part by part. *)
Lemma split_at_delimiter (a b x y : string) :
  free_of ":" a = true -> free_of ":" b = true ->
  a +:+ ":" +:+ x = b +:+ ":" +:+ y -> a = b /\ x = y.
Proof.
  revert b. induction a as [|c a IH]; intros [|c' b] Ha Hb Heq;
    rewrite ?string_app_cons, ?string_app_nil_l in Heq.
  - by injection Heq.
  - apply free_of_cons in Hb as [Hc _]. injection Heq as <- _. done.
  - apply free_of_cons in Ha as [Hc _]. injection Heq as -> _. done.
  - apply free_of_cons in Ha as [_ Ha]. apply free_of_cons in Hb as [_ Hb].
    injection Heq as -> Heq. destruct (IH b Ha Hb Heq) as [-> ->]. done.
Qed.

(** X2. The key of a feedback record determines the driver, the millisecond and
    the author it was built from, when the driver id holds no delimiter: two
    submissions share a key only if they agree on all three. *)
Theorem feedbackId_inj (env1 env2 : Env) (u1 u2 : AuthUser) (d1 d2 : string) :
  free_of ":" d1 = true -> free_of ":" d2 = true ->
  feedbackId env1 u1 d1 = feedbackId env2 u2 d2 ->
  d1 = d2 /\ Date_now env1 = Date_now env2 /\ userId u1 = userId u2.
Proof.
  intros H1 H2 Heq. unfold feedbackId in Heq.
  apply (inj (String.app "feedback:")) in Heq.
  apply split_at_delimiter in Heq as [-> Heq]; [|done..].
  apply split_at_delimiter in Heq as [Hnow ->]; [|apply pretty_Z_free..].
  by apply (inj pretty) in Hnow.
Qed.

Section Scan.
Context `{Runtime}.
Implicit Types w : world (gmap string jsval).

Ltac no_write Hhead :=
  match goal with
  | |- context [trace ?w] =>
      destruct (trace w) as [|[] ?] eqn:?; try done;
      match goal with
      | _ : trace _ = KvSet ?k ?v :: _ |- _ => by destruct (Hhead k v)
      end
  end.

(** What POST /feedback does to the store is what [submitted] reads off. *)
Lemma post_feedback_store (env : Env) (req : Request) w :
  store (post_feedback env req w).2
  = match submitted env req with
    | Some (k, v) => <[k := v]> (store w)
    | None => store w
    end.
Proof.
  unfold submitted.
  set (w0 := {| store := (∅ : gmap string jsval); trace := [] |}).
  pose proof (verifyAuth_result env (header_Authorization req) w w0) as Hres.
  pose proof (verifyAuth_world env (header_Authorization req) w0) as Htr.
  unfold post_feedback, try_catch, bind, lift, ret.
  destruct (verifyAuth env (header_Authorization req) w) as [o w1] eqn:Hv.
  pose proof (authenticated_store _ _ _ _ _ Hv) as Hst.
  destruct (verifyAuth env (header_Authorization req) w0) as [o' w1'] eqn:Hv'.
  simpl in Hres, Htr. subst o'.
  assert (forall k v, head (trace w1') <> Some (KvSet k v)) as Hhead.
  { intros k v. by destruct Htr as [->|[token ->]]. }
  destruct o as [[u|]|e]; simpl; [|no_write Hhead..].
  destruct (req_json req) as [json|e]; simpl; [|no_write Hhead].
  destruct (destructure json) as [f|e]; simpl; [|no_write Hhead].
  destruct (js_not (f "driver_id") || js_not (f "rating")); simpl;
    [no_write Hhead|].
  destruct (js_lt (f "rating") (num_of_Z 1)) as [[]|e]; simpl;
    [no_write Hhead| |no_write Hhead].
  destruct (js_gt (f "rating") (num_of_Z 5)) as [[]|e]; simpl;
    [no_write Hhead| |no_write Hhead].
  destruct (ToString (f "driver_id")) as [d|e]; simpl; [|no_write Hhead].
  unfold spec_set. by rewrite Hst.
Qed.

(** A submitted record is filed under the key of its own driver. *)
Lemma submitted_key (env : Env) (req : Request) (k : string) (v : jsval) :
  submitted env req = Some (k, v) ->
  exists d rest,
    driver_of v = Some d /\ k = "feedback:" +:+ d +:+ ":" +:+ rest.
Proof.
  unfold submitted.
  set (w0 := {| store := (∅ : gmap string jsval); trace := [] |}).
  pose proof (verifyAuth_world env (header_Authorization req) w0) as Htr.
  unfold post_feedback, try_catch, bind, lift, ret.
  destruct (verifyAuth env (header_Authorization req) w0) as [o w1'] eqn:Hv'.
  simpl in Htr.
  assert (forall k v, head (trace w1') <> Some (KvSet k v)) as Hhead.
  { intros k' v'. by destruct Htr as [->|[token ->]]. }
  assert (match trace w1' with
          | KvSet k0 v0 :: _ => Some (k0, v0)
          | _ => None
          end = Some (k, v) -> False) as Hnone.
  { destruct (trace w1') as [|[] ?] eqn:E; try done.
    by destruct (Hhead key value). }
  destruct o as [[u|]|e]; simpl; [|done..].
  destruct (req_json req) as [json|e]; simpl; [|done].
  destruct (destructure json) as [f|e]; simpl; [|done].
  destruct (js_not (f "driver_id") || js_not (f "rating")); simpl; [done|].
  destruct (js_lt (f "rating") (num_of_Z 1)) as [[]|e]; simpl; [done| |done].
  destruct (js_gt (f "rating") (num_of_Z 5)) as [[]|e]; simpl; [done| |done].
  destruct (ToString (f "driver_id")) as [d|e] eqn:Hd; simpl; [|done].
  intros [= <- <-].
  exists d, (pretty (Date_now env) +:+ ":" +:+ userId u). split; [|done].
  unfold driver_of, feedback_record. simpl. by rewrite Hd.
Qed.

Lemma feedback_writes_snoc (reqs : list (route * Env * Request))
    (x : route * Env * Request) :
  feedback_writes (reqs ++ [x])
  = feedback_writes reqs ++
    match x.1.1 with
    | POST_feedback => option_list (submitted x.1.2 x.2)
    | _ => []
    end.
Proof.
  unfold feedback_writes. rewrite omap_app. f_equal. simpl.
  destruct x.1.1; done.
Qed.

(** A request to another route than POST /feedback writes no feedback key. *)
Lemma other_routes_spare_feedback (r : route) (env : Env) (req : Request) (k : string) :
  r <> POST_feedback -> may_write env req r k -> String.prefix "feedback:" k = false.
Proof. intros Hr Hw. destruct Hw; done. Qed.

(** One step of the server, seen from the feedback keys: either the
    request is a feedback submission that writes its record, or the store
    changes at no feedback key. *)
Lemma serve_feedback_step (x : route * Env * Request) w :
  let m' := store (serve x.1.1 x.1.2 x.2 w).2 in
  (exists k v, x.1.1 = POST_feedback /\ submitted x.1.2 x.2 = Some (k, v) /\
               m' = <[k := v]> (store w)) \/
  ((x.1.1 = POST_feedback -> submitted x.1.2 x.2 = None) /\
   (m' = store w \/
    exists k v, String.prefix "feedback:" k = false /\ m' = <[k := v]> (store w))).
Proof.
  destruct x as [[r env] req]. simpl.
  destruct (decide (r = POST_feedback)) as [->|Hr].
  - simpl. rewrite post_feedback_store.
    destruct (submitted env req) as [[k v]|]; [left; eauto|right; eauto].
  - right. split; [done|].
    destruct (serve_store r env req w) as [->|(k & v & Hw & ->)]; [by left|].
    right. exists k, v. eauto using other_routes_spare_feedback.
Qed.

Lemma scan_insert_other (p k : string) (v : jsval) (m : gmap string jsval) :
  String.prefix p k = false -> spec_scan p (<[k := v]> m) = spec_scan p m.
Proof.
  intros Hp. unfold spec_scan. rewrite map_filter_insert_not; [done|].
  intros y. simpl. by rewrite Hp.
Qed.

Lemma scan_insert_fresh (p k : string) (v : jsval) (m : gmap string jsval) :
  String.prefix p k = true -> m !! k = None ->
  spec_scan p (<[k := v]> m) ≡ₚ v :: spec_scan p m.
Proof.
  intros Hp Hk. unfold spec_scan. rewrite map_filter_insert_True by done.
  rewrite map_to_list_insert; [done|].
  apply map_lookup_filter_None. by left.
Qed.

Lemma scan_none (p : string) (m : gmap string jsval) :
  (forall k, String.prefix p k = true -> m !! k = None) -> spec_scan p m = [].
Proof.
  intros Hno. unfold spec_scan.
  assert (filter (fun kv : string * jsval => String.prefix p kv.1 = true) m = ∅) as ->.
  { apply map_empty_filter. intros k v Hk Hp. simpl in Hp.
    rewrite (Hno k Hp) in Hk. done. }
  by rewrite map_to_list_empty.
Qed.
(** The feedback part of the store after a sequence of requests. *)
Lemma scan_invariant (reqs : list (route * Env * Request)) w0 (d1 : string) :
  (forall k, String.prefix "feedback:" k = true -> store w0 !! k = None) ->
  free_of ":" d1 = true ->
  (forall kv d, kv ∈ feedback_writes reqs -> driver_of kv.2 = Some d ->
                free_of ":" d = true) ->
  NoDup (feedback_writes reqs).*1 ->
  (forall k, String.prefix "feedback:" k = true ->
             is_Some (store (serve_all reqs w0) !! k) ->
             k ∈ (feedback_writes reqs).*1) /\
  spec_scan ("feedback:" +:+ d1 +:+ ":") (store (serve_all reqs w0))
  ≡ₚ (filter (fun kv => driver_of kv.2 = Some d1) (feedback_writes reqs)).*2.
Proof.
  intros Hinit Hd1.
  induction reqs as [|x reqs IH] using rev_ind; intros Hfree Hnodup.
  - simpl. split.
    + intros k Hp [v Hv]. by rewrite Hinit in Hv.
    + rewrite scan_none; [done|]. intros k Hp. apply Hinit.
      by apply feedback_prefix_weaken in Hp.
  - rewrite feedback_writes_snoc in Hfree, Hnodup |- *. rewrite serve_all_snoc.
    rewrite fmap_app in Hnodup. apply NoDup_app in Hnodup as (Hnd1 & Hdisj & Hnd2).
    destruct IH as [IHkeys IHscan]; [|done|].
    { intros kv d Hkv. apply Hfree. apply elem_of_app. by left. }
    destruct (serve_feedback_step x (serve_all reqs w0))
      as [(k & v & Hr & Hsub & ->)|[Hnone Hstore]].
    + rewrite Hr, Hsub in *. simpl in *.
      destruct (submitted_key _ _ _ _ Hsub) as (d & rest & Hdv & Hk).
      assert (String.prefix "feedback:" k = true) as Hfk.
      { rewrite Hk. apply prefix_app. }
      assert (store (serve_all reqs w0) !! k = None) as Hfresh.
      { destruct (store (serve_all reqs w0) !! k) eqn:E; [|done].
        destruct (Hdisj k); [apply IHkeys; eauto | by left]. }
      split.
      * intros k' Hp Hsome. rewrite fmap_app. apply elem_of_app.
        destruct (decide (k' = k)) as [->|Hne]; [right; by left|].
        left. rewrite lookup_insert_ne in Hsome by done. by apply IHkeys.
      * rewrite filter_app, fmap_app.
        assert (free_of ":" d = true) as Hfd.
        { apply (Hfree (k, v)); [|done]. apply elem_of_app. right. by left. }
        destruct (decide (d = d1)) as [Hd|Hd].
        -- rewrite scan_insert_fresh;
             [|by rewrite Hk, Hd; apply feedback_prefix_delimited|done].
           rewrite filter_cons_True by (simpl; congruence).
           rewrite filter_nil. simpl.
           rewrite IHscan. apply Permutation_cons_append.
        -- rewrite scan_insert_other.
           ++ rewrite filter_cons_False by (simpl; congruence).
              rewrite filter_nil. simpl. by rewrite app_nil_r.
           ++ apply not_true_is_false. rewrite Hk.
              rewrite feedback_prefix_delimited by done. congruence.
    + assert (feedback_writes reqs ++
              match x.1.1 with
              | POST_feedback => option_list (submitted x.1.2 x.2)
              | _ => []
              end = feedback_writes reqs) as ->.
      { destruct (x.1.1); rewrite ?Hnone by done; apply app_nil_r. }
      destruct Hstore as [->|(k & v & Hk & ->)]; [done|].
      split.
      * intros k' Hp Hsome. apply IHkeys; [done|].
        rewrite lookup_insert_ne in Hsome; [done|]. intros ->. congruence.
      * rewrite scan_insert_other; [done|].
        apply not_true_is_false. intros Hp%feedback_prefix_weaken. congruence.
Qed.

(** C2, as the code has it. After any sequence of requests, in any order,
    starting from a store without feedback records: if the requested driver
    id and the driver ids of the submitted feedback records hold no [":"],
    and no two submissions were filed under the same key, then GET
    /drivers/:driverId/feedback answers 200 with exactly the records
    submitted for that driver: every one of them, once, and no record of
    another driver. *)
Theorem scan_returns_driver_records (reqs : list (route * Env * Request)) w0
    (env : Env) (req : Request) :
  (forall k, String.prefix "feedback:" k = true -> store w0 !! k = None) ->
  free_of ":" (param_driverId req) = true ->
  (forall kv d, kv ∈ feedback_writes reqs -> driver_of kv.2 = Some d ->
                free_of ":" d = true) ->
  NoDup (feedback_writes reqs).*1 ->
  lists_exactly reqs w0 env req.
Proof.
  intros Hinit Hd Hfree Hnodup. unfold lists_exactly.
  rewrite get_driver_feedback_scan. eexists. split; [reflexivity|].
  by apply scan_invariant.
Qed.
End Scan.

(** * Further properties *)

(** ** What a request does to the store *)

Section Frame.
Context {S : Type} `{KVStore S} `{Runtime}.

(** The handler ran no [set]: the store is the one [verifyAuth] left, and
    the only calls recorded are reads and calls to the provider. *)
Ltac no_set_run Hst Hns :=
  left; split; [done|];
  let ev := fresh "ev" in
  let Hin := fresh "Hin" in
  intros ev Hin ?;
  repeat (apply elem_of_cons in Hin as [->|Hin]; [done|]); solve [eauto].

(** The handler's [set] threw, and the [catch] clause answered. *)
Ltac set_threw Hst :=
  right; do 3 eexists; rewrite <- Hst;
  split; [eassumption|]; split; reflexivity.

Ltac rejected Hst Hns :=
  intros ?;
  repeat (case_match; simplify_eq/=; try done);
  first [no_set_run Hst Hns | set_threw Hst].

(** X4. A request that is not answered 200 has completed no write.
    Whatever the route and the store behind it, either the handler ran no
    [kv.set], so that the store is the one the request found and the trace
    holds no new [set]; or the answer is the 500 of the [catch] clause,
    with the message of the exception that the one [kv.set] the handler ran
    has thrown, and that [set] is the last call recorded: the handler did
    nothing after it. A 400 or a 401 is always of the first kind. What a
    [set] that throws leaves in the store is not the handler's doing, and
    is not stated. *)
Theorem rejected_without_completed_set (r : route) (env : Env) (req : Request)
    (w : world S) :
  status (serve r env req w).1 <> 200 ->
  (store (serve r env req w).2 = store w /\
   forall e, e ∈ trace (serve r env req w).2 -> is_set e = true -> e ∈ trace w) \/
  (exists k v t,
      kv_set k v (store w) = Throws t /\
      (serve r env req w).1 = internal_error t /\
      trace (serve r env req w).2
      = KvSet k v :: trace (verifyAuth env (header_Authorization req) w).2).
Proof.
  pose proof (verifyAuth_store env (header_Authorization req) w) as Hst.
  pose proof (verifyAuth_no_set env (header_Authorization req) w) as Hns.
  destruct (verifyAuth env (header_Authorization req) w) as [o w1] eqn:Hv.
  simpl in Hst, Hns.
  destruct r; simpl.
  - unfold post_auth_signup, try_catch, bind, lift, call, ret, log.
    rejected Hst Hns.
  - unfold post_user_university, try_catch, bind, lift, ret, set, log.
    rewrite Hv. rejected Hst Hns.
  - unfold post_user_location, try_catch, bind, lift, ret, set, log.
    rewrite Hv. rejected Hst Hns.
  - unfold get_user_profile, try_catch, bind, lift, call, ret, get, log.
    rewrite Hv. rejected Hst Hns.
  - unfold post_user_pickup_route, try_catch, bind, lift, ret, set, log.
    rewrite Hv. rejected Hst Hns.
  - unfold get_user_pickup_route, try_catch, bind, lift, call, ret, get, log.
    rewrite Hv. rejected Hst Hns.
  - unfold post_feedback, try_catch, bind, lift, ret, set, log.
    rewrite Hv. rejected Hst Hns.
  - unfold get_driver_feedback, try_catch, bind, ret, getByPrefix, log.
    rejected Hst Hns.
  - done.
  - done.
Qed.
End Frame.

(** ** What an answer tells *)

Section Answers.
Context {S : Type} `{KVStore S} `{Runtime}.

Ltac auth_split env req w :=
  let Hv := fresh "Hv" in
  destruct (verifyAuth env (header_Authorization req) w) as [[[?u|]|?e] ?w1] eqn:Hv;
  simpl.

Ltac among :=
  repeat first [apply list_elem_of_here | apply list_elem_of_further].

(** X10. A save reports success only once the store has taken the record:
    when one of the four saving routes answers 200, the store's [set]
    returned, the store is the one it returned, and the write is the last
    call recorded, right after those of [verifyAuth]. If [set] throws, the
    answer is not 200. *)
Theorem saved_means_written (r : route) (env : Env) (req : Request) (w : world S) :
  r ∈ [POST_user_university; POST_user_location; POST_user_pickup_route;
       POST_feedback] ->
  status (serve r env req w).1 = 200 ->
  exists k v s',
    kv_set k v (store w) = Returns s' /\
    (serve r env req w).2
    = {| store := s';
         trace := KvSet k v
                  :: trace (verifyAuth env (header_Authorization req) w).2 |}.
Proof.
  intros Hr.
  pose proof (verifyAuth_store env (header_Authorization req) w) as Hst.
  repeat (apply elem_of_cons in Hr as [->|Hr]); [..|by apply elem_of_nil in Hr];
    simpl.
  - unfold post_user_university, try_catch, bind, lift, ret, set.
    auth_split env req w; try done; simpl in Hst;
      repeat (case_match; simplify_eq/=; try done).
    intros _. do 3 eexists. rewrite <- Hst. eauto.
  - unfold post_user_location, try_catch, bind, lift, ret, set.
    auth_split env req w; try done; simpl in Hst;
      repeat (case_match; simplify_eq/=; try done).
    intros _. do 3 eexists. rewrite <- Hst. eauto.
  - unfold post_user_pickup_route, try_catch, bind, lift, ret, set.
    auth_split env req w; try done; simpl in Hst;
      repeat (case_match; simplify_eq/=; try done).
    intros _. do 3 eexists. rewrite <- Hst. eauto.
  - unfold post_feedback, try_catch, bind, lift, ret, set.
    auth_split env req w; try done; simpl in Hst;
      repeat (case_match; simplify_eq/=; try done).
    all: intros _; do 3 eexists; rewrite <- Hst; eauto.
Qed.

(** X11. The routes that only read never write: signup, the profile, the
    pickup-route and feedback listings, the universities and the health
    check leave the store as it was, whatever they answer, and record no
    [set]. *)
Theorem reading_routes_keep_store (r : route) (env : Env) (req : Request)
    (w : world S) :
  r ∈ [POST_auth_signup; GET_user_profile; GET_user_pickup_route;
       GET_driver_feedback; GET_universities; GET_health] ->
  store (serve r env req w).2 = store w /\
  (forall e, e ∈ trace (serve r env req w).2 -> is_set e = true -> e ∈ trace w).
Proof.
  intros Hr.
  pose proof (verifyAuth_store env (header_Authorization req) w) as Hst.
  pose proof (verifyAuth_no_set env (header_Authorization req) w) as Hns.
  repeat (apply elem_of_cons in Hr as [->|Hr]); [..|by apply elem_of_nil in Hr];
    simpl.
  - unfold post_auth_signup, try_catch, bind, lift, call, ret, log.
    repeat (case_match; simplify_eq/=; try done);
      (split; [done|]); intros ev Hin Hset;
      repeat (apply elem_of_cons in Hin as [->|Hin]; [done|]); done.
  - unfold get_user_profile, try_catch, bind, lift, call, ret, get, log.
    auth_split env req w; simpl in Hst, Hns;
      repeat (case_match; simplify_eq/=; try done);
      (split; [done|]); intros ev Hin Hset;
      repeat (apply elem_of_cons in Hin as [->|Hin]; [done|]); eauto.
  - unfold get_user_pickup_route, try_catch, bind, lift, call, ret, get, log.
    auth_split env req w; simpl in Hst, Hns;
      repeat (case_match; simplify_eq/=; try done);
      (split; [done|]); intros ev Hin Hset;
      repeat (apply elem_of_cons in Hin as [->|Hin]; [done|]); eauto.
  - unfold get_driver_feedback, try_catch, bind, ret, getByPrefix, log.
    repeat (case_match; simplify_eq/=; try done);
      (split; [done|]); intros ev Hin Hset;
      repeat (apply elem_of_cons in Hin as [->|Hin]; [done|]); done.
  - done.
  - done.
Qed.

(** X12. A body that cannot be read is a server error, not a client error:
    when [c.req.json()] throws, or yields [null] so that reading its fields
    throws, signup and, for an authenticated caller, each saving route
    answer 500 with the exception's message (["Internal server error"] if it
    is empty), and do nothing after [verifyAuth]. *)
Theorem unreadable_body_is_500 (r : route) (env : Env) (req : Request)
    (w : world S) (e : jsval) :
  r ∈ [POST_auth_signup; POST_user_university; POST_user_location;
       POST_user_pickup_route; POST_feedback] ->
  req_json req = Throws e \/
  (req_json req = Returns JNull /\ e = JStr (TypeError_message JNull)) ->
  (r <> POST_auth_signup ->
   exists u, (verifyAuth env (header_Authorization req) w).1 = Returns (Some u)) ->
  (serve r env req w).1 = json_error (js_or e (JStr "Internal server error")) 500 /\
  (serve r env req w).2
  = if decide (r = POST_auth_signup) then w
    else (verifyAuth env (header_Authorization req) w).2.
Proof.
  intros Hr Hbody Hauth.
  assert (forall A (k : (string -> jsval) -> M S A) (w' : world S),
             (let* json := lift (req_json req) in
              let* f := lift (destructure json) in k f) w'
             = (Throws e, w')) as Hthrow.
  { intros A k w'. unfold bind, lift.
    by destruct Hbody as [->|[-> ->]]. }
  repeat (apply elem_of_cons in Hr as [->|Hr]); [..|by apply elem_of_nil in Hr];
    simpl; try (destruct Hauth as [u Hu]; [done|]);
    try (destruct (verifyAuth env (header_Authorization req) w) as [o w1] eqn:Hv;
         simpl in Hu; subst o).
  - unfold post_auth_signup, try_catch. by rewrite Hthrow.
  - assert (post_user_university env req w = (internal_error e, w1)) as ->; [|done].
    unfold post_user_university, try_catch, bind at 1. rewrite Hv.
    cbv beta iota. by rewrite Hthrow.
  - assert (post_user_location env req w = (internal_error e, w1)) as ->; [|done].
    unfold post_user_location, try_catch, bind at 1. rewrite Hv.
    cbv beta iota. by rewrite Hthrow.
  - assert (post_user_pickup_route env req w = (internal_error e, w1)) as ->; [|done].
    unfold post_user_pickup_route, try_catch, bind at 1. rewrite Hv.
    cbv beta iota. by rewrite Hthrow.
  - assert (post_feedback env req w = (internal_error e, w1)) as ->; [|done].
    unfold post_feedback, try_catch, bind at 1. rewrite Hv.
    cbv beta iota. by rewrite Hthrow.
Qed.

(** X13. What a 200 from signup means: the body was an object whose email,
    password, name and role are all truthy, a string password has at least
    6 characters, no user the provider listed has exactly that email, and
    [createUser] was called once, after [listUsers], with that email and
    password and [email_confirm: true], and returned a user without error,
    whose id the answer carries. The store is not touched. *)
Theorem signup_success_means_created (env : Env) (req : Request) (w : world S) :
  status (post_auth_signup env req w).1 = 200 ->
  exists fs l r u,
    req_json req = Returns (JObj fs) /\
    truthy (assoc "email" fs) = true /\ truthy (assoc "password" fs) = true /\
    truthy (assoc "name" fs) = true /\ truthy (assoc "role" fs) = true /\
    (forall s, assoc "password" fs = JStr s -> (6 <= String.length s)%nat) /\
    admin_listUsers (supabase env) = Returns l /\
    (forall users u', data_users l = Some users -> u' ∈ users ->
                      strict_eq_email (user_email u') (assoc "email" fs) = false) /\
    let attrs :=
      {| attr_email := assoc "email" fs;
         attr_password := assoc "password" fs;
         attr_email_confirm := true;
         attr_user_metadata :=
           JObj [("name", assoc "name" fs);
                 ("role", assoc "role" fs);
                 ("roll_number", js_or (assoc "roll_number" fs) JNull);
                 ("phone_number", js_or (assoc "phone_number" fs) JNull);
                 ("emergency_phone", js_or (assoc "emergency_phone" fs) JNull)] |} in
    admin_createUser (supabase env) attrs = Returns r /\
    error r = None /\ data_user r = Some u /\
    (post_auth_signup env req w).2
    = {| store := store w; trace := CreateUser attrs :: ListUsers :: trace w |} /\
    opt_get (opt_get (body (post_auth_signup env req w).1) "user") "id"
    = JStr (user_id u).
Proof.
  unfold post_auth_signup, try_catch, bind, lift, call, ret.
  destruct (req_json req) as [json|e]; [|done]. simpl.
  destruct json as [| | | | |?|fs]; simpl; try done.
  unfold js_not.
  destruct (truthy (assoc "email" fs)) eqn:He; [|done].
  destruct (truthy (assoc "password" fs)) eqn:Hp; [|done].
  destruct (truthy (assoc "name" fs)) eqn:Hn; [|done].
  destruct (truthy (assoc "role" fs)) eqn:Hro; [|done]. simpl.
  destruct (get_length (assoc "password" fs)) as [len|e] eqn:Hlen; [|done]. simpl.
  destruct (js_lt len (num_of_Z 6)) as [[]|e] eqn:Hlt; [done| |done]. simpl.
  destruct (admin_listUsers (supabase env)) as [l|e] eqn:Hl; [|done]. simpl.
  destruct (match data_users l with
            | Some users =>
                existsb (fun u => strict_eq_email (user_email u) (assoc "email" fs)) users
            | None => false
            end) eqn:Hdup; [done|].
  destruct (admin_createUser _ _) as [r|e] eqn:Hc; [|done]. simpl.
  destruct (error r) eqn:Herr; [done|].
  destruct (data_user r) as [u|] eqn:Hu; [|done]. simpl.
  destruct (ToString (assoc "email" fs)) as [?|?]; [|done]. simpl.
  destruct (ToString (assoc "role" fs)) as [?|?]; [|done]. simpl. intros _.
  exists fs, l, r, u. repeat (split; [done|]).
  split; [|split; [done|]]; [|split; [|done]].
  - intros s Hs. rewrite Hs in Hlen. simpl in Hlen. injection Hlen as <-.
    unfold js_lt in Hlt. simpl in Hlt. injection Hlt as Hlt.
    unfold num_of_nat, num_of_Z in Hlt. rewrite Qltb_inject_Z in Hlt.
    apply Z.ltb_ge in Hlt. lia.
  - intros users u' Hus Hin. rewrite Hus in Hdup.
    destruct (strict_eq_email (user_email u') (assoc "email" fs)) eqn:E; [|done].
    assert (existsb (fun u => strict_eq_email (user_email u) (assoc "email" fs)) users
            = true) as Hex; [|congruence].
    apply existsb_exists. exists u'. split; [|done].
    by apply list_elem_of_In.
Qed.

(** X14. The length check looks at strings only: a password given as a
    non-zero number has no [length], the comparison with 6 is false, and a
    signup with email, name and role present goes on to ask the provider
    for the list of users. *)
Theorem numeric_password_unchecked (env : Env) (req : Request) (w : world S)
    (fs : list (string * jsval)) (n : number) :
  req_json req = Returns (JObj fs) ->
  assoc "password" fs = JNum n ->
  truthy (JNum n) = true ->
  truthy (assoc "email" fs) = true ->
  truthy (assoc "name" fs) = true ->
  truthy (assoc "role" fs) = true ->
  exists evs, trace (post_auth_signup env req w).2 = evs ++ ListUsers :: trace w.
Proof.
  intros Hjson Hpw Hn He Hna Hro.
  unfold post_auth_signup, try_catch, bind, lift, call, ret, log.
  rewrite Hjson. simpl. unfold js_not. rewrite Hpw, He, Hn, Hna, Hro. simpl.
  unfold js_lt. simpl.
  destruct (admin_listUsers (supabase env)) as [l|e]; simpl; [|by exists []].
  destruct (match data_users l with
            | Some users =>
                existsb (fun u => strict_eq_email (user_email u) (assoc "email" fs)) users
            | None => false
            end); simpl; [by exists []|].
  destruct (admin_createUser _ _) as [r|e]; simpl; [|by eexists [_]].
  destruct (error r), (data_user r); simpl; try by eexists [_].
  destruct (ToString (assoc "email" fs)); simpl; [|by eexists [_]].
  destruct (ToString (assoc "role" fs)); simpl; by eexists [_].
Qed.

(** X15. The statuses of the API, route by route: signup answers 200, 400
    or 500; a saving route 200, 400, 401 or 500; the profile and the
    pickup-route reading 200, 401 or 500; the feedback listing 200 or 500;
    the universities and the health check always 200. *)
Theorem status_codes (r : route) (env : Env) (req : Request) (w : world S) :
  status (serve r env req w).1 ∈
    match r with
    | POST_auth_signup => [200; 400; 500]
    | POST_user_university | POST_user_location | POST_user_pickup_route
    | POST_feedback => [200; 400; 401; 500]
    | GET_user_profile | GET_user_pickup_route => [200; 401; 500]
    | GET_driver_feedback => [200; 500]
    | GET_universities | GET_health => [200]
    end.
Proof.
  destruct r; simpl.
  - unfold post_auth_signup, try_catch, bind, lift, call, ret.
    repeat (case_match; simplify_eq/=); among.
  - unfold post_user_university, try_catch, bind, lift, ret, set.
    repeat (case_match; simplify_eq/=); among.
  - unfold post_user_location, try_catch, bind, lift, ret, set.
    repeat (case_match; simplify_eq/=); among.
  - unfold get_user_profile, try_catch, bind, lift, call, ret, get.
    repeat (case_match; simplify_eq/=); among.
  - unfold post_user_pickup_route, try_catch, bind, lift, ret, set.
    repeat (case_match; simplify_eq/=); among.
  - unfold get_user_pickup_route, try_catch, bind, lift, call, ret, get.
    repeat (case_match; simplify_eq/=); among.
  - unfold post_feedback, try_catch, bind, lift, ret, set.
    repeat (case_match; simplify_eq/=); among.
  - unfold get_driver_feedback, try_catch, bind, ret, getByPrefix.
    repeat (case_match; simplify_eq/=); among.
  - among.
  - among.
Qed.
End Answers.

(** ** The records of a user *)

Section Records.
Context `{Runtime}.
Implicit Types w : world (gmap string jsval).

(** A key of a user is written only by the route of its kind, called under
    that user's identity. *)
Lemma user_key_writer (env : Env) (req : Request) (r : route)
    (uid : string) (kind : record_kind) :
  may_write env req r (user_key uid kind) ->
  r = kind_route kind /\ exists u, caller env req = Some u /\ userId u = uid.
Proof.
  intros Hw. remember (user_key uid kind) as k eqn:Hk. unfold user_key in Hk.
  destruct Hw as [u Hc|u Hc|u Hc|u d Hc]; destruct kind; simpl in Hk;
    try (apply user_key_inj in Hk; by eauto);
    try (unfold feedbackId in Hk; str_simpl_in Hk; discriminate Hk);
    exfalso; apply (inj (String.app "user:")) in Hk.
  - by apply (string_app_last_ne _ _ ":universit" ":locatio" "y" "n") in Hk.
  - by apply (string_app_last_ne _ _ ":universit" ":pickup-rout" "y" "e") in Hk.
  - by apply (string_app_last_ne _ _ ":locatio" ":universit" "n" "y") in Hk.
  - by apply (string_app_last_ne _ _ ":locatio" ":pickup-rout" "n" "e") in Hk.
  - by apply (string_app_last_ne _ _ ":pickup-rout" ":universit" "e" "y") in Hk.
  - by apply (string_app_last_ne _ _ ":pickup-rout" ":locatio" "e" "n") in Hk.
Qed.

(** Over the record store, a request is answered 200 or leaves the store
    as it was. *)
Lemma answered_or_unchanged (r : route) (env : Env) (req : Request) w :
  status (serve r env req w).1 = 200 \/ store (serve r env req w).2 = store w.
Proof.
  destruct (decide (status (serve r env req w).1 = 200)) as [|Hrej]; [by left|].
  right. revert Hrej.
  destruct (verifyAuth env (header_Authorization req) w) as [o w1] eqn:Hv.
  pose proof (authenticated_store _ _ _ _ _ Hv) as Hst.
  destruct r; simpl;
    unfold post_auth_signup, post_user_university, post_user_location,
      get_user_profile, post_user_pickup_route, get_user_pickup_route,
      post_feedback, get_driver_feedback, get_universities, get_health,
      try_catch, bind, lift, call, ret, get, set, getByPrefix;
    rewrite ?Hv; simpl; try done;
    repeat (case_match; simplify_eq/=; try done).
Qed.

(** One request and one record of one user: the record is as it was,
    unless the request is a save of that kind, under that user's identity,
    answered 200. *)
Lemma serve_user_key (r : route) (env : Env) (req : Request) w
    (uid : string) (kind : record_kind) :
  store (serve r env req w).2 !! user_key uid kind = store w !! user_key uid kind \/
  (r = kind_route kind /\ status (serve r env req w).1 = 200 /\
   exists u, caller env req = Some u /\ userId u = uid).
Proof.
  destruct (answered_or_unchanged r env req w) as [Hok| ->]; [|by left].
  destruct (serve_store r env req w) as [->|(k & v & Hw & ->)]; [by left|].
  destruct (decide (k = user_key uid kind)) as [->|Hne];
    [|left; by rewrite lookup_insert_ne].
  right. apply user_key_writer in Hw as [-> Hu]. done.
Qed.

Lemma serve_all_keeps (reqs : list (route * Env * Request)) w (k : string) :
  (forall x w', x ∈ reqs ->
                store (serve x.1.1 x.1.2 x.2 w').2 !! k = store w' !! k) ->
  store (serve_all reqs w) !! k = store w !! k.
Proof.
  revert w. induction reqs as [|x reqs IH]; intros w Hkeep; [done|].
  rewrite serve_all_cons, IH.
  - apply Hkeep. by left.
  - intros y w' Hy. apply Hkeep. by right.
Qed.

(** X5. The records of a user are out of reach of everyone else: after any
    sequence of requests none of which is made under that user's identity,
    the user's university, location and pickup route are what they were. *)
Theorem records_of_others_untouched (reqs : list (route * Env * Request)) w
    (uid : string) (kind : record_kind) :
  (forall x u, x ∈ reqs -> caller x.1.2 x.2 = Some u -> userId u <> uid) ->
  store (serve_all reqs w) !! user_key uid kind = store w !! user_key uid kind.
Proof.
  intros Hothers. apply serve_all_keeps. intros [[r env] req] w' Hin. simpl.
  destruct (serve_user_key r env req w' uid kind) as [Hsame|(_ & _ & u & Hc & Hid)];
    [done|].
  by destruct (Hothers _ u Hin Hc).
Qed.

(** X6. No request deletes: a key that holds a record holds one after any
    sequence of requests. *)
Theorem stored_records_persist (reqs : list (route * Env * Request)) w (k : string) :
  is_Some (store w !! k) -> is_Some (store (serve_all reqs w) !! k).
Proof.
  revert w. induction reqs as [|x reqs IH]; intros w Hk; [done|].
  rewrite serve_all_cons. apply IH.
  destruct (serve_store x.1.1 x.1.2 x.2 w) as [->|(k' & v & _ & ->)]; [done|].
  rewrite lookup_insert_is_Some. destruct (decide (k' = k)); auto.
Qed.

(** A save answered 200 wrote the record built from the request's fields. *)
Lemma post_user_pickup_route_accepted (env : Env) (req : Request) w w1
    (user : AuthUser) (fs : list (string * jsval)) :
  verifyAuth env (header_Authorization req) w = (Returns (Some user), w1) ->
  req_json req = Returns (JObj fs) ->
  status (post_user_pickup_route env req w).1 = 200 ->
  store (post_user_pickup_route env req w).2
  = <[user_key (userId user) PickupRoute
      := JObj [("bus_id", assoc "bus_id" fs);
               ("pickup_latitude", assoc "pickup_latitude" fs);
               ("pickup_longitude", assoc "pickup_longitude" fs);
               ("created_at", JStr (Date_toISOString env))]]> (store w).
Proof.
  intros Hv Hjson. pose proof (authenticated_store _ _ _ _ _ Hv) as Hst.
  unfold post_user_pickup_route, try_catch, bind, lift, ret.
  rewrite Hv, Hjson. simpl.
  destruct (js_not (assoc "bus_id" fs) || js_not (assoc "pickup_latitude" fs)
            || js_not (assoc "pickup_longitude" fs)); [discriminate|].
  intros _. simpl. unfold spec_set. by rewrite Hst.
Qed.

Lemma post_user_university_accepted (env : Env) (req : Request) w w1
    (user : AuthUser) (fs : list (string * jsval)) :
  verifyAuth env (header_Authorization req) w = (Returns (Some user), w1) ->
  req_json req = Returns (JObj fs) ->
  status (post_user_university env req w).1 = 200 ->
  store (post_user_university env req w).2
  = <[user_key (userId user) University := assoc "university_id" fs]> (store w).
Proof.
  intros Hv Hjson. pose proof (authenticated_store _ _ _ _ _ Hv) as Hst.
  unfold post_user_university, try_catch, bind, lift, ret.
  rewrite Hv, Hjson. simpl.
  destruct (js_not (assoc "university_id" fs)); [discriminate|].
  intros _. simpl. unfold spec_set. by rewrite Hst.
Qed.

(** GET /user/pickup-route for a caller whose key holds a record. *)
Lemma get_pickup_route_present (env : Env) (req : Request) w w1
    (user : AuthUser) (v : jsval) :
  verifyAuth env (header_Authorization req) w = (Returns (Some user), w1) ->
  store w !! user_key (userId user) PickupRoute = Some v ->
  get_user_pickup_route env req w
  = (c_json (JObj [("pickup_route", v)]) 200,
     log (KvGet (user_key (userId user) PickupRoute)) w1).
Proof.
  intros Hv Hget. pose proof (authenticated_store _ _ _ _ _ Hv) as Hst.
  unfold get_user_pickup_route, try_catch, bind, ret, get.
  rewrite Hv. simpl. unfold spec_get.
  change ("user:" +:+ userId user +:+ ":pickup-route")
    with (user_key (userId user) PickupRoute).
  by rewrite Hst, Hget.
Qed.

Lemma no_later_save_keeps (reqs : list (route * Env * Request)) w
    (uid : string) (kind : record_kind) :
  no_later_save reqs uid kind ->
  store (serve_all reqs w) !! user_key uid kind = store w !! user_key uid kind.
Proof.
  intros Hno. apply serve_all_keeps. intros [[r env] req] w' Hin. simpl.
  destruct (serve_user_key r env req w' uid kind)
    as [Hsame|(-> & Hok & u & Hc & Hid)]; [done|].
  by destruct (Hno env req u w' Hin Hc Hok).
Qed.

(** X7. A saved pickup route is read back: after a save answered 200, and
    then any requests among which that user saves no other pickup route, GET
    /user/pickup-route under that user's identity answers 200 with the
    object the save built from its [bus_id] and coordinates. *)
Theorem saved_pickup_route_is_read_back
    (env1 : Env) (req1 : Request) w w1 (u1 : AuthUser) (fs : list (string * jsval))
    (reqs : list (route * Env * Request))
    (env2 : Env) (req2 : Request) (u2 : AuthUser) w2 :
  verifyAuth env1 (header_Authorization req1) w = (Returns (Some u1), w1) ->
  req_json req1 = Returns (JObj fs) ->
  status (post_user_pickup_route env1 req1 w).1 = 200 ->
  no_later_save reqs (userId u1) PickupRoute ->
  verifyAuth env2 (header_Authorization req2)
             (serve_all reqs (post_user_pickup_route env1 req1 w).2)
  = (Returns (Some u2), w2) ->
  userId u2 = userId u1 ->
  get_user_pickup_route env2 req2
                        (serve_all reqs (post_user_pickup_route env1 req1 w).2)
  = (c_json
       (JObj [("pickup_route",
               JObj [("bus_id", assoc "bus_id" fs);
                     ("pickup_latitude", assoc "pickup_latitude" fs);
                     ("pickup_longitude", assoc "pickup_longitude" fs);
                     ("created_at", JStr (Date_toISOString env1))])]) 200,
     log (KvGet (user_key (userId u1) PickupRoute)) w2).
Proof.
  intros Hv1 Hjson Hok Hno Hv2 Hid.
  rewrite <- Hid. apply get_pickup_route_present; [done|].
  rewrite Hid, (no_later_save_keeps _ _ _ _ Hno).
  rewrite (post_user_pickup_route_accepted _ _ _ _ _ _ Hv1 Hjson Hok).
  apply lookup_insert_eq.
Qed.

(** X8. A saved university shows in the profile: after a save answered 200,
    and then any requests among which that user saves no other university,
    GET /user/profile under that user's identity answers 200 with the saved
    [university_id] as its [university]. *)
Theorem saved_university_is_in_profile
    (env1 : Env) (req1 : Request) w w1 (u1 : AuthUser) (fs : list (string * jsval))
    (reqs : list (route * Env * Request))
    (env2 : Env) (req2 : Request) (u2 : AuthUser) w2 (userData : UserResponse) :
  verifyAuth env1 (header_Authorization req1) w = (Returns (Some u1), w1) ->
  req_json req1 = Returns (JObj fs) ->
  status (post_user_university env1 req1 w).1 = 200 ->
  no_later_save reqs (userId u1) University ->
  verifyAuth env2 (header_Authorization req2)
             (serve_all reqs (post_user_university env1 req1 w).2)
  = (Returns (Some u2), w2) ->
  userId u2 = userId u1 ->
  admin_getUserById (supabase env2) (userId u2) = Returns userData ->
  let r := (get_user_profile env2 req2
              (serve_all reqs (post_user_university env1 req1 w).2)).1 in
  status r = 200 /\ opt_get (body r) "university" = assoc "university_id" fs.
Proof.
  intros Hv1 Hjson Hok Hno Hv2 Hid Hdata r.
  destruct (get_user_profile_authenticated _ _ _ _ _ _ Hv2 Hdata)
    as (r' & w3 & Hrun & Hst & _ & Huni & _).
  unfold r. rewrite Hrun. simpl. split; [done|]. rewrite Huni, Hid.
  change ("user:" +:+ userId u1 +:+ ":university")
    with (user_key (userId u1) University).
  rewrite (no_later_save_keeps _ _ _ _ Hno).
  rewrite (post_user_university_accepted _ _ _ _ _ _ Hv1 Hjson Hok).
  by rewrite lookup_insert_eq.
Qed.
End Records.

(** ** What a listing can hold *)

Section Listing.
Context `{Runtime}.
Implicit Types w : world (gmap string jsval).

(** Where a record under a feedback key comes from: the store the history
    started from, or a feedback submission of the history. *)
Lemma feedback_key_origin (reqs : list (route * Env * Request)) w0
    (k : string) (v : jsval) :
  String.prefix "feedback:" k = true ->
  store (serve_all reqs w0) !! k = Some v ->
  store w0 !! k = Some v \/ (k, v) ∈ feedback_writes reqs.
Proof.
  intros Hp. induction reqs as [|x reqs IH] using rev_ind; [by left|].
  rewrite serve_all_snoc, feedback_writes_snoc. intros Hk.
  pose proof (serve_feedback_step x (serve_all reqs w0)) as Hstep.
  simpl in Hstep.
  destruct Hstep as [(k' & v' & Hr & Hsub & Heq)|[_ [Heq|(k' & v' & Hk' & Heq)]]];
    rewrite Heq in Hk.
  - rewrite Hr, Hsub. simpl.
    destruct (decide (k = k')) as [->|Hne].
    + rewrite lookup_insert_eq in Hk. injection Hk as <-.
      right. apply elem_of_app. right. by left.
    + rewrite lookup_insert_ne in Hk by done.
      destruct (IH Hk); [by left|right]. apply elem_of_app. by left.
  - destruct (IH Hk); [by left|right]. apply elem_of_app. by left.
  - rewrite lookup_insert_ne in Hk by (intros ->; congruence).
    destruct (IH Hk); [by left|right]. apply elem_of_app. by left.
Qed.

(** X9. GET /drivers/:driverId/feedback lists nothing but feedback: after
    any history of requests, from any store, it answers 200, and each record
    it lists was either in the initial store or written by a POST /feedback
    of the history, in both cases under a key that starts with
    [feedback:<driverId>:]. No university, location or pickup route of a
    user is ever listed, whatever the [driverId]. *)
Theorem listing_holds_feedback_only (reqs : list (route * Env * Request)) w0
    (env : Env) (req : Request) :
  exists records,
    (get_driver_feedback env req (serve_all reqs w0)).1
    = c_json (JObj [("feedback", JArr records)]) 200 /\
    forall v, v ∈ records ->
      exists k,
        String.prefix ("feedback:" +:+ param_driverId req +:+ ":") k = true /\
        (store w0 !! k = Some v \/ (k, v) ∈ feedback_writes reqs).
Proof.
  rewrite get_driver_feedback_scan. eexists. split; [reflexivity|].
  intros v (k & Hk & Hp)%elem_of_spec_scan. exists k. split; [done|].
  apply feedback_key_origin; [|done]. by apply feedback_prefix_weaken in Hp.
Qed.
End Listing.

(** ** Whose records an answer depends on *)

Section Confidentiality.
Context `{Runtime}.
Implicit Types w : world (gmap string jsval).

(** [verifyAuth] resolves alike in any two worlds, and keeps the store of
    each. *)
Lemma same_auth (env : Env) (req : Request) w w' :
  exists o w1 w1',
    verifyAuth env (header_Authorization req) w = (o, w1) /\
    verifyAuth env (header_Authorization req) w' = (o, w1') /\
    store w1 = store w /\ store w1' = store w'.
Proof.
  pose proof (verifyAuth_result env (header_Authorization req) w w') as Hres.
  destruct (verifyAuth env (header_Authorization req) w) as [o w1] eqn:Hv.
  destruct (verifyAuth env (header_Authorization req) w') as [o' w1'] eqn:Hv'.
  simpl in Hres. subst o'. exists o, w1, w1'.
  split; [done|]. split; [done|].
  split; eapply authenticated_store; eassumption.
Qed.

(** X22. What a caller is answered depends on no record but the caller's
    own: on every route but the public feedback listing, two stores that
    agree on the three records of the caller give the same answer, whatever
    else they hold. A caller that is not authenticated is answered the same
    on any two stores. *)
Theorem answers_depend_on_own_records (r : route) (env : Env) (req : Request) w w' :
  r <> GET_driver_feedback ->
  (forall u kind, caller env req = Some u ->
                  store w !! user_key (userId u) kind
                  = store w' !! user_key (userId u) kind) ->
  (serve r env req w).1 = (serve r env req w').1.
Proof.
  intros Hr Hown.
  destruct (same_auth env req w w') as (o & w1 & w1' & Hv & Hv' & Hst & Hst').
  destruct r; simpl; try done.
  - unfold post_auth_signup, try_catch, bind, lift, call, ret.
    repeat (case_match; simplify_eq/=; try done).
  - unfold post_user_university, try_catch, bind, lift, ret, set.
    rewrite Hv, Hv'. simpl.
    repeat (case_match; simplify_eq/=; try done).
  - unfold post_user_location, try_catch, bind, lift, ret, set.
    rewrite Hv, Hv'. simpl.
    repeat (case_match; simplify_eq/=; try done).
  - unfold get_user_profile, try_catch, bind, lift, call, ret, get.
    rewrite Hv, Hv'. simpl.
    destruct o as [[u|]|e]; simpl; try done.
    pose proof (Hown u University (caller_spec _ _ _ _ _ Hv)) as Huni.
    pose proof (Hown u Location (caller_spec _ _ _ _ _ Hv)) as Hloc.
    unfold user_key in Huni, Hloc. simpl in Huni, Hloc.
    destruct (admin_getUserById _ _); simpl; [|done].
    unfold spec_get. rewrite Hst, Hst', Huni.
    destruct (store w' !! ("user:" +:+ userId u +:+ ":university")); simpl;
      rewrite Hst, Hst', Hloc;
      by destruct (store w' !! ("user:" +:+ userId u +:+ ":location")).
  - unfold post_user_pickup_route, try_catch, bind, lift, ret, set.
    rewrite Hv, Hv'. simpl.
    repeat (case_match; simplify_eq/=; try done).
  - unfold get_user_pickup_route, try_catch, bind, lift, call, ret, get.
    rewrite Hv, Hv'. simpl.
    destruct o as [[u|]|e]; simpl; try done.
    pose proof (Hown u PickupRoute (caller_spec _ _ _ _ _ Hv)) as Hroute.
    unfold user_key in Hroute. simpl in Hroute.
    unfold spec_get. rewrite Hst, Hst', Hroute.
    repeat (case_match; simplify_eq/=; try done).
  - unfold post_feedback, try_catch, bind, lift, ret, set.
    rewrite Hv, Hv'. simpl.
    repeat (case_match; simplify_eq/=; try done).
Qed.
End Confidentiality.

(** ** Where a server error comes from *)

Section ServerErrors.
Context `{Runtime}.
Implicit Types w : world (gmap string jsval).

Ltac among :=
  repeat first [apply list_elem_of_here | apply list_elem_of_further].

Lemma ToNumber_primitive (v : jsval) :
  primitive v = true -> exists n, ToNumber v = Returns n.
Proof. destruct v as [| |[]| | | |]; simpl; try done; eauto. Qed.

Lemma ToString_primitive (v : jsval) :
  primitive v = true -> exists s, ToString v = Returns s.
Proof. destruct v as [| |[]| | | |]; simpl; try done; eauto. Qed.

Lemma js_lt_primitive (v : jsval) (n : number) :
  primitive v = true -> exists b, js_lt v n = Returns b.
Proof. intros [x Hx]%ToNumber_primitive. unfold js_lt. rewrite Hx. eauto. Qed.

Lemma js_gt_primitive (v : jsval) (n : number) :
  primitive v = true -> exists b, js_gt v n = Returns b.
Proof. intros [x Hx]%ToNumber_primitive. unfold js_gt. rewrite Hx. eauto. Qed.

Lemma get_length_primitive (v : jsval) :
  primitive v = true -> truthy v = true ->
  exists len, get_length v = Returns len /\ primitive len = true.
Proof. destruct v; simpl; try done; eauto. Qed.

(** X23. Where a 500 comes from. With the record store not failing, a
    request is never answered 500 when the provider answers its calls
    (whatever it answers, as long as [createUser] reports a user or an
    error) and the body of a POST is a flat JSON object. So a 500 means
    that the provider threw or reported neither user nor error, that the
    body could not be read, or that a field was an array or an object. *)
Theorem flat_requests_never_500 (r : route) (env : Env) (req : Request) w :
  (forall token, exists a, auth_getUser (supabase env) token = Returns a) ->
  (forall uid, exists a, admin_getUserById (supabase env) uid = Returns a) ->
  (exists l, admin_listUsers (supabase env) = Returns l) ->
  (forall attrs, exists a,
      admin_createUser (supabase env) attrs = Returns a /\
      (is_Some (error a) \/ is_Some (data_user a))) ->
  (r ∈ [POST_auth_signup; POST_user_university; POST_user_location;
        POST_user_pickup_route; POST_feedback] ->
   exists fs, req_json req = Returns (JObj fs) /\
              forall k, primitive (assoc k fs) = true) ->
  status (serve r env req w).1 <> 500.
Proof.
  intros Hget Hbyid [l Hlist] Hcreate Hbody.
  assert (exists o w1,
             verifyAuth env (header_Authorization req) w = (Returns o, w1))
    as (o & w1 & Hv).
  { unfold verifyAuth, bind, call, ret.
    destruct (header_Authorization req) as [h|]; [|eauto].
    destruct (js_not (JStr h) || negb (startsWith h "Bearer ")); [eauto|].
    destruct (Hget (split " " h !! 1%nat)) as [a ->]. simpl.
    destruct (error a), (data_user a); eauto. }
  pose proof (authenticated_store _ _ _ _ _ Hv) as Hst.
  destruct r; simpl.
  - destruct Hbody as (fs & Hjson & Hflat); [among|].
    unfold post_auth_signup, try_catch, bind, lift, call, ret.
    rewrite Hjson. simpl. unfold js_not.
    destruct (truthy (assoc "email" fs)); [|done].
    destruct (truthy (assoc "password" fs)) eqn:Hp; [|done].
    destruct (truthy (assoc "name" fs)); [|done].
    destruct (truthy (assoc "role" fs)); [|done]. simpl.
    destruct (get_length_primitive _ (Hflat "password") Hp) as (len & -> & Hlen).
    simpl. destruct (js_lt_primitive len (num_of_Z 6) Hlen) as [[] ->]; [done|].
    simpl. rewrite Hlist. simpl.
    destruct (match data_users l with
              | Some users =>
                  existsb (fun u => strict_eq_email (user_email u) (assoc "email" fs))
                          users
              | None => false
              end); [done|].
    match goal with
    | |- context [admin_createUser _ ?attrs] =>
        destruct (Hcreate attrs) as (a & -> & Hres)
    end.
    simpl. destruct (error a); [done|].
    destruct (data_user a); [|destruct Hres as [[? [=]]|[? [=]]]].
    simpl. destruct (ToString_primitive _ (Hflat "email")) as [se ->]. simpl.
    by destruct (ToString_primitive _ (Hflat "role")) as [sr ->].
  - destruct Hbody as (fs & Hjson & Hflat); [among|].
    unfold post_user_university, try_catch, bind, lift, ret, set.
    rewrite Hv, Hjson. simpl.
    repeat (case_match; simplify_eq/=; try done).
  - destruct Hbody as (fs & Hjson & Hflat); [among|].
    unfold post_user_location, try_catch, bind, lift, ret, set.
    rewrite Hv, Hjson. simpl.
    repeat (case_match; simplify_eq/=; try done).
  - unfold get_user_profile, try_catch, bind, lift, call, ret, get.
    rewrite Hv. simpl. destruct o as [u|]; [|done].
    destruct (Hbyid (userId u)) as [a ->]. simpl.
    repeat (case_match; simplify_eq/=; try done).
  - destruct Hbody as (fs & Hjson & Hflat); [among|].
    unfold post_user_pickup_route, try_catch, bind, lift, ret, set.
    rewrite Hv, Hjson. simpl.
    repeat (case_match; simplify_eq/=; try done).
  - unfold get_user_pickup_route, try_catch, bind, lift, call, ret, get.
    rewrite Hv. simpl. destruct o as [u|]; [|done].
    repeat (case_match; simplify_eq/=; try done).
  - destruct Hbody as (fs & Hjson & Hflat); [among|].
    unfold post_feedback, try_catch, bind, lift, ret, set.
    rewrite Hv, Hjson. simpl. destruct o as [u|]; [|done].
    destruct (js_not (assoc "driver_id" fs) || js_not (assoc "rating" fs)); [done|].
    destruct (js_lt_primitive _ (num_of_Z 1) (Hflat "rating")) as [[] ->]; [done|].
    simpl.
    destruct (js_gt_primitive _ (num_of_Z 5) (Hflat "rating")) as [[] ->]; [done|].
    simpl.
    by destruct (ToString_primitive _ (Hflat "driver_id")) as [d ->].
  - done.
  - done.
  - done.
Qed.
End ServerErrors.

(** ** The order of requests *)

Section Order.
Context `{Runtime}.
Implicit Types w : world (gmap string jsval).

Ltac no_write Hhead :=
  match goal with
  | |- context [trace ?w] =>
      destruct (trace w) as [|[] ?] eqn:?; try done;
      match goal with
      | _ : trace _ = KvSet ?k ?v :: _ |- _ => by destruct (Hhead k v)
      end
  end.

Ltac written_cases Hhead Hst :=
  repeat (case_match; simplify_eq/=; try done);
  try (unfold spec_set; by rewrite Hst);
  try (by destruct (Hhead _ _ eq_refl));
  try (match goal with
       | Ht : trace _ = KvSet ?k ?v :: _ |- _ =>
           exfalso; apply (Hhead k v); by rewrite Ht
       end);
  try no_write Hhead.

(** What a request does to the store is what [written] reads off: the
    effect does not depend on the store the request finds. *)
Lemma serve_written (x : route * Env * Request) w :
  store (serve x.1.1 x.1.2 x.2 w).2
  = match written x with
    | Some (k, v) => <[k := v]> (store w)
    | None => store w
    end.
Proof.
  destruct x as [[r env] req]. unfold written. simpl.
  set (w0 := {| store := (∅ : gmap string jsval); trace := [] |}).
  pose proof (verifyAuth_result env (header_Authorization req) w w0) as Hres.
  pose proof (verifyAuth_world env (header_Authorization req) w0) as Htr.
  destruct r; simpl.
  - unfold post_auth_signup, try_catch, bind, lift, call, ret.
    repeat (case_match; simplify_eq/=; try done).
  - unfold post_user_university, try_catch, bind, lift, call, ret, get.
    destruct (verifyAuth env (header_Authorization req) w) as [o w1] eqn:Hv.
    pose proof (authenticated_store _ _ _ _ _ Hv) as Hst.
    destruct (verifyAuth env (header_Authorization req) w0) as [o' w1'] eqn:Hv'.
    simpl in Hres, Htr. subst o'.
    assert (forall k v, head (trace w1') <> Some (KvSet k v)) as Hhead.
    { intros k v. by destruct Htr as [->|[token ->]]. }
    written_cases Hhead Hst.
  - unfold post_user_location, try_catch, bind, lift, call, ret, get.
    destruct (verifyAuth env (header_Authorization req) w) as [o w1] eqn:Hv.
    pose proof (authenticated_store _ _ _ _ _ Hv) as Hst.
    destruct (verifyAuth env (header_Authorization req) w0) as [o' w1'] eqn:Hv'.
    simpl in Hres, Htr. subst o'.
    assert (forall k v, head (trace w1') <> Some (KvSet k v)) as Hhead.
    { intros k v. by destruct Htr as [->|[token ->]]. }
    written_cases Hhead Hst.
  - unfold get_user_profile, try_catch, bind, lift, call, ret, get.
    destruct (verifyAuth env (header_Authorization req) w) as [o w1] eqn:Hv.
    pose proof (authenticated_store _ _ _ _ _ Hv) as Hst.
    destruct (verifyAuth env (header_Authorization req) w0) as [o' w1'] eqn:Hv'.
    simpl in Hres, Htr. subst o'.
    assert (forall k v, head (trace w1') <> Some (KvSet k v)) as Hhead.
    { intros k v. by destruct Htr as [->|[token ->]]. }
    written_cases Hhead Hst.
  - unfold post_user_pickup_route, try_catch, bind, lift, call, ret, get.
    destruct (verifyAuth env (header_Authorization req) w) as [o w1] eqn:Hv.
    pose proof (authenticated_store _ _ _ _ _ Hv) as Hst.
    destruct (verifyAuth env (header_Authorization req) w0) as [o' w1'] eqn:Hv'.
    simpl in Hres, Htr. subst o'.
    assert (forall k v, head (trace w1') <> Some (KvSet k v)) as Hhead.
    { intros k v. by destruct Htr as [->|[token ->]]. }
    written_cases Hhead Hst.
  - unfold get_user_pickup_route, try_catch, bind, lift, call, ret, get.
    destruct (verifyAuth env (header_Authorization req) w) as [o w1] eqn:Hv.
    pose proof (authenticated_store _ _ _ _ _ Hv) as Hst.
    destruct (verifyAuth env (header_Authorization req) w0) as [o' w1'] eqn:Hv'.
    simpl in Hres, Htr. subst o'.
    assert (forall k v, head (trace w1') <> Some (KvSet k v)) as Hhead.
    { intros k v. by destruct Htr as [->|[token ->]]. }
    written_cases Hhead Hst.
  - unfold post_feedback, try_catch, bind, lift, call, ret, get.
    destruct (verifyAuth env (header_Authorization req) w) as [o w1] eqn:Hv.
    pose proof (authenticated_store _ _ _ _ _ Hv) as Hst.
    destruct (verifyAuth env (header_Authorization req) w0) as [o' w1'] eqn:Hv'.
    simpl in Hres, Htr. subst o'.
    assert (forall k v, head (trace w1') <> Some (KvSet k v)) as Hhead.
    { intros k v. by destruct Htr as [->|[token ->]]. }
    written_cases Hhead Hst.
  - done.
  - done.
  - done.
Qed.

(** X16. Requests that write no common key can be served in either order:
    the store is the same afterwards. So the saves of two different users,
    or a save and any reading request, do not depend on which arrives
    first. *)
Theorem independent_requests_commute (x y : route * Env * Request) w :
  independent x y ->
  store (serve_all [x; y] w) = store (serve_all [y; x] w).
Proof.
  intros Hxy. unfold serve_all. simpl. rewrite !serve_written.
  destruct (written x) as [[kx vx]|] eqn:Hx, (written y) as [[ky vy]|] eqn:Hy;
    try done.
  apply insert_insert_ne. intros Heq. by apply (Hxy kx vx ky vy).
Qed.
End Order.

(** ** The browser client *)

Section BrowserClient.
Variables (projectId publicAnonKey : string) (lib : Client.Library).

Lemma createClient_settled (st : Client.state) :
  Client.settled projectId publicAnonKey st ->
  (Client.createClient projectId publicAnonKey st).1
  = Client.the_client projectId publicAnonKey /\
  Client.settled projectId publicAnonKey
                 (Client.createClient projectId publicAnonKey st).2 /\
  (Client.createClient projectId publicAnonKey st).2 <> Client.loaded.
Proof.
  intros [->|(Hinst & Hcreated & Hcalls)].
  - split; [done|]. split; [|done]. right. split; [done|]. split; [done|].
    intros c cl Hin. apply list_elem_of_singleton in Hin as ->. done.
  - unfold Client.createClient. rewrite Hinst. simpl. split; [done|].
    split; [right; done|]. intros ->. done.
Qed.

Lemma call_settled (st : Client.state) (c : Client.call) :
  Client.settled projectId publicAnonKey st -> st <> Client.loaded ->
  Client.is_create c = false ->
  Client.client_of c = Some (Client.the_client projectId publicAnonKey) ->
  Client.settled projectId publicAnonKey
                 {| Client.supabaseInstance := Client.supabaseInstance st;
                    Client.calls := c :: Client.calls st |}.
Proof.
  intros [->|(Hinst & Hcreated & Hcalls)] Hne Hc Hcl; [done|].
  right. simpl. rewrite Hc. split; [done|]. split; [done|].
  intros c' cl [->|Hin]%elem_of_cons Hcl'; [congruence|eauto].
Qed.

Lemma run_settled (f : Client.export) (st : Client.state) :
  Client.settled projectId publicAnonKey st ->
  Client.settled projectId publicAnonKey (Client.run projectId publicAnonKey lib f st).
Proof.
  intros Hst.
  destruct (createClient_settled st Hst) as (Hc & Hst' & Hne).
  destruct f; simpl; [done|..].
  - unfold Client.getSession.
    destruct (Client.createClient projectId publicAnonKey st) as [c st1].
    simpl in *. subst c. by apply call_settled.
  - unfold Client.getAccessToken, Client.getSession.
    destruct (Client.createClient projectId publicAnonKey st) as [c st1].
    simpl in *. subst c.
    destruct (Client.auth_getSession _ _ _) as [[session err]|e]; simpl;
      by apply call_settled.
  - unfold Client.getCurrentUser.
    destruct (Client.createClient projectId publicAnonKey st) as [c st1].
    simpl in *. subst c. by apply call_settled.
  - unfold Client.signOut.
    destruct (Client.createClient projectId publicAnonKey st) as [c st1].
    simpl in *. subst c. by apply call_settled.
Qed.

(** X17. The page has one client: whatever exported functions are called,
    in whatever order and however often, the library's [createClient] is
    called at most once, with [https://<projectId>.supabase.co], the public
    key and the options [autoRefreshToken], [persistSession] and no
    [detectSessionInUrl]; every [auth] call is made on that one client, and
    [createClient] returns it each time. *)
Theorem client_is_singleton (fs : list Client.export) :
  let st := Client.run_all projectId publicAnonKey lib fs Client.loaded in
  (forall args, Client.Create args ∈ Client.calls st ->
                args = Client.client_args projectId publicAnonKey) /\
  (length (List.filter Client.is_create (Client.calls st)) <= 1)%nat /\
  (forall c cl, c ∈ Client.calls st -> Client.client_of c = Some cl ->
                cl = Client.the_client projectId publicAnonKey) /\
  (Client.createClient projectId publicAnonKey st).1 = Client.the_client projectId publicAnonKey.
Proof.
  intros st.
  assert (Client.settled projectId publicAnonKey st) as Hst.
  { unfold st, Client.run_all.
    induction fs as [|f fs IH] using rev_ind; [by left|].
    rewrite foldl_snoc. by apply run_settled. }
  clearbody st. split; [|split; [|split]].
  - intros args Hin. destruct Hst as [->|(_ & Hcreated & _)].
    + by apply elem_of_nil in Hin.
    + assert (Client.Create args ∈ List.filter Client.is_create (Client.calls st))
        as Hin'.
      { apply list_elem_of_In, filter_In. split; [by apply list_elem_of_In|done]. }
      rewrite Hcreated in Hin'. apply list_elem_of_singleton in Hin'.
      by injection Hin'.
  - destruct Hst as [->|(_ & -> & _)]; simpl; lia.
  - destruct Hst as [->|(_ & _ & Hcalls)]; [|done].
    intros c cl Hin. by apply elem_of_nil in Hin.
  - by apply createClient_settled.
Qed.

(** X18. [getAccessToken] resolves to a token only when the library
    reports a session, and then to that session's non-empty
    [access_token], whether or not an error is reported beside it; without
    a session, or with an empty token, it resolves to [null], never to the
    empty string. It rejects exactly when the library's [getSession]
    does. *)
Theorem getAccessToken_token (st : Client.state) :
  let supabase := (Client.createClient projectId publicAnonKey st).1 in
  let st1 := (Client.createClient projectId publicAnonKey st).2 in
  match Client.auth_getSession lib (Client.calls st1) supabase with
  | Returns (Some s, _) =>
      (Client.getAccessToken projectId publicAnonKey lib st).1
      = Returns (if String.eqb (Client.access_token s) "" then None
                 else Some (Client.access_token s))
  | Returns (None, _) =>
      (Client.getAccessToken projectId publicAnonKey lib st).1 = Returns None
  | Throws e =>
      (Client.getAccessToken projectId publicAnonKey lib st).1 = Throws e
  end /\
  (Client.getAccessToken projectId publicAnonKey lib st).1 <> Returns (Some "").
Proof.
  unfold Client.getAccessToken, Client.getSession.
  destruct (Client.createClient projectId publicAnonKey st) as [c st1]. simpl.
  destruct (Client.auth_getSession lib (Client.calls st1) c)
    as [[[s|] err]|e]; simpl; [|done..].
  destruct (String.eqb (Client.access_token s) "") eqn:E; simpl; [done|].
  split; [done|]. intros [= Hs]. by rewrite Hs in E.
Qed.
End BrowserClient.

(** ** The database seed *)

Section SeedBlock.
Context {uuid double timestamp : Type} `{EqDecision uuid}
        `{Seed.Engine uuid double timestamp}.

Lemma driver_names_length : length Seed.driver_names = 88%nat.
Proof. reflexivity. Qed.

#[local] Opaque Seed.driver_names.

Lemma subscript_bound (a : list string) (i : Z) (x : string) :
  Seed.subscript a i = Some x -> 1 <= i <= Z.of_nat (length a).
Proof.
  unfold Seed.subscript. destruct (Z.ltb_spec i 1) as [|Hi]; [done|].
  intros Hx%lookup_lt_Some. lia.
Qed.

Lemma subscript_lookup (a : list string) (i : Z) (x : string) :
  0 <= i -> Seed.subscript a (i + 1) = Some x -> a !! Z.to_nat i = Some x.
Proof.
  intros Hi. unfold Seed.subscript.
  destruct (Z.ltb_spec (i + 1) 1) as [|_]; [lia|].
  by replace (i + 1 - 1) with i by lia.
Qed.

Lemma insert_bus_locations_frame bus_id selected db db' :
  Seed.insert_bus_locations bus_id selected db = Seed.Ok db' ->
  Seed.universities db' = Seed.universities db /\
  Seed.drivers db' = Seed.drivers db /\
  Seed.buses db' = Seed.buses db.
Proof.
  revert db. induction selected as [|u rest IH]; intros db; simpl.
  - by intros [= ->].
  - unfold Seed.insert_bus_location.
    repeat case_decide; simpl; try done.
    intros (Hu & Hd & Hb)%IH. by rewrite Hu, Hd, Hb.
Qed.

(** One turn of the inner loop that completes has found a name for the
    driver, moved the counter by one, and added the driver and the bus. *)
Lemma loop_body_ok uni_record bus_num driver_counter db c' db' :
  Seed.loop_body uni_record bus_num driver_counter db = Seed.Ok (c', db') ->
  c' = driver_counter + 1 /\
  Seed.universities db' = Seed.universities db /\
  exists name,
    Seed.subscript Seed.driver_names c' = Some name /\
    Seed.d_name <$> Seed.drivers db' = (Seed.d_name <$> Seed.drivers db) ++ [name] /\
    Seed.b_bus_number <$> Seed.buses db'
    = (Seed.b_bus_number <$> Seed.buses db)
        ++ [Seed.u_short_name uni_record +:+ "-" +:+ pretty bus_num].
Proof.
  unfold Seed.loop_body.
  destruct (Seed.int4_max <? driver_counter + 1); [done|].
  destruct (Seed.subscript Seed.driver_names (driver_counter + 1)) as [name|] eqn:Hn;
    [|done].
  unfold Seed.insert_driver. case_decide; [done|]. simpl.
  unfold Seed.insert_bus. repeat case_decide; simpl; try done.
  destruct (Seed.insert_bus_locations _ _ _) as [db1|e] eqn:Hl; [|done]. simpl.
  intros [= <- <-].
  apply insert_bus_locations_frame in Hl as (Hu & Hd & Hb). simpl in *.
  split; [done|]. split; [done|]. exists name. split; [done|].
  rewrite Hd, Hb, !fmap_app. done.
Qed.

Lemma for_bus_num_ok uni_record bus_nums driver_counter db c' db' :
  0 <= driver_counter <= 88 ->
  Seed.for_bus_num uni_record bus_nums driver_counter db = Seed.Ok (c', db') ->
  c' = driver_counter + Z.of_nat (length bus_nums) /\ c' <= 88 /\
  Seed.universities db' = Seed.universities db /\
  Seed.d_name <$> Seed.drivers db'
  = (Seed.d_name <$> Seed.drivers db)
      ++ take (length bus_nums) (drop (Z.to_nat driver_counter) Seed.driver_names) /\
  Seed.b_bus_number <$> Seed.buses db'
  = (Seed.b_bus_number <$> Seed.buses db)
      ++ ((fun bus_num => Seed.u_short_name uni_record +:+ "-" +:+ pretty bus_num)
            <$> bus_nums).
Proof.
  revert driver_counter db.
  induction bus_nums as [|bus_num rest IH]; intros c db Hc; simpl.
  - intros [= <- <-]. rewrite !app_nil_r. repeat split; lia.
  - destruct (Seed.loop_body uni_record bus_num c db) as [[c1 db1]|e] eqn:Hbody;
      [|done]. simpl.
    apply loop_body_ok in Hbody as (-> & Hu & name & Hname & Hd & Hb).
    pose proof (subscript_bound _ _ _ Hname) as Hbound.
    rewrite driver_names_length in Hbound.
    apply subscript_lookup in Hname; [|lia].
    intros (-> & Hle & Hu' & Hd' & Hb')%IH; [|lia].
    split; [lia|]. split; [done|]. split; [congruence|].
    rewrite Hd', Hd, Hb', Hb, <- !app_assoc. split; [|done].
    f_equal. rewrite (drop_S _ _ _ Hname). simpl.
    by replace (Z.to_nat (c + 1)) with (Datatypes.S (Z.to_nat c)) by lia.
Qed.

Lemma for_uni_record_ok uni_records driver_counter db c' db' :
  0 <= driver_counter <= 88 ->
  Seed.for_uni_record uni_records driver_counter db = Seed.Ok (c', db') ->
  c' = driver_counter + 6 * Z.of_nat (length uni_records) /\ c' <= 88 /\
  Seed.universities db' = Seed.universities db /\
  Seed.d_name <$> Seed.drivers db'
  = (Seed.d_name <$> Seed.drivers db)
      ++ take (6 * length uni_records)
              (drop (Z.to_nat driver_counter) Seed.driver_names) /\
  Seed.b_bus_number <$> Seed.buses db'
  = (Seed.b_bus_number <$> Seed.buses db)
      ++ (uni_records ≫= fun uni_record =>
            (fun bus_num => Seed.u_short_name uni_record +:+ "-" +:+ pretty bus_num)
              <$> [1; 2; 3; 4; 5; 6]).
Proof.
  revert driver_counter db.
  induction uni_records as [|uni_record rest IH]; intros c db Hc.
  - simpl. intros [= <- <-]. rewrite !app_nil_r. repeat split; lia.
  - cbn [Seed.for_uni_record].
    destruct (Seed.for_bus_num uni_record [1; 2; 3; 4; 5; 6] c db)
      as [[c1 db1]|e] eqn:Hbuses; [|done].
    cbn [Seed.and_then].
    apply for_bus_num_ok in Hbuses as (-> & Hle & Hu & Hd & Hb); [|done].
    intros (-> & Hle' & Hu' & Hd' & Hb')%IH; [|simpl in *; lia].
    cbn [length] in *.
    split; [lia|]. split; [done|]. split; [congruence|].
    rewrite Hd', Hd, Hb', Hb, <- !app_assoc. split; [|done].
    f_equal.
    replace (6 * Datatypes.S (length rest))%nat with (6 + 6 * length rest)%nat by lia.
    rewrite <- take_take_drop, drop_drop. do 3 f_equal. lia.
Qed.

(** X19. The DO block of the seed completes only on a database of at most
    14 universities: each of its turns needs a name from [driver_names],
    six per university, and the array holds 88. From the 89th driver on the
    name is NULL, which the column [drivers.name] refuses. *)
Theorem seed_block_needs_names db db' :
  Seed.DO_block db = Seed.Ok db' ->
  (6 * length (Seed.universities db) <= length Seed.driver_names)%nat /\
  (length (Seed.universities db) <= 14)%nat.
Proof.
  unfold Seed.DO_block.
  destruct (Seed.for_uni_record (Seed.universities db) 0 db) as [[c db1]|e] eqn:Hrun;
    [|done].
  intros _. apply for_uni_record_ok in Hrun as (-> & Hle & _); [|lia].
  rewrite driver_names_length. lia.
Qed.

(** X20. What the DO block leaves when it completes: the universities as
    they were; six new drivers per university, named by [driver_names] from
    its first entry on, in the order of the loop; and six new buses per
    university, numbered [<short_name>-1] to [<short_name>-6]. *)
Theorem seed_block_inserts db db' :
  Seed.DO_block db = Seed.Ok db' ->
  Seed.universities db' = Seed.universities db /\
  Seed.d_name <$> Seed.drivers db'
  = (Seed.d_name <$> Seed.drivers db)
      ++ take (6 * length (Seed.universities db)) Seed.driver_names /\
  Seed.b_bus_number <$> Seed.buses db'
  = (Seed.b_bus_number <$> Seed.buses db)
      ++ (Seed.universities db ≫= fun uni_record =>
            (fun bus_num => Seed.u_short_name uni_record +:+ "-" +:+ pretty bus_num)
              <$> [1; 2; 3; 4; 5; 6]).
Proof.
  unfold Seed.DO_block.
  destruct (Seed.for_uni_record (Seed.universities db) 0 db) as [[c db1]|e] eqn:Hrun;
    [|done].
  intros [= <-]. by apply for_uni_record_ok in Hrun as (_ & _ & Hu & Hd & Hb); [|lia].
Qed.

(** The INSERT adds a university for each identifier drawn, when these are
    new and distinct. *)
Lemma insert_universities_ids (values : list (string * string * string * Q * Q)) db :
  let ids := Seed.uuid_generate_v4 <$> seq (Seed.uuids_drawn db) (length values) in
  NoDup ids ->
  (forall id, id ∈ ids -> id ∉ Seed.u_id <$> Seed.universities db) ->
  Seed.u_id <$> Seed.universities
                  (foldl (fun db v => Seed.insert_university v db) db values)
  = (Seed.u_id <$> Seed.universities db) ++ ids.
Proof.
  revert db. induction values as [|v rest IH]; intros db; simpl.
  - intros _ _. by rewrite app_nil_r.
  - intros [Hfirst Hrest]%NoDup_cons Hnew.
    assert (Seed.uuid_generate_v4 (Seed.uuids_drawn db)
            ∉ Seed.u_id <$> Seed.universities db) as Hid.
    { apply Hnew. by left. }
    destruct v as [[[[name short_name] location] latitude] longitude].
    set (db1 := Seed.insert_university (name, short_name, location, latitude, longitude) db).
    assert (Seed.uuids_drawn db1 = Datatypes.S (Seed.uuids_drawn db)) as Hdrawn
      by done.
    assert (Seed.u_id <$> Seed.universities db1
            = (Seed.u_id <$> Seed.universities db)
                ++ [Seed.uuid_generate_v4 (Seed.uuids_drawn db)]) as Hids.
    { unfold db1, Seed.insert_university. simpl.
      rewrite decide_False by done. by rewrite fmap_app. }
    rewrite IH; rewrite Hdrawn.
    + by rewrite Hids, <- app_assoc.
    + done.
    + intros id Hin. rewrite Hids. intros [Hold|Hnow]%elem_of_app.
      * apply (Hnew id); [by right|done].
      * apply list_elem_of_singleton in Hnow. by subst id.
Qed.

(** X21. The seed never completes: on any database, if the fifteen
    identifiers drawn for the universities are new and distinct, the INSERT
    leaves at least fifteen universities, ninety drivers are called for,
    and the DO block raises an error. *)
Theorem seed_never_completes db :
  let ids := Seed.uuid_generate_v4 <$> seq (Seed.uuids_drawn db) 15 in
  NoDup ids ->
  (forall id, id ∈ ids -> id ∉ Seed.u_id <$> Seed.universities db) ->
  exists e, Seed.seed db = Seed.Raise e.
Proof.
  intros ids Hdistinct Hnew. unfold Seed.seed, Seed.DO_block.
  destruct (Seed.for_uni_record _ 0 (Seed.insert_universities db))
    as [[c db1]|e] eqn:Hrun; [|by exists e].
  apply for_uni_record_ok in Hrun as (-> & Hle & _); [|lia].
  pose proof (insert_universities_ids Seed.university_values db Hdistinct Hnew)
    as Hids.
  apply (f_equal length) in Hids.
  rewrite length_app, !length_fmap, length_seq in Hids.
  unfold Seed.insert_universities in Hle. rewrite Hids in Hle.
  change (length Seed.university_values) with 15%nat in Hle. lia.
Qed.
End SeedBlock.

(** * The statements on the concrete scenario *)

Section Scenario.
#[local] Existing Instance sample_runtime.
#[local] Existing Instance sample_engine.

Lemma ann_is_authenticated (json : jsval) (w : world (gmap string jsval)) :
  verifyAuth sample_env (header_Authorization (as_ann json)) w
  = (Returns (Some {| userId := "u1"; email := "ann@example.com" |}),
     log (GetUser (Some "t1")) w).
Proof. reflexivity. Qed.

(** C2, refuted as stated. One record is submitted, for the driver
    ["a:b"]; the list of driver ["a"], for whom nothing was submitted,
    returns it. And of two records submitted for driver ["d1"] by one user
    in one millisecond, the list of ["d1"] returns only one. *)
Lemma scan_leaks_and_loses_records :
  "a" <> "a:b" /\
  ~ lists_exactly [(POST_feedback, sample_env, feedback_for "a:b" 5)]
                  empty_world sample_env (list_feedback_of "a") /\
  ~ lists_exactly [(POST_feedback, sample_env, feedback_for "d1" 1);
                   (POST_feedback, sample_env, feedback_for "d1" 5)]
                  empty_world sample_env (list_feedback_of "d1").
Proof.
  split; [done|]. split.
  - intros (records & Hresp & Hperm).
    vm_compute in Hresp. injection Hresp as <-.
    apply Permutation_length in Hperm. vm_compute in Hperm. discriminate Hperm.
  - intros (records & Hresp & Hperm).
    vm_compute in Hresp. injection Hresp as <-.
    apply Permutation_length in Hperm. vm_compute in Hperm. discriminate Hperm.
Qed.

(** What the two runs of [scan_leaks_and_loses_records] return. *)
Example leaked_record :
  (get_driver_feedback sample_env (list_feedback_of "a")
     (serve_all [(POST_feedback, sample_env, feedback_for "a:b" 5)] empty_world)).1
  = c_json
      (JObj [("feedback",
              JArr [JObj [("driver_id", JStr "a:b");
                          ("user_id", JStr "u1");
                          ("user_email", JStr "ann@example.com");
                          ("rating", JNum (num_of_Z 5));
                          ("comment", JNull);
                          ("created_at", JStr "2023-11-14T22:13:20.000Z")]])])
      200.
Proof. vm_compute. reflexivity. Qed.

Example overwritten_record :
  (get_driver_feedback sample_env (list_feedback_of "d1")
     (serve_all [(POST_feedback, sample_env, feedback_for "d1" 1);
                 (POST_feedback, sample_env, feedback_for "d1" 5)] empty_world)).1
  = c_json
      (JObj [("feedback",
              JArr [JObj [("driver_id", JStr "d1");
                          ("user_id", JStr "u1");
                          ("user_email", JStr "ann@example.com");
                          ("rating", JNum (num_of_Z 5));
                          ("comment", JNull);
                          ("created_at", JStr "2023-11-14T22:13:20.000Z")]])])
      200.
Proof. vm_compute. reflexivity. Qed.

(** C1 on the scenario: a bearer token the provider does not know. *)
Lemma protected_handlers_unauthorized_witness :
  let req := request (Some "Bearer expired") JNull in
  turned_away post_user_university unauthorized sample_env req empty_world /\
  turned_away post_user_location unauthorized sample_env req empty_world /\
  turned_away get_user_profile unauthorized sample_env req empty_world /\
  turned_away post_user_pickup_route unauthorized sample_env req empty_world /\
  turned_away get_user_pickup_route unauthorized sample_env req empty_world /\
  turned_away post_feedback unauthorized_feedback sample_env req empty_world.
Proof.
  apply (protected_handlers_unauthorized sample_env
           (request (Some "Bearer expired") JNull) empty_world).
  right. right. reflexivity.
Defined.

(** C10 on the scenario: the prefix written without its capital. *)
Lemma verifyAuth_prefix_gate_witness :
  verifyAuth sample_env (Some "bearer t1") empty_world = (Returns None, empty_world).
Proof.
  apply (verifyAuth_prefix_gate sample_env (Some "bearer t1") empty_world).
  right. intros rest Heq. discriminate Heq.
Defined.

(** C5 on the scenario: the coordinate (0, 77). *)
Lemma zero_latitude_rejected_witness :
  post_user_location sample_env zero_latitude_request empty_world
  = (json_error (JStr "Latitude and longitude are required") 400,
     log (GetUser (Some "t1")) empty_world) /\
  post_user_pickup_route sample_env zero_latitude_request empty_world
  = (json_error (JStr "Bus ID and pickup coordinates are required") 400,
     log (GetUser (Some "t1")) empty_world).
Proof.
  pose proof (zero_latitude_rejected sample_env zero_latitude_request empty_world
                (log (GetUser (Some "t1")) empty_world)
                {| userId := "u1"; email := "ann@example.com" |}
                [("latitude", JNum (Fin 0)); ("longitude", JNum (Fin (77 # 1)));
                 ("pickup_latitude", JNum (Fin 0));
                 ("pickup_longitude", JNum (Fin (77 # 1)));
                 ("bus_id", JStr "bus-7")]
                0%Q eq_refl eq_refl (Qeq_refl 0)) as (_ & Hloc & Hroute).
  split; [apply Hloc | apply Hroute]; left; reflexivity.
Defined.

(** C7 on the scenario: a password of three characters. *)
Lemma short_password_rejected_witness :
  post_auth_signup sample_env short_password_signup empty_world
  = (json_error (JStr "Password must be at least 6 characters long") 400,
     empty_world).
Proof.
  apply (short_password_rejected sample_env short_password_signup empty_world
           [("email", JStr "bob@example.com"); ("password", JStr "abc");
            ("name", JStr "Bob"); ("role", JStr "parent")] "abc");
    [reflexivity | reflexivity | simpl; lia].
Defined.

(** C8 on the scenario: Bob saved a pickup route; Ann tried to, at latitude
    0, and was turned down, and saved a location. *)
Lemma unsaved_pickup_route_is_success_witness :
  let w := serve_all [(POST_user_pickup_route, sample_env,
                       as_bob (JObj [("bus_id", JStr "bus-7");
                                     ("pickup_latitude", JNum (num_of_Z 12));
                                     ("pickup_longitude", JNum (num_of_Z 77))]));
                      (POST_user_pickup_route, sample_env, zero_latitude_request);
                      (POST_user_location, sample_env, location_request 12 77)]
                     empty_world in
  get_user_pickup_route sample_env (as_ann JNull) w
  = (c_json (JObj [("pickup_route", JUndefined)]) 200,
     log (KvGet "user:u1:pickup-route") (log (GetUser (Some "t1")) w)).
Proof.
  intros w.
  apply (unsaved_pickup_route_is_success _ empty_world sample_env (as_ann JNull)
           {| userId := "u1"; email := "ann@example.com" |}).
  - reflexivity.
  - intros env' req' user' w' Hin Hcaller Hok.
    apply elem_of_cons in Hin as [Heq|Hin].
    { injection Heq as -> ->. vm_compute in Hcaller.
      injection Hcaller as <-. simpl. discriminate. }
    apply elem_of_cons in Hin as [Heq|Hin].
    { injection Heq as -> ->. vm_compute in Hok. discriminate Hok. }
    apply list_elem_of_singleton in Hin. discriminate Hin.
  - apply ann_is_authenticated.
Defined.

(** C9 on the scenario: Ann's feedback on driver d1, listed with no header. *)
Lemma feedback_exposes_author_email_witness :
  let w2 := (post_feedback sample_env (feedback_for "d1" 5) empty_world).2 in
  exists record,
    opt_get record "user_email" = JStr "ann@example.com" /\
    record ∈ spec_scan "feedback:d1:" (store w2) /\
    (get_driver_feedback sample_env (list_feedback_of "d1") w2).1
    = c_json (JObj [("feedback", JArr (spec_scan "feedback:d1:" (store w2)))]) 200.
Proof.
  intros w2.
  pose proof (feedback_exposes_author_email sample_env (feedback_for "d1" 5)
                empty_world (log (GetUser (Some "t1")) empty_world)
                {| userId := "u1"; email := "ann@example.com" |}
                [("driver_id", JStr "d1"); ("rating", JNum (num_of_Z 5))]
                sample_env (list_feedback_of "d1")
                eq_refl eq_refl eq_refl eq_refl)
    as (_ & _ & Hemail & Hlist & Hin).
  eexists. split; [exact Hemail|]. split; [exact Hin|].
  unfold w2. by rewrite Hlist.
Defined.

(** C6 on the scenario: two saves by Ann, then her profile. *)
Lemma last_location_wins_witness :
  let w1 := (post_user_location sample_env (location_request 12 77) empty_world).2 in
  let w2 := (post_user_location sample_env (location_request 13 78) w1).2 in
  status (get_user_profile sample_env (as_ann JNull) w2).1 = 200 /\
  opt_get (body (get_user_profile sample_env (as_ann JNull) w2).1) "location"
  = JObj [("latitude", JNum (num_of_Z 13));
          ("longitude", JNum (num_of_Z 78));
          ("address", JNull);
          ("updated_at", JStr "2023-11-14T22:13:20.000Z")].
Proof.
  intros w1 w2.
  apply (proj2 (proj2 last_location_wins)
           sample_env sample_env sample_env
           (location_request 12 77) (location_request 13 78) (as_ann JNull)
           empty_world
           {| userId := "u1"; email := "ann@example.com" |}
           {| userId := "u1"; email := "ann@example.com" |}
           [("latitude", JNum (num_of_Z 13)); ("longitude", JNum (num_of_Z 78))]
           {| data_user := Some ann; error := None |});
    reflexivity.
Defined.

(** A signup under Ann's email as it is listed is turned down by the
    handler itself. *)
Example duplicate_signup_rejected :
  post_auth_signup sample_env duplicate_signup empty_world
  = (json_error (JStr "An account with this email already exists") 400,
     log ListUsers empty_world).
Proof.
  apply (exact_duplicate_rejected sample_env duplicate_signup empty_world
           [("email", JStr "ann@example.com"); ("password", JStr "secret1");
            ("name", JStr "Ann"); ("role", JStr "student")]
           "ann@example.com" "secret1" [ann; bob]);
    try reflexivity.
  - discriminate.
  - simpl. lia.
  - simpl. left.
Qed.


(** C2 on the scenario: feedback on d2 and d1, and a location save between. *)
Lemma scan_returns_driver_records_witness :
  lists_exactly [(POST_feedback, sample_env, feedback_for "d2" 3);
                 (POST_user_location, sample_env, location_request 12 77);
                 (POST_feedback, sample_env, feedback_for "d1" 5)]
                empty_world sample_env (list_feedback_of "d1").
Proof.
  assert (feedback_writes [(POST_feedback, sample_env, feedback_for "d2" 3);
                           (POST_user_location, sample_env, location_request 12 77);
                           (POST_feedback, sample_env, feedback_for "d1" 5)]
          = [("feedback:d2:1700000000000:u1",
              feedback_record sample_env {| userId := "u1"; email := "ann@example.com" |}
                              (JStr "d2") (JNum (num_of_Z 3)) JUndefined);
             ("feedback:d1:1700000000000:u1",
              feedback_record sample_env {| userId := "u1"; email := "ann@example.com" |}
                              (JStr "d1") (JNum (num_of_Z 5)) JUndefined)]) as Hw.
  { vm_compute. reflexivity. }
  apply scan_returns_driver_records.
  - intros k _. apply lookup_empty.
  - reflexivity.
  - intros kv d Hin Hd. rewrite Hw in Hin.
    apply elem_of_cons in Hin as [->|Hin];
      [|apply list_elem_of_singleton in Hin as ->];
      vm_compute in Hd; injection Hd as <-; reflexivity.
  - rewrite Hw. simpl.
    apply NoDup_cons. split.
    + intros Hin. apply list_elem_of_singleton in Hin. discriminate Hin.
    + apply NoDup_singleton.
Defined.
(** X1 on the scenario: the bounds 1 and 5, and 0 and 6. *)
Lemma numeric_rating_range_witness :
  status (post_feedback sample_env (feedback_for "d1" 0) empty_world).1 = 400 /\
  status (post_feedback sample_env (feedback_for "d1" 6) empty_world).1 = 400 /\
  status (post_feedback sample_env (feedback_for "d1" 1) empty_world).1 = 200 /\
  status (post_feedback sample_env (feedback_for "d1" 5) empty_world).1 = 200.
Proof.
  pose proof (fun z =>
    numeric_rating_range sample_env (feedback_for "d1" z) empty_world
      (log (GetUser (Some "t1")) empty_world)
      {| userId := "u1"; email := "ann@example.com" |}
      [("driver_id", JStr "d1"); ("rating", JNum (num_of_Z z))] "d1" (inject_Z z)
      eq_refl eq_refl eq_refl ltac:(discriminate) eq_refl) as Hrange.
  split; [|split; [|split]].
  - apply (proj1 (Hrange 0)). by left.
  - apply (proj1 (Hrange 6)). by right.
  - rewrite (proj2 (Hrange 1)); [done|]. by split.
  - rewrite (proj2 (Hrange 5)); [done|]. by split.
Defined.

(** X2 on the scenario: one key, built for one driver, instant and author. *)
Lemma feedbackId_inj_witness :
  "d1" = "d1" /\ Date_now sample_env = Date_now sample_env /\ "u1" = "u1".
Proof.
  apply (feedbackId_inj sample_env sample_env
           {| userId := "u1"; email := "ann@example.com" |}
           {| userId := "u1"; email := "" |} "d1" "d1");
    reflexivity.
Defined.

(** X4 on the scenario: a save at latitude 0, answered 400 without a
    [set]; and a save while the store is out of reach, answered 500 with
    the message of the [set] that threw. *)
Lemma rejected_without_completed_set_witness :
  (store (serve POST_user_location sample_env zero_latitude_request empty_world).2
   = store empty_world /\
   forall e,
     e ∈ trace (serve POST_user_location sample_env zero_latitude_request
                  empty_world).2 ->
     is_set e = true -> e ∈ trace empty_world) /\
  exists k v,
    (@serve _ unavailable_store _ POST_user_location sample_env
            (location_request 12 77) empty_world).1
    = internal_error (JStr "store unavailable") /\
    trace (@serve _ unavailable_store _ POST_user_location sample_env
                  (location_request 12 77) empty_world).2
    = [KvSet k v; GetUser (Some "t1")].
Proof.
  split.
  - destruct (rejected_without_completed_set POST_user_location sample_env
                zero_latitude_request empty_world)
      as [Hnone|(k & v & t & Hthrew & _)].
    + vm_compute. discriminate.
    + exact Hnone.
    + discriminate Hthrew.
  - destruct (@rejected_without_completed_set _ unavailable_store _
                POST_user_location sample_env (location_request 12 77) empty_world)
      as [[_ Hnone]|(k & v & t & Hthrew & Hanswer & Htrace)].
    + vm_compute. discriminate.
    + exfalso. eapply elem_of_nil. eapply Hnone; [left|reflexivity].
    + injection Hthrew as <-. exists k, v. split; [exact Hanswer|exact Htrace].
Defined.

(** X5 on the scenario: Bob has a pickup route; Ann saves a location and a
    pickup route of her own. *)
Lemma records_of_others_untouched_witness :
  let w := (post_user_pickup_route sample_env bob_pickup_route_request
              empty_world).2 in
  store (serve_all [(POST_user_location, sample_env, location_request 12 77);
                    (POST_user_pickup_route, sample_env, pickup_route_request)] w)
    !! user_key "u2" PickupRoute
  = store w !! user_key "u2" PickupRoute.
Proof.
  intros w. apply records_of_others_untouched.
  intros x u Hin Hc.
  apply elem_of_cons in Hin as [->|Hin];
    [|apply list_elem_of_singleton in Hin as ->];
    vm_compute in Hc; injection Hc as <-; discriminate.
Defined.

(** X6 on the scenario: Ann's university, after she saved another one and a
    location. *)
Lemma stored_records_persist_witness :
  let w := (post_user_university sample_env (university_request "uni-1")
              empty_world).2 in
  is_Some (store (serve_all
                    [(POST_user_location, sample_env, location_request 12 77);
                     (POST_user_university, sample_env, university_request "uni-2")]
                    w) !! user_key "u1" University).
Proof.
  intros w. apply stored_records_persist.
  exists (JStr "uni-1"). vm_compute. reflexivity.
Defined.

(** X7 on the scenario: Ann saves a pickup route; Bob saves his, Ann saves
    a location; Ann reads hers back. *)
Lemma saved_pickup_route_is_read_back_witness :
  let w' := serve_all [(POST_user_pickup_route, sample_env, bob_pickup_route_request);
                       (POST_user_location, sample_env, location_request 12 77)]
                      (post_user_pickup_route sample_env pickup_route_request
                         empty_world).2 in
  get_user_pickup_route sample_env (as_ann JNull) w'
  = (c_json
       (JObj [("pickup_route",
               JObj [("bus_id", JStr "bus-7");
                     ("pickup_latitude", JNum (num_of_Z 12));
                     ("pickup_longitude", JNum (num_of_Z 77));
                     ("created_at", JStr "2023-11-14T22:13:20.000Z")])]) 200,
     log (KvGet "user:u1:pickup-route") (log (GetUser (Some "t1")) w')).
Proof.
  intros w'.
  apply (saved_pickup_route_is_read_back sample_env pickup_route_request
           empty_world (log (GetUser (Some "t1")) empty_world)
           {| userId := "u1"; email := "ann@example.com" |} pickup_route_fields
           [(POST_user_pickup_route, sample_env, bob_pickup_route_request);
            (POST_user_location, sample_env, location_request 12 77)]
           sample_env (as_ann JNull)
           {| userId := "u1"; email := "ann@example.com" |}).
  - reflexivity.
  - reflexivity.
  - reflexivity.
  - intros env req u w Hin Hc Hok.
    apply elem_of_cons in Hin as [Heq|Hin].
    { injection Heq as -> ->. vm_compute in Hc. injection Hc as <-. discriminate. }
    apply list_elem_of_singleton in Hin. discriminate Hin.
  - apply ann_is_authenticated.
  - reflexivity.
Defined.

(** X8 on the scenario: Ann saves a university, then a location, and looks
    at her profile. *)
Lemma saved_university_is_in_profile_witness :
  let w' := serve_all [(POST_user_location, sample_env, location_request 12 77)]
                      (post_user_university sample_env (university_request "uni-1")
                         empty_world).2 in
  status (get_user_profile sample_env (as_ann JNull) w').1 = 200 /\
  opt_get (body (get_user_profile sample_env (as_ann JNull) w').1) "university"
  = JStr "uni-1".
Proof.
  intros w'.
  apply (saved_university_is_in_profile sample_env (university_request "uni-1")
           empty_world (log (GetUser (Some "t1")) empty_world)
           {| userId := "u1"; email := "ann@example.com" |}
           [("university_id", JStr "uni-1")]
           [(POST_user_location, sample_env, location_request 12 77)]
           sample_env (as_ann JNull)
           {| userId := "u1"; email := "ann@example.com" |}
           (log (GetUser (Some "t1")) w')
           {| data_user := Some ann; error := None |}).
  - reflexivity.
  - reflexivity.
  - reflexivity.
  - intros env req u w Hin Hc Hok.
    apply list_elem_of_singleton in Hin. discriminate Hin.
  - apply ann_is_authenticated.
  - reflexivity.
  - reflexivity.
Defined.

(** X10 on the scenario: Ann's location save. *)
Lemma saved_means_written_witness :
  exists k v s',
    kv_set k v (store empty_world) = Returns s' /\
    (serve POST_user_location sample_env (location_request 12 77) empty_world).2
    = {| store := s';
         trace := KvSet k v
                  :: trace (verifyAuth sample_env
                              (header_Authorization (location_request 12 77))
                              empty_world).2 |}.
Proof.
  apply (saved_means_written POST_user_location sample_env (location_request 12 77)
           empty_world).
  - apply list_elem_of_further, list_elem_of_here.
  - reflexivity.
Defined.

(** X11 on the scenario: Ann's profile, read after she saved a location. *)
Lemma reading_routes_keep_store_witness :
  let w := (post_user_location sample_env (location_request 12 77) empty_world).2 in
  store (serve GET_user_profile sample_env (as_ann JNull) w).2 = store w.
Proof.
  intros w.
  apply (proj1 (reading_routes_keep_store GET_user_profile sample_env
                  (as_ann JNull) w (list_elem_of_further _ _ _ (list_elem_of_here _ _)))).
Defined.

(** X12 on the scenario: Ann submits feedback with a body cut short. *)
Lemma unreadable_body_is_500_witness :
  (serve POST_feedback sample_env unreadable_request empty_world).1
  = json_error (JStr "Unexpected end of JSON input") 500.
Proof.
  apply (proj1 (unreadable_body_is_500 POST_feedback sample_env unreadable_request
                  empty_world (JStr "Unexpected end of JSON input")
                  ltac:(repeat first [apply list_elem_of_here
                                     | apply list_elem_of_further])
                  (or_introl eq_refl)
                  (fun _ => ex_intro _ {| userId := "u1"; email := "ann@example.com" |}
                                     eq_refl))).
Defined.

(** X13 on the scenario: a signup under an email the provider does not
    list. *)
Lemma signup_success_means_created_witness :
  exists attrs,
    attr_email attrs = JStr "carol@example.com" /\
    attr_email_confirm attrs = true /\
    trace (post_auth_signup sample_env new_signup empty_world).2
    = [CreateUser attrs; ListUsers].
Proof.
  pose proof (signup_success_means_created sample_env new_signup empty_world eq_refl)
    as (fs & l & r & u & Hjson & _ & _ & _ & _ & _ & _ & _ & Hrest).
  cbv zeta in Hrest. destruct Hrest as (_ & _ & _ & Hw & _).
  injection Hjson as <-. eexists.
  split; [|split]; [| |rewrite Hw; reflexivity]; reflexivity.
Defined.

(** X14 on the scenario: the password 12345, a number. *)
Lemma numeric_password_unchecked_witness :
  exists evs,
    trace (post_auth_signup sample_env numeric_password_signup empty_world).2
    = evs ++ ListUsers :: trace empty_world.
Proof.
  apply (numeric_password_unchecked sample_env numeric_password_signup empty_world
           (signup_fields (JNum (num_of_Z 12345))) (num_of_Z 12345));
    reflexivity.
Defined.

(** X16 on the scenario: a location save of Ann and a pickup-route save of
    Bob, in both orders. *)
Lemma independent_requests_commute_witness :
  store (serve_all [(POST_user_location, sample_env, location_request 12 77);
                    (POST_user_pickup_route, sample_env, bob_pickup_route_request)]
                   empty_world)
  = store (serve_all [(POST_user_pickup_route, sample_env, bob_pickup_route_request);
                      (POST_user_location, sample_env, location_request 12 77)]
                     empty_world).
Proof.
  apply independent_requests_commute.
  intros kx vx ky vy Hx Hy. vm_compute in Hx, Hy.
  injection Hx as <- _. injection Hy as <- _. discriminate.
Defined.

(** X22 on the scenario: Ann's profile, before and after Bob saved a pickup
    route. *)
Lemma answers_depend_on_own_records_witness :
  let w' := (post_user_pickup_route sample_env bob_pickup_route_request
               empty_world).2 in
  (serve GET_user_profile sample_env (as_ann JNull) empty_world).1
  = (serve GET_user_profile sample_env (as_ann JNull) w').1.
Proof.
  intros w'.
  apply (answers_depend_on_own_records GET_user_profile sample_env (as_ann JNull)
           empty_world w').
  - discriminate.
  - intros u kind Hc. vm_compute in Hc. injection Hc as <-.
    destruct kind; vm_compute; reflexivity.
Defined.

(** X23 on the scenario: a feedback submission of Ann. *)
Lemma flat_requests_never_500_witness :
  status (serve POST_feedback sample_env (feedback_for "d1" 5) empty_world).1 <> 500.
Proof.
  apply (flat_requests_never_500 POST_feedback sample_env (feedback_for "d1" 5)
           empty_world).
  - intros token. simpl. repeat case_match; eauto.
  - intros uid. eexists. reflexivity.
  - eexists. reflexivity.
  - intros attrs. eexists. split; [reflexivity|]. right. simpl. eauto.
  - intros _. exists [("driver_id", JStr "d1"); ("rating", JNum (num_of_Z 5))].
    split; [reflexivity|]. intros k. simpl. repeat case_match; done.
Defined.

(** The seed on an empty database: the 89th driver has no name. *)
Example seed_on_empty_database :
  Seed.seed empty_database = Seed.Raise (Seed.not_null_violation "drivers" "name").
Proof. vm_compute. reflexivity. Qed.

(** X19 on the scenario: the block completes on one university. *)
Lemma seed_block_needs_names_witness :
  (6 * length (Seed.universities one_university) <= length Seed.driver_names)%nat /\
  (length (Seed.universities one_university) <= 14)%nat.
Proof.
  eapply (seed_block_needs_names one_university). vm_compute. reflexivity.
Defined.

(** X20 on the scenario: the drivers and buses of one university. *)
Lemma seed_block_inserts_witness :
  exists db',
    Seed.DO_block one_university = Seed.Ok db' /\
    Seed.d_name <$> Seed.drivers db'
    = ["Rajesh Kumar"; "Suresh Sharma"; "Amit Singh"; "Vijay Patel"; "Ravi Gupta";
       "Manoj Yadav"] /\
    Seed.b_bus_number <$> Seed.buses db'
    = ["IIT Delhi-1"; "IIT Delhi-2"; "IIT Delhi-3"; "IIT Delhi-4"; "IIT Delhi-5";
       "IIT Delhi-6"].
Proof.
  assert (exists db', Seed.DO_block one_university = Seed.Ok db') as [db' Hrun].
  { eexists. vm_compute. reflexivity. }
  exists db'. split; [exact Hrun|].
  destruct (seed_block_inserts one_university db' Hrun) as (_ & Hd & Hb).
  split; [exact Hd | exact Hb].
Defined.

(** X21 on the scenario: the seed on an empty database. *)
Lemma seed_never_completes_witness :
  exists e, Seed.seed empty_database = Seed.Raise e.
Proof.
  apply (seed_never_completes empty_database).
  - apply NoDup_fmap_2; [by intros x y|apply NoDup_seq].
  - intros id _ Hin. by apply elem_of_nil in Hin.
Defined.
End Scenario.
